(** * Cloud FitTrack: the workout form callback and the dashboard aggregation

    A shallow embedding of [fitness_app.py].  Python values are modelled with
    the types the Streamlit widgets give them: [int] as [Z], [float] as IEEE
    binary64 ([spec_float] at precision 53), [str] as [string], and a session
    key that may be absent as an [option].  Exceptions are an error result. *)

From Stdlib Require Import ZArith List String Ascii Bool Lia.
From Stdlib Require Import DecimalString Sorted.
From Stdlib Require Import Floats.SpecFloat.
Import ListNotations.

Local Open Scope Z_scope.

(** ** Python exceptions as results *)

Inductive PyError : Type :=
| AttributeError (key : string)
| ZeroDivisionError
| OverflowError
| ValueError.

Definition result (A : Type) : Type := (PyError + A)%type.

Definition Ok {A : Type} (a : A) : result A := inr a.
Definition Raise {A : Type} (e : PyError) : result A := inl e.

Definition bind {A B : Type} (r : result A) (k : A -> result B) : result B :=
  match r with
  | inl e => inl e
  | inr a => k a
  end.

Notation "x <- c ;; k" := (bind c (fun x => k))
  (at level 61, c at next level, right associativity).
Notation "' pat <- c ;; k" := (bind c (fun x => match x with pat => k end))
  (at level 61, pat pattern, c at next level, right associativity).

(** ** Python [float]: IEEE 754 binary64 *)

Module F64.

Definition prec : Z := 53.
Definition emax : Z := 1024.

Definition float : Type := spec_float.

Definition zero : float := S754_zero false.

(** [float(z)] for a Python [int]: correctly rounded, [OverflowError] when
    the integer is too large for a double. *)
Definition of_int (z : Z) : result float :=
  match binary_normalize prec emax z 0 false with
  | S754_infinity _ => Raise OverflowError
  | f => Ok f
  end.

Definition is_zero (x : float) : bool :=
  match x with
  | S754_zero _ => true
  | _ => false
  end.

(** [a / b] on two floats: [ZeroDivisionError] on a zero divisor, no check
    of the quotient (an overflow gives an infinity). *)
Definition truediv (a b : float) : result float :=
  if is_zero b then Raise ZeroDivisionError else Ok (SFdiv prec emax a b).

(** [n / x] with [n] an [int] and [x] a [float]. *)
Definition int_truediv_float (n : Z) (x : float) : result float :=
  a <- of_int n ;; truediv a x.

(** [a / b] on two [int]s: the correctly rounded quotient. *)
Definition int_truediv (a b : Z) : result float :=
  match b, a with
  | 0, _ => Raise ZeroDivisionError
  | _, 0 => Ok (S754_zero (b <? 0))
  | _, _ =>
      match SFdiv prec emax
              (S754_finite (a <? 0) (Z.to_pos (Z.abs a)) 0)
              (S754_finite (b <? 0) (Z.to_pos (Z.abs b)) 0) with
      | S754_infinity _ => Raise OverflowError
      | f => Ok f
      end
  end.

(** [x - n] and [x * n] with [x] a [float] and [n] an [int]. *)
Definition sub_int (x : float) (n : Z) : result float :=
  b <- of_int n ;; Ok (SFsub prec emax x b).

Definition mul_int (x : float) (n : Z) : result float :=
  b <- of_int n ;; Ok (SFmul prec emax x b).

(** The exact comparison of a float with an [int]; [None] for a NaN. *)
Definition compare_int (x : float) (n : Z) : option comparison :=
  match x with
  | S754_nan => None
  | S754_infinity s => Some (if s then Lt else Gt)
  | S754_zero _ => Some (0 ?= n)
  | S754_finite s m e =>
      let sm := cond_Zopp s (Zpos m) in
      Some (if 0 <=? e then (sm * 2 ^ e ?= n) else (sm ?= n * 2 ^ (- e)))
  end.

(** [x > n]. *)
Definition gt_int (x : float) (n : Z) : bool :=
  match compare_int x n with
  | Some Gt => true
  | _ => false
  end.

(** [x <= n]. *)
Definition le_int (x : float) (n : Z) : bool :=
  match compare_int x n with
  | Some Lt | Some Eq => true
  | _ => false
  end.

(** [int(x)]: truncation toward zero. *)
Definition to_int (x : float) : result Z :=
  match x with
  | S754_nan => Raise ValueError
  | S754_infinity _ => Raise OverflowError
  | S754_zero _ => Ok 0
  | S754_finite s m e => Ok (cond_Zopp s (Z.shiftl (Zpos m) e))
  end.

(** [math.floor(x)]. *)
Definition floor (x : float) : result Z :=
  match x with
  | S754_nan => Raise ValueError
  | S754_infinity _ => Raise OverflowError
  | S754_zero _ => Ok 0
  | S754_finite s m e => Ok (Z.shiftl (cond_Zopp s (Zpos m)) e)
  end.

(** [math.isfinite(x)]. *)
Definition is_finite (x : float) : bool :=
  match x with
  | S754_zero _ | S754_finite _ _ _ => true
  | _ => false
  end.

End F64.

(** ** Formatting *)

Module Fmt.

(** [str(n)] for an [int]. *)
Definition str_int (n : Z) : string := NilZero.string_of_int (Z.to_int n).

Fixpoint zeros (n : nat) : string :=
  match n with
  | O => EmptyString
  | S k => String "0" (zeros k)
  end.

(** Left padding with ['0'] up to [width] characters. *)
Definition zfill (width : nat) (s : string) : string :=
  (zeros (width - String.length s) ++ s)%string.

(** [format(n, "0Wd")]: sign-aware zero padding to [width] characters. *)
Definition fmt_0d (width : nat) (n : Z) : string :=
  if n <? 0
  then ("-" ++ zfill (width - 1) (str_int (Z.abs n)))%string
  else zfill width (str_int n).

(** The integer nearest to [num / den], ties to even ([0 < den]). *)
Definition div_half_even (num den : Z) : Z :=
  let q := num / den in
  let r := num mod den in
  match 2 * r ?= den with
  | Lt => q
  | Gt => q + 1
  | Eq => if Z.even q then q else q + 1
  end.

(** [format(x, ".Df")] for [D = digits >= 1]: the decimal expansion of the
    exact binary value, correctly rounded at [digits] decimals. *)
Definition fmt_f (digits : nat) (x : F64.float) : string :=
  match x with
  | S754_nan => "nan"
  | S754_infinity s => if s then "-inf" else "inf"
  | S754_zero s =>
      ((if s then "-" else "") ++ "0." ++ zeros digits)%string
  | S754_finite s m e =>
      let p := 10 ^ Z.of_nat digits in
      let n := if 0 <=? e then Zpos m * p * 2 ^ e
               else div_half_even (Zpos m * p) (2 ^ (- e)) in
      ((if s then "-" else "") ++ str_int (n / p) ++ "."
         ++ zfill digits (str_int (n mod p)))%string
  end.

End Fmt.

(** ** The session state and the workout store *)

Local Open Scope string_scope.

(** A [datetime.date], as [st.date_input] returns it. *)
Record Date : Type := { year : Z; month : Z; day : Z }.

(** [date.strftime("%Y-%m-%d")]. *)
Definition strftime_ymd (d : Date) : string :=
  Fmt.fmt_0d 4 (year d) ++ "-" ++ Fmt.fmt_0d 2 (month d) ++ "-"
    ++ Fmt.fmt_0d 2 (day d).

(** [firestore.SERVER_TIMESTAMP], a sentinel the store replaces. *)
Inductive Sentinel : Type := SERVER_TIMESTAMP.

(** The document [add_workout] pushes to the ["workouts"] collection. *)
Record Workout : Type := {
  w_date : string;
  w_category : string;
  w_sub_type : string;
  w_duration_min : Z;
  w_distance_km : F64.float;
  w_pace : string;
  w_structure : string;
  w_rpe : Z;
  w_notes : string;
  w_created_at : Sentinel
}.

(** [st.session_state]: one field per key the program uses, [None] while
    the key is absent.  The two message keys hold a string or [None]. *)
Record SessionState : Type := {
  date : option Date;
  category : option string;
  subtype_run : option string;
  subtype_ride : option string;
  structure_input : option string;
  duration : option Z;
  rpe : option Z;
  distance : option F64.float;
  manual_pace : option bool;
  pace_input : option string;
  distance_cycle : option F64.float;
  distance_swim : option F64.float;
  notes : option string;
  confirm_save : option bool;
  success_msg : option (option string);
  warning_msg : option (option string)
}.

(** What a run of the script can touch: the session and the collection. *)
Record World : Type := {
  session_state : SessionState;
  workouts : list Workout
}.

(** [st.session_state.key]: [AttributeError] on an absent key. *)
Definition attr {A : Type} (key : string) (v : option A) : result A :=
  match v with
  | Some a => Ok a
  | None => Raise (AttributeError key)
  end.

(** [if key in st.session_state: st.session_state.key = v]. *)
Definition reset_if_present {A : Type} (v : A) (old : option A) : option A :=
  match old with
  | Some _ => Some v
  | None => None
  end.

Definition add_workout (date' : Date) (category' sub_type : string)
    (duration' : Z) (distance' : F64.float) (pace structure : string)
    (rpe' : Z) (notes' : string) (db : list Workout) : list Workout :=
  db ++ [ {| w_date := strftime_ymd date';
             w_category := category';
             w_sub_type := sub_type;
             w_duration_min := duration';
             w_distance_km := distance';
             w_pace := pace;
             w_structure := structure;
             w_rpe := rpe';
             w_notes := notes';
             w_created_at := SERVER_TIMESTAMP |} ].

(** ** [save_workout_callback] *)

Definition confirm_warning : string :=
  "⚠️ Please check 'Ready to Save' to confirm.".

(** Lines 85-95: the sub-type and the interval structure. *)
Definition sub_type_and_structure (ss : SessionState) (category' : string)
  : result (string * string) :=
  let sub_type := "Normal" in
  let structure := "" in
  if String.eqb category' "Running" then
    sub_type <- attr "subtype_run" (subtype_run ss) ;;
    if String.eqb sub_type "Workout"
    then structure <- attr "structure_input" (structure_input ss) ;;
         Ok (sub_type, structure)
    else Ok (sub_type, structure)
  else if String.eqb category' "Cycling" then
    sub_type <- attr "subtype_ride" (subtype_ride ss) ;;
    if String.eqb sub_type "Workout"
    then structure <- attr "structure_input" (structure_input ss) ;;
         Ok (sub_type, structure)
    else Ok (sub_type, structure)
  else Ok (sub_type, structure).

(** Lines 107-110: the running pace of a positive distance. *)
Definition running_pace (duration' : Z) (distance' : F64.float)
  : result string :=
  pace_decimal <- F64.int_truediv_float duration' distance' ;;
  minutes <- F64.to_int pace_decimal ;;
  frac <- F64.sub_int pace_decimal minutes ;;
  scaled <- F64.mul_int frac 60 ;;
  seconds <- F64.to_int scaled ;;
  Ok (Fmt.str_int minutes ++ ":" ++ Fmt.fmt_0d 2 seconds ++ " /km").

(** Lines 114-115: the cycling speed. *)
Definition cycling_speed (duration' : Z) (distance' : F64.float)
  : result string :=
  hours <- F64.int_truediv duration' 60 ;;
  speed <- F64.truediv distance' hours ;;
  Ok (Fmt.fmt_f 1 speed ++ " km/h").

(** Lines 97-117: the distance and the pace string. *)
Definition distance_and_pace (ss : SessionState) (category' : string)
    (duration' : Z) : result (F64.float * string) :=
  let distance0 := F64.zero in
  let pace_str := "N/A" in
  if String.eqb category' "Running" then
    distance' <- attr "distance" (distance ss) ;;
    manual <- attr "manual_pace" (manual_pace ss) ;;
    if manual : bool
    then pace_str <- attr "pace_input" (pace_input ss) ;;
         Ok (distance', pace_str)
    else if F64.gt_int distance' 0
         then pace_str <- running_pace duration' distance' ;;
              Ok (distance', pace_str)
         else Ok (distance', pace_str)
  else if String.eqb category' "Cycling" then
    distance' <- attr "distance_cycle" (distance_cycle ss) ;;
    if F64.gt_int distance' 0 && (0 <? duration')%Z
    then pace_str <- cycling_speed duration' distance' ;;
         Ok (distance', pace_str)
    else Ok (distance', pace_str)
  else if String.eqb category' "Swimming" then
    distance' <- attr "distance_swim" (distance_swim ss) ;;
    Ok (distance', pace_str)
  else Ok (distance0, pace_str).

(** Lines 122-135: the messages and the reset of the inputs. *)
Definition reset_inputs (ss : SessionState) (sub_type category' : string)
  : SessionState :=
  {| date := date ss;
     category := category ss;
     subtype_run := subtype_run ss;
     subtype_ride := subtype_ride ss;
     structure_input := reset_if_present "" (structure_input ss);
     duration := Some 30%Z;
     rpe := Some 5%Z;
     distance := reset_if_present F64.zero (distance ss);
     manual_pace := Some false;
     pace_input := Some "";
     distance_cycle := reset_if_present F64.zero (distance_cycle ss);
     distance_swim := reset_if_present F64.zero (distance_swim ss);
     notes := Some "";
     confirm_save := Some false;
     success_msg :=
       Some (Some ("✅ Saved " ++ sub_type ++ " (" ++ category'
                     ++ ") to Cloud!"));
     warning_msg := Some None |}.

(** Line 75: only the warning changes. *)
Definition set_warning (ss : SessionState) (msg : option string)
  : SessionState :=
  {| date := date ss;
     category := category ss;
     subtype_run := subtype_run ss;
     subtype_ride := subtype_ride ss;
     structure_input := structure_input ss;
     duration := duration ss;
     rpe := rpe ss;
     distance := distance ss;
     manual_pace := manual_pace ss;
     pace_input := pace_input ss;
     distance_cycle := distance_cycle ss;
     distance_swim := distance_swim ss;
     notes := notes ss;
     confirm_save := confirm_save ss;
     success_msg := success_msg ss;
     warning_msg := Some msg |}.

Definition save_workout_callback (w : World) : result World :=
  let ss := session_state w in
  confirm <- attr "confirm_save" (confirm_save ss) ;;
  if negb confirm
  then Ok {| session_state := set_warning ss (Some confirm_warning);
             workouts := workouts w |}
  else
    date' <- attr "date" (date ss) ;;
    category' <- attr "category" (category ss) ;;
    duration' <- attr "duration" (duration ss) ;;
    notes' <- attr "notes" (notes ss) ;;
    rpe' <- attr "rpe" (rpe ss) ;;
    '(sub_type, structure) <- sub_type_and_structure ss category' ;;
    '(distance', pace_str) <- distance_and_pace ss category' duration' ;;
    Ok {| session_state := reset_inputs ss sub_type category';
          workouts := add_workout date' category' sub_type duration'
                        distance' pace_str structure rpe' notes'
                        (workouts w) |}.

(** Lines 163-169 of the form: whether the chosen sub-type is the interval
    one of its category. *)
Definition is_interval (cat sub_type : string) : bool :=
  (String.eqb cat "Running" && String.eqb sub_type "Workout")
  || (String.eqb cat "Cycling" && String.eqb sub_type "Workout").

(** The options of the category select box (line 156). *)
Definition categories : list string :=
  ["Running"; "Cycling"; "Swimming"; "Gym"; "Stretching"].

(** ** The part of pandas the dashboard uses *)

Local Open Scope Z_scope.

(** A [pd.Timestamp] without time zone: nanoseconds since 1970-01-01. *)
Definition Timestamp : Type := Z.

Definition NS_PER_DAY : Z := 86400 * 10 ^ 9.

(** [pd.to_timedelta(n, unit='D')] and [pd.Timedelta(weeks=n)]. *)
Definition Timedelta_days (n : Z) : Z := n * NS_PER_DAY.
Definition Timedelta_weeks (n : Z) : Z := n * 7 * NS_PER_DAY.

(** [ts.normalize()]: midnight of the same day. *)
Definition normalize (t : Timestamp) : Timestamp :=
  t / NS_PER_DAY * NS_PER_DAY.

(** [ts.dayofweek]: Monday is 0; 1970-01-01 was a Thursday. *)
Definition dayofweek (t : Timestamp) : Z := (t / NS_PER_DAY + 3) mod 7.

(** [pd.Timestamp(year=y, month=m, day=d)], the value [pd.to_datetime]
    gives to a ["%Y-%m-%d"] string: midnight of the proleptic Gregorian
    day. *)
Definition Timestamp_ymd (y m d : Z) : Timestamp :=
  let y' := if m <=? 2 then y - 1 else y in
  let era := y' / 400 in
  let yoe := y' - era * 400 in
  let doy := (153 * (if 2 <? m then m - 3 else m + 9) + 2) / 5 + d - 1 in
  let doe := yoe * 365 + yoe / 4 - yoe / 100 + doy in
  Timedelta_days (era * 146097 + doe - 719468).

(** [ts + Week(weekday=0)]: the first Monday after [ts]. *)
Definition add_week_mon (t : Timestamp) : Timestamp :=
  if dayofweek t =? 0
  then t + Timedelta_weeks 1
  else t + Timedelta_days ((0 - dayofweek t) mod 7).

(** [ts - Week(weekday=0)]: the last Monday before [ts]. *)
Definition sub_week_mon (t : Timestamp) : Timestamp :=
  if dayofweek t =? 0
  then t - Timedelta_weeks 1
  else t + Timedelta_days ((0 - dayofweek t) mod 7) - Timedelta_weeks 1.

(** [pd.date_range(start, end, freq='W-MON')] between two Mondays. *)
Definition date_range_weekly (first last : Timestamp) : list Timestamp :=
  map (fun k => first + Timedelta_weeks (Z.of_nat k))
      (seq 0 (Z.to_nat ((last - first) / Timedelta_weeks 1 + 1))).

(** The sum of an [int64] column: it wraps around. *)
Definition wrap64 (z : Z) : Z := (z + 2 ^ 63) mod 2 ^ 64 - 2 ^ 63.

Definition int64_sum (l : list Z) : Z := wrap64 (fold_left Z.add l 0).

(** A row of the frame [load_data] returns, with the columns the dashboard
    reads. *)
Record Row : Type := {
  r_id : string;
  r_date : Timestamp;
  r_category : string;
  r_duration_min : Z;
  r_distance_km : F64.float
}.

(** The stable sort of the index that the resampler does first. *)
Fixpoint insert_by_date (r : Row) (l : list Row) : list Row :=
  match l with
  | [] => [r]
  | x :: l' =>
      if r_date r <? r_date x then r :: l else x :: insert_by_date r l'
  end.

Definition sort_by_date (l : list Row) : list Row :=
  fold_right insert_by_date [] l.

Fixpoint span {A : Type} (p : A -> bool) (l : list A) : list A * list A :=
  match l with
  | [] => ([], [])
  | x :: l' =>
      if p x then let '(a, b) := span p l' in (x :: a, b) else ([], l)
  end.

(** The linear scan of [generate_bins_dt64] with [closed='right'], followed
    by the sum of each bin: the rows up to the right edge of a bin that no
    earlier bin took.  A weekly right edge is the last nanosecond of its
    label's day. *)
Fixpoint scan_bins (labels : list Timestamp) (rows : list Row)
  : list (Timestamp * Z) :=
  match labels with
  | [] => []
  | lab :: labels' =>
      let r_bin := lab + NS_PER_DAY - 1 in
      let '(inside, later) := span (fun r => r_date r <=? r_bin) rows in
      (lab, int64_sum (map r_duration_min inside)) :: scan_bins labels' later
  end.

Definition list_min (d : Z) (l : list Z) : Z := fold_right Z.min d l.
Definition list_max (d : Z) (l : list Z) : Z := fold_right Z.max d l.

(** [df.set_index('date').resample('W-MON')[['duration_min']].sum()
    .reset_index()].  For a weekly frequency [resample] closes and labels
    its bins on the right: the edges run from the Monday before the
    earliest day to the Monday after the latest, the last edge is dropped
    when the one before it already lies after the latest timestamp, every
    bin but the first edge gets a row, and an empty bin sums to 0. *)
Definition resample_W_MON_sum (df : list Row) : list (Timestamp * Z) :=
  match df with
  | [] => []
  | r0 :: _ =>
      let lo := list_min (r_date r0) (map r_date df) in
      let hi := list_max (r_date r0) (map r_date df) in
      let first := sub_week_mon (normalize lo) in
      let last := add_week_mon (normalize hi) in
      let binner := date_range_weekly first last in
      let binner :=
        if hi <? (last - Timedelta_weeks 1) + NS_PER_DAY - 1
        then removelast binner else binner in
      scan_bins (tl binner) (sort_by_date df)
  end.

(** [df.groupby('category', as_index=False)['duration_min'].sum()]: one
    row per category, in the order of the keys. *)
Fixpoint add_to_group (k : string) (v : Z) (g : list (string * list Z))
  : list (string * list Z) :=
  match g with
  | [] => [(k, [v])]
  | (k', vs) :: g' =>
      match String.compare k k' with
      | Lt => (k, [v]) :: g
      | Eq => (k', (vs ++ [v])%list) :: g'
      | Gt => (k', vs) :: add_to_group k v g'
      end
  end.

Definition groupby_category_sum (df : list Row) : list (string * Z) :=
  map (fun kv => (fst kv, int64_sum (snd kv)))
      (fold_left (fun g r => add_to_group (r_category r) (r_duration_min r) g)
                 df []).

(** ** The clock *)

(** The wall clock: [reading k] is what the [k]-th call of
    [pd.Timestamp.now()] returns. *)
Record Clock : Type := { tick : nat; reading : nat -> Timestamp }.

Definition Timestamp_now (c : Clock) : Timestamp * Clock :=
  (reading c (tick c), {| tick := S (tick c); reading := reading c |}).

(** A clock that stands still at [now]. *)
Definition frozen (now : Timestamp) : Clock :=
  {| tick := O; reading := fun _ => now |}.

(** ** The dashboard page *)

Local Open Scope string_scope.

(** What the page shows. *)
Record Summary : Type := {
  total_workouts : nat;
  this_week_duration : string;
  this_week_distance : string;
  weekly_chart : option (string * list (Timestamp * Z));
  all_time_breakdown : list (string * Z)
}.

Inductive Page : Type :=
| NoData
| Shown (s : Summary).

Definition colors : list (string * string) :=
  [("Running", "#1f77b4"); ("Cycling", "#ff7f0e"); ("Swimming", "#2ca02c");
   ("Gym", "#9467bd"); ("Stretching", "#e377c2")].

Fixpoint dict_get (d : list (string * string)) (k default : string)
  : string :=
  match d with
  | [] => default
  | (k', v) :: d' => if String.eqb k k' then v else dict_get d' k default
  end.

Section Dashboard.

(** The sum of a [float64] column; the order in which numpy adds the
    elements is not fixed here. *)
Variable float64_sum : list F64.float -> F64.float.

(** Lines 220-227: the three figures, from two readings of the clock. *)
Definition current_week_start (t1 t2 : Timestamp) : Timestamp :=
  t1 - Timedelta_days (dayofweek t2).

Definition this_week_df (df : list Row) (t1 t2 : Timestamp) : list Row :=
  filter (fun r => normalize (current_week_start t1 t2) <=? r_date r)%Z df.

(** Lines 235-241: the rows and the colour of the chosen activity. *)
Definition df_filtered (df : list Row) (activity_filter : string)
  : list Row :=
  if String.eqb activity_filter "All Activities" then df
  else filter (fun r => String.eqb (r_category r) activity_filter) df.

Definition c_color (activity_filter : string) : string :=
  if String.eqb activity_filter "All Activities" then "#FF4B4B"
  else dict_get colors activity_filter "#FF4B4B".

(** Lines 243-245. *)
Definition df_weekly (df : list Row) (activity_filter : string)
  : list (Timestamp * Z) :=
  resample_W_MON_sum (df_filtered df activity_filter).

Definition df_viz (df : list Row) (activity_filter : string)
    (t3 : Timestamp) : list (Timestamp * Z) :=
  let last_12 := (t3 - Timedelta_weeks 12)%Z in
  filter (fun b => last_12 <=? fst b)%Z (df_weekly df activity_filter).

(** The page for the readings [t1], [t2], [t3] of the clock. *)
Definition summary_at (df : list Row) (activity_filter : string)
    (t1 t2 t3 : Timestamp) : Summary :=
  let week := this_week_df df t1 t2 in
  let viz := df_viz df activity_filter t3 in
  {| total_workouts := List.length df;
     this_week_duration :=
       Fmt.str_int (int64_sum (map r_duration_min week)) ++ " min";
     this_week_distance :=
       Fmt.fmt_f 2 (float64_sum (map r_distance_km week)) ++ " km";
     weekly_chart :=
       match viz with
       | [] => None
       | _ => Some (c_color activity_filter, viz)
       end;
     all_time_breakdown := groupby_category_sum df |}.

(** Lines 212-262: the page reads the clock where the source calls
    [pd.Timestamp.now()]. *)
Definition dashboard (df : list Row) (activity_filter : string) (c : Clock)
  : Page * Clock :=
  match df with
  | [] => (NoData, c)
  | _ =>
      let '(t1, c1) := Timestamp_now c in
      let '(t2, c2) := Timestamp_now c1 in
      let '(t3, c3) := Timestamp_now c2 in
      (Shown (summary_at df activity_filter t1 t2 t3), c3)
  end.

End Dashboard.

(** The week bucket the specification describes: the Monday that starts
    the week of [t]. *)
Definition week_start (t : Timestamp) : Timestamp :=
  normalize t - Timedelta_days (dayofweek t).

(** The label [resample('W-MON')] gives: the Monday that ends the bin. *)
Definition week_label (t : Timestamp) : Timestamp :=
  normalize t + Timedelta_days ((0 - dayofweek t) mod 7).

(** ** Concrete inputs *)

Local Open Scope string_scope.

(** The doubles [5.0] and [20.0], and the smallest positive double. *)
Definition f5 : F64.float := S754_finite false 5629499534213120 (-50).
Definition f20 : F64.float := S754_finite false 5629499534213120 (-48).
Definition f_tiny : F64.float := S754_finite false 1 (-1074).

(** A filled form, ready to save, as the session holds it after one run of
    the "Log Workout" page in which every widget was drawn. *)
Definition form (cat : string) (dur : Z) (dist : F64.float) (manual : bool)
    (pace structure : string) : SessionState :=
  {| date := Some {| year := 2024; month := 1; day := 9 |};
     category := Some cat;
     subtype_run := Some "Easy Run";
     subtype_ride := Some "Easy Spin";
     structure_input := Some structure;
     duration := Some dur;
     rpe := Some 5%Z;
     distance := Some dist;
     manual_pace := Some manual;
     pace_input := Some pace;
     distance_cycle := Some dist;
     distance_swim := Some dist;
     notes := Some "felt good";
     confirm_save := Some true;
     success_msg := None;
     warning_msg := None |}.

Definition world_of (ss : SessionState) : World :=
  {| session_state := ss; workouts := [] |}.

(** The same form with the "Ready to Save" box left unticked. *)
Definition unconfirmed : SessionState :=
  {| date := Some {| year := 2024; month := 1; day := 9 |};
     category := Some "Running";
     subtype_run := Some "Workout";
     subtype_ride := None;
     structure_input := Some "6 x 800m";
     duration := Some 45%Z;
     rpe := Some 7%Z;
     distance := Some f5;
     manual_pace := Some true;
     pace_input := Some "4:30 /km";
     distance_cycle := None;
     distance_swim := None;
     notes := Some "track";
     confirm_save := Some false;
     success_msg := None;
     warning_msg := None |}.

(** ** Auxiliary definitions for the weekly series *)

Local Open Scope Z_scope.

(** [n] consecutive Mondays from [L] on. *)
Definition weeks_from (L : Timestamp) (n : nat) : list Timestamp :=
  map (fun k => L + Timedelta_weeks (Z.of_nat k)) (seq 0 n).

(** The bin with label [L]: after the last nanosecond of the Monday before
    and up to the last nanosecond of [L]'s day. *)
Definition in_bin (L : Timestamp) (r : Row) : bool :=
  (L - Timedelta_weeks 1 + NS_PER_DAY - 1 <? r_date r)
  && (r_date r <=? L + NS_PER_DAY - 1).

Definition zsum (l : list Z) : Z := fold_right Z.add 0 l.

(** The order of the sorted index. *)
Definition date_le (a b : Row) : Prop := r_date a <= r_date b.

(** A calendar date: a timestamp at midnight. *)
Definition is_midnight (t : Timestamp) : Prop := normalize t = t.

Definition row (y m d : Z) (cat : string) (dur : Z) (dist : F64.float)
  : Row :=
  {| r_id := "";
     r_date := Timestamp_ymd y m d;
     r_category := cat;
     r_duration_min := dur;
     r_distance_km := dist |}.

(** The sum of a short [float64] column, in the order of the index. *)
Definition float64_sum_seq (l : list F64.float) : F64.float :=
  fold_left (SFadd F64.prec F64.emax) l F64.zero.

(** Two Monday workouts a fortnight apart, and one Tuesday workout. *)
Definition df_gap : list Row :=
  [row 2024 1 8 "Running" 30 f5; row 2024 1 22 "Running" 40 f5].

Definition df_tuesday : list Row := [row 2024 1 9 "Running" 30 f5].

(** The end-to-end scenario of the specification: two Monday runs. *)
Definition df_two_mondays : list Row :=
  [row 2024 1 8 "Running" 30 f5; row 2024 1 15 "Running" 40 f5].

(** A Saturday run and a Sunday run of the same week. *)
Definition df_weekend : list Row :=
  [row 2024 1 13 "Running" 40 f5; row 2024 1 14 "Running" 30 f5].

(** A clock read while Sunday 2024-01-14 ends: the first reading is the
    last nanosecond of the Sunday, the later ones are Monday 00:00. *)
Definition clock_over_midnight : Clock :=
  {| tick := 0;
     reading := fun k =>
       match k with
       | O => Timestamp_ymd 2024 1 15 - 1
       | S _ => Timestamp_ymd 2024 1 15
       end |}.

(** A running clock: one second between two readings, from [now] on. *)
Definition clock_ticking (now : Timestamp) : Clock :=
  {| tick := 0; reading := fun k => now + Z.of_nat k * 10 ^ 9 |}.

(** ** Auxiliary definitions for the rounding of binary64 *)

(** The record after [n] right shifts. *)
Definition shr_n (mrs : shr_record) (n : Z) : shr_record :=
  match n with
  | Zpos p => iter_pos shr_1 p mrs
  | _ => mrs
  end.

(** What [n] right shifts of [m] keep: the quotient in [shr_m], the bit
    below it in [shr_r], and whether anything lies below that in [shr_s]. *)
Definition shr_inv (m n : Z) (mrs : shr_record) : Prop :=
  0 <= shr_m mrs
  /\ exists R,
       0 <= R < 2 ^ n
       /\ 2 * m = shr_m mrs * 2 ^ (n + 1)
                  + (if shr_r mrs then 2 ^ n else 0) + R
       /\ (shr_s mrs = false <-> R = 0).

(** The shape of a rounded result: mantissa [M] at exponent [E]. *)
Definition rounded (sx : bool) (M E : Z) : spec_float :=
  match M with
  | Z0 => S754_zero sx
  | Zpos m =>
      if E <=? F64.emax - F64.prec then S754_finite sx m E
      else S754_infinity sx
  | Zneg _ => S754_nan
  end.

(** The binary64 exponent function. *)
Definition fexp64 (e : Z) : Z := fexp F64.prec F64.emax e.

(** A non-negative binary64 that is zero or canonical. *)
Definition nonneg_canonical (y : spec_float) : Prop :=
  y = S754_zero false
  \/ exists m e,
       y = S754_finite false m e
       /\ fexp64 (Zpos (digits2_pos m) + e) = e /\ e <= 971.

(** A binary64 in [0, 1): +0, or canonical and below 1. *)
Definition proper_fraction (y : spec_float) : Prop :=
  y = S754_zero false
  \/ exists m e,
       y = S754_finite false m e
       /\ fexp64 (Zpos (digits2_pos m) + e) = e
       /\ e < 0 /\ Zpos m < 2 ^ (- e).

(** ** The pace as the specification words it *)

Local Open Scope string_scope.

(** [derive_pace] for Running without a manual pace and with a positive
    distance, in the arithmetic of the rationals: the distance is the
    number [m * 2^e] that the double stands for, pace_decimal =
    duration_min / distance_km is the fraction [num / den], minutes =
    floor(pace_decimal), seconds = floor((pace_decimal - minutes) * 60),
    and the output is ["{minutes}:{seconds:02d} /km"]. *)
Definition spec_derive_pace_running (duration_min : Z)
    (distance_km : F64.float) : option string :=
  match distance_km with
  | S754_finite false m e =>
      let num := (duration_min * 2 ^ Z.max 0 (- e))%Z in
      let den := (Zpos m * 2 ^ Z.max 0 e)%Z in
      let minutes := (num / den)%Z in
      let seconds := ((num - minutes * den) * 60 / den)%Z in
      Some (Fmt.str_int minutes ++ ":" ++ Fmt.fmt_0d 2 seconds ++ " /km")
  | _ => None
  end.

(** The decimal digit [d] as a character. *)
Definition digit_char (d : Z) : ascii := ascii_of_nat (48 + Z.to_nat d).

Local Open Scope Z_scope.

(** ** The rest of the "Log Workout" page *)

Local Open Scope string_scope.

(** [st.session_state.get(key, default)] on the integer duration. *)
Definition get_or {A : Type} (v : option A) (default : A) : A :=
  match v with
  | Some a => a
  | None => default
  end.

(** Lines 186-195: what the form shows beside the running distance when
    the pace is not typed in.  The distance defaults to the integer [0],
    which is not positive; the quotient [t/d] is computed twice. *)
Definition running_preview (ss : SessionState) : result (option string) :=
  manual <- attr "manual_pace" (manual_pace ss) ;;
  if manual : bool then Ok None
  else
    let t := get_or (duration ss) 30%Z in
    match distance ss with
    | None => Ok None
    | Some d =>
        if F64.gt_int d 0 then
          q <- F64.int_truediv_float t d ;;
          mins <- F64.to_int q ;;
          q' <- F64.int_truediv_float t d ;;
          frac <- F64.sub_int q' mins ;;
          scaled <- F64.mul_int frac 60 ;;
          secs <- F64.to_int scaled ;;
          Ok (Some ("Calc: " ++ Fmt.str_int mins ++ ":" ++ Fmt.fmt_0d 2 secs
                      ++ " /km"))
        else Ok None
    end.

(** Lines 201-202: the same for the cycling speed. *)
Definition cycling_preview (ss : SessionState) : result (option string) :=
  let t := get_or (duration ss) 30%Z in
  match distance_cycle ss with
  | None => Ok None
  | Some d =>
      if F64.gt_int d 0 && (0 <? t)%Z then
        hours <- F64.int_truediv t 60 ;;
        speed <- F64.truediv d hours ;;
        Ok (Some ("Calc: " ++ Fmt.fmt_f 1 speed ++ " km/h"))
      else Ok None
  end.

(** What [st.success] and [st.warning] put on the page. *)
Inductive Banner : Type :=
| Success (msg : string)
| Warning (msg : string).

(** The truth value of [st.session_state.get(key)] for a message key: a
    non-empty string. *)
Definition shown_msg (m : option (option string)) : option string :=
  match m with
  | Some (Some s) => if String.eqb s "" then None else Some s
  | _ => None
  end.

Definition set_success (ss : SessionState) (msg : option string)
  : SessionState :=
  {| date := date ss;
     category := category ss;
     subtype_run := subtype_run ss;
     subtype_ride := subtype_ride ss;
     structure_input := structure_input ss;
     duration := duration ss;
     rpe := rpe ss;
     distance := distance ss;
     manual_pace := manual_pace ss;
     pace_input := pace_input ss;
     distance_cycle := distance_cycle ss;
     distance_swim := distance_swim ss;
     notes := notes ss;
     confirm_save := confirm_save ss;
     success_msg := Some msg;
     warning_msg := warning_msg ss |}.

(** Lines 144-149: the page shows a pending message and clears it. *)
Definition show_messages (ss : SessionState) : list Banner * SessionState :=
  let '(b1, ss1) :=
    match shown_msg (success_msg ss) with
    | Some s => ([Success s], set_success ss None)
    | None => ([], ss)
    end in
  let '(b2, ss2) :=
    match shown_msg (warning_msg ss1) with
    | Some s => ([Warning s], set_warning ss1 None)
    | None => ([], ss1)
    end in
  ((b1 ++ b2)%list, ss2).

(** A track session, ready to save, with the manual pace typed in. *)
Definition interval_form : SessionState :=
  {| date := Some {| year := 2024; month := 1; day := 9 |};
     category := Some "Running";
     subtype_run := Some "Workout";
     subtype_ride := None;
     structure_input := Some "6 x 800m";
     duration := Some 45%Z;
     rpe := Some 7%Z;
     distance := Some f5;
     manual_pace := Some true;
     pace_input := Some "4:30 /km";
     distance_cycle := None;
     distance_swim := None;
     notes := Some "track";
     confirm_save := Some true;
     success_msg := None;
     warning_msg := None |}.

(** ** Auxiliary definitions for the breakdown by category *)

(** The strict order of the keys of [groupby]. *)
Definition str_lt (a b : string) : Prop := String.compare a b = Lt.

Definition keys_sorted {A : Type} (g : list (string * A)) : Prop :=
  StronglySorted (fun a b => str_lt (fst a) (fst b)) g.

(** The values collected so far under the key [k]. *)
Fixpoint group_get (k : string) (g : list (string * list Z)) : list Z :=
  match g with
  | [] => []
  | (k', vs) :: g' => if String.eqb k k' then vs else group_get k g'
  end.

Local Open Scope Z_scope.

(** * Properties *)

Local Open Scope list_scope.

(** ** The error monad *)

Lemma bind_Ok {A B : Type} (a : A) (k : A -> result B) :
  bind (Ok a) k = k a.
Proof. reflexivity. Qed.

Lemma bind_inv {A B : Type} (r : result A) (k : A -> result B) (b : B) :
  bind r k = Ok b -> exists a, r = Ok a /\ k a = Ok b.
Proof.
  destruct r as [e | a]; simpl; intros H.
  - discriminate.
  - exists a. split; [reflexivity | exact H].
Qed.

Ltac inv_bind H :=
  let a := fresh "a" in
  let Ha := fresh "Ha" in
  apply bind_inv in H; destruct H as [a [Ha H]].

(** ** The confirmation gate *)

(** C8. With the confirmation flag false the callback stores nothing, keeps
    every key of the session as it was and sets only the warning. *)
Theorem unconfirmed_save_only_warns (w : World)
    (Hflag : confirm_save (session_state w) = Some false) :
  exists w',
    save_workout_callback w = Ok w'
    /\ workouts w' = workouts w
    /\ date (session_state w') = date (session_state w)
    /\ category (session_state w') = category (session_state w)
    /\ subtype_run (session_state w') = subtype_run (session_state w)
    /\ subtype_ride (session_state w') = subtype_ride (session_state w)
    /\ structure_input (session_state w')
       = structure_input (session_state w)
    /\ duration (session_state w') = duration (session_state w)
    /\ rpe (session_state w') = rpe (session_state w)
    /\ distance (session_state w') = distance (session_state w)
    /\ manual_pace (session_state w') = manual_pace (session_state w)
    /\ pace_input (session_state w') = pace_input (session_state w)
    /\ distance_cycle (session_state w') = distance_cycle (session_state w)
    /\ distance_swim (session_state w') = distance_swim (session_state w)
    /\ notes (session_state w') = notes (session_state w)
    /\ confirm_save (session_state w') = confirm_save (session_state w)
    /\ success_msg (session_state w') = success_msg (session_state w)
    /\ warning_msg (session_state w') = Some (Some confirm_warning).
Proof.
  unfold save_workout_callback. rewrite Hflag. simpl.
  eexists. split; [reflexivity |]. simpl. rewrite Hflag.
  repeat (split; [reflexivity |]). reflexivity.
Qed.

Lemma unconfirmed_save_only_warns_witness :
  exists w',
    save_workout_callback (world_of unconfirmed) = Ok w'
    /\ workouts w' = []
    /\ distance (session_state w') = Some f5
    /\ structure_input (session_state w') = Some "6 x 800m"
    /\ warning_msg (session_state w') = Some (Some confirm_warning).
Proof.
  destruct (unconfirmed_save_only_warns (world_of unconfirmed) eq_refl)
    as [w' H].
  exists w'. intuition.
Defined.

(** ** The callback in terms of its two blocks *)

Lemma save_workout_callback_saves (w : World) (d : Date)
    (cat n sub_type structure pace : string) (dur r : Z)
    (dist : F64.float) :
  let ss := session_state w in
  confirm_save ss = Some true ->
  date ss = Some d -> category ss = Some cat -> duration ss = Some dur ->
  notes ss = Some n -> rpe ss = Some r ->
  sub_type_and_structure ss cat = Ok (sub_type, structure) ->
  distance_and_pace ss cat dur = Ok (dist, pace) ->
  save_workout_callback w
  = Ok {| session_state := reset_inputs ss sub_type cat;
          workouts := add_workout d cat sub_type dur dist pace structure r n
                        (workouts w) |}.
Proof.
  intros ss Hc Hd Hcat Hdur Hn Hr Hs Hp.
  unfold save_workout_callback. fold ss.
  rewrite Hc, Hd, Hcat, Hdur, Hn, Hr. simpl. rewrite Hs. simpl.
  rewrite Hp. reflexivity.
Qed.

Lemma save_workout_callback_inv (w w' : World) :
  confirm_save (session_state w) = Some true ->
  save_workout_callback w = Ok w' ->
  exists d cat n sub_type structure pace dur r dist,
    category (session_state w) = Some cat
    /\ duration (session_state w) = Some dur
    /\ sub_type_and_structure (session_state w) cat
       = Ok (sub_type, structure)
    /\ distance_and_pace (session_state w) cat dur = Ok (dist, pace)
    /\ w' = {| session_state := reset_inputs (session_state w) sub_type cat;
               workouts := add_workout d cat sub_type dur dist pace
                             structure r n (workouts w) |}.
Proof.
  intros Hc H. unfold save_workout_callback in H. rewrite Hc in H.
  simpl in H.
  inv_bind H. rename a into d.
  inv_bind H. rename a into cat.
  inv_bind H. rename a into dur.
  inv_bind H. rename a into n.
  inv_bind H. rename a into r.
  inv_bind H. destruct a as [sub_type structure].
  inv_bind H. destruct a as [dist pace].
  exists d, cat, n, sub_type, structure, pace, dur, r, dist.
  unfold attr in *.
  destruct (category (session_state w)); [| discriminate].
  destruct (duration (session_state w)); [| discriminate].
  inversion Ha0; inversion Ha1; subst.
  repeat split; try assumption. inversion H. reflexivity.
Qed.

(** ** The interval structure *)

Lemma sub_type_and_structure_interval (ss : SessionState)
    (cat sub_type structure : string) :
  sub_type_and_structure ss cat = Ok (sub_type, structure) ->
  is_interval cat sub_type = false -> structure = "".
Proof.
  unfold sub_type_and_structure, is_interval. intros H Hi.
  destruct (String.eqb cat "Running") eqn:Hrun.
  - inv_bind H. destruct (String.eqb a "Workout") eqn:Hw.
    + inv_bind H. inversion H; subst. rewrite Hw in Hi. discriminate.
    + inversion H; reflexivity.
  - destruct (String.eqb cat "Cycling") eqn:Hcyc.
    + inv_bind H. destruct (String.eqb a "Workout") eqn:Hw.
      * inv_bind H. inversion H; subst. rewrite Hw in Hi. discriminate.
      * inversion H; reflexivity.
    + inversion H; reflexivity.
Qed.

(** The sub-type of the record is the one chosen in the select box of its
    category, and "Normal" where the category has no select box. *)
Lemma sub_type_and_structure_chosen (ss : SessionState)
    (cat sub_type structure : string) :
  sub_type_and_structure ss cat = Ok (sub_type, structure) ->
  (cat = "Running" -> subtype_run ss = Some sub_type)
  /\ (cat = "Cycling" -> subtype_ride ss = Some sub_type)
  /\ (cat <> "Running" -> cat <> "Cycling" -> sub_type = "Normal").
Proof.
  unfold sub_type_and_structure. intros H.
  destruct (String.eqb_spec cat "Running") as [-> | N1].
  - inv_bind H. unfold attr in Ha.
    destruct (subtype_run ss) as [s |]; [| discriminate].
    injection Ha as ->.
    assert (E : a = sub_type).
    { destruct (String.eqb a "Workout").
      - inv_bind H. injection H as <- _. reflexivity.
      - injection H as <- _. reflexivity. }
    subst a. split; [reflexivity |]. split; [discriminate | congruence].
  - destruct (String.eqb_spec cat "Cycling") as [-> | N2].
    + inv_bind H. unfold attr in Ha.
      destruct (subtype_ride ss) as [s |]; [| discriminate].
      injection Ha as ->.
      assert (E : a = sub_type).
      { destruct (String.eqb a "Workout").
        - inv_bind H. injection H as <- _. reflexivity.
        - injection H as <- _. reflexivity. }
      subst a. split; [congruence |]. split; [reflexivity | congruence].
    + injection H as <- _.
      split; [congruence |]. split; [congruence | reflexivity].
Qed.

(** C6. The record the callback builds has the sub-type chosen for its
    category: the run type for a run, the ride type for a ride, "Normal"
    otherwise; and when that sub-type is not the interval type of the
    category the record has the empty structure, whatever text the
    structure input holds. *)
Theorem structure_empty_unless_interval (w w' : World)
    (Hflag : confirm_save (session_state w) = Some true)
    (Hrun : save_workout_callback w = Ok w') :
  exists cat rec,
    category (session_state w) = Some cat
    /\ workouts w' = workouts w ++ [rec]
    /\ w_category rec = cat
    /\ (cat = "Running" ->
        subtype_run (session_state w) = Some (w_sub_type rec))
    /\ (cat = "Cycling" ->
        subtype_ride (session_state w) = Some (w_sub_type rec))
    /\ (cat <> "Running" -> cat <> "Cycling" -> w_sub_type rec = "Normal")
    /\ (is_interval cat (w_sub_type rec) = false -> w_structure rec = "").
Proof.
  destruct (save_workout_callback_inv w w' Hflag Hrun)
    as (d & cat & n & sub_type & structure & pace & dur & r & dist
        & Hcat & _ & Hs & _ & ->).
  exists cat. eexists. split; [exact Hcat |]. split; [reflexivity |].
  cbn [w_category w_sub_type w_structure]. split; [reflexivity |].
  destruct (sub_type_and_structure_chosen _ _ _ _ Hs) as (H1 & H2 & H3).
  split; [exact H1 |]. split; [exact H2 |]. split; [exact H3 |].
  apply (sub_type_and_structure_interval _ _ _ _ Hs).
Qed.

Lemma structure_empty_unless_interval_witness :
  structure_input (form "Running" 30 f5 false "" "6 x 800m")
  = Some "6 x 800m"
  /\ subtype_run (form "Running" 30 f5 false "" "6 x 800m")
     = Some "Easy Run"
  /\ exists w' rec,
       save_workout_callback
         (world_of (form "Running" 30 f5 false "" "6 x 800m")) = Ok w'
       /\ workouts w' = [rec]
       /\ w_sub_type rec = "Easy Run"
       /\ w_structure rec = "".
Proof.
  split; [reflexivity |]. split; [reflexivity |].
  eexists.
  destruct (structure_empty_unless_interval
              (world_of (form "Running" 30 f5 false "" "6 x 800m")) _
              eq_refl eq_refl)
    as (cat & rec & Hcat & Hw & _ & Hsub & _ & _ & Hst).
  exists rec. split; [reflexivity |]. split; [exact Hw |].
  injection Hcat as <-.
  specialize (Hsub eq_refl). injection Hsub as Hsub.
  split; [symmetry; exact Hsub |].
  apply Hst. rewrite <- Hsub. reflexivity.
Defined.

(** ** The manual pace *)

(** C9. For Running with the manual box ticked, the pace is the text of the
    pace input as it stands, the empty text included, whatever the distance
    is, zero included. *)
Theorem manual_pace_verbatim (ss : SessionState) (dur : Z)
    (dist : F64.float) (p : string)
    (Hdist : distance ss = Some dist)
    (Hmanual : manual_pace ss = Some true)
    (Hpace : pace_input ss = Some p) :
  distance_and_pace ss "Running" dur = Ok (dist, p).
Proof.
  unfold distance_and_pace. simpl.
  rewrite Hdist, Hmanual, Hpace. reflexivity.
Qed.

Lemma manual_pace_verbatim_witness :
  distance_and_pace (form "Running" 30 F64.zero true "" "") "Running" 30
  = Ok (F64.zero, "")
  /\ distance_and_pace (form "Running" 30 F64.zero false "" "") "Running" 30
     = Ok (F64.zero, "N/A").
Proof.
  split.
  - apply (manual_pace_verbatim (form "Running" 30 F64.zero true "" "") 30
             F64.zero ""); reflexivity.
  - reflexivity.
Defined.

(** ** Categories outside the select box *)

(** C1, as the specification states it, fails: a category that is not one
    of the five options is accepted and saved with the defaults. *)
Lemma unknown_category_counterexample :
  ~ In "Yoga" categories
  /\ save_workout_callback
       (world_of (form "Yoga" 30 f5 false "" "6 x 800m"))
     = Ok {| session_state :=
               reset_inputs (form "Yoga" 30 f5 false "" "6 x 800m")
                            "Normal" "Yoga";
             workouts :=
               [ {| w_date := "2024-01-09";
                    w_category := "Yoga";
                    w_sub_type := "Normal";
                    w_duration_min := 30;
                    w_distance_km := F64.zero;
                    w_pace := "N/A";
                    w_structure := "";
                    w_rpe := 5;
                    w_notes := "felt good";
                    w_created_at := SERVER_TIMESTAMP |} ] |}.
Proof.
  split.
  - simpl. intros H. repeat (destruct H as [H | H]; [discriminate |]).
    exact H.
  - reflexivity.
Qed.

Lemma not_in_categories (cat : string) :
  ~ In cat categories ->
  String.eqb cat "Running" = false /\ String.eqb cat "Cycling" = false
  /\ String.eqb cat "Swimming" = false.
Proof.
  intros H. repeat split; apply String.eqb_neq; intros ->; apply H;
    simpl; auto.
Qed.

(** C1, amended. For a category outside the five options the callback does
    not fail: it saves a record with sub-type "Normal", no structure, the
    distance 0.0 and the pace "N/A", as it does for Gym and Stretching. *)
Theorem unknown_category_saved_with_defaults (w : World) (d : Date)
    (cat n : string) (dur r : Z)
    (Hflag : confirm_save (session_state w) = Some true)
    (Hdate : date (session_state w) = Some d)
    (Hcat : category (session_state w) = Some cat)
    (Hdur : duration (session_state w) = Some dur)
    (Hnotes : notes (session_state w) = Some n)
    (Hrpe : rpe (session_state w) = Some r)
    (Hunknown : ~ In cat categories) :
  save_workout_callback w
  = Ok {| session_state := reset_inputs (session_state w) "Normal" cat;
          workouts :=
            workouts w
            ++ [ {| w_date := strftime_ymd d;
                    w_category := cat;
                    w_sub_type := "Normal";
                    w_duration_min := dur;
                    w_distance_km := F64.zero;
                    w_pace := "N/A";
                    w_structure := "";
                    w_rpe := r;
                    w_notes := n;
                    w_created_at := SERVER_TIMESTAMP |} ] |}.
Proof.
  destruct (not_in_categories cat Hunknown) as (Hr & Hc & Hs).
  rewrite (save_workout_callback_saves w d cat n "Normal" "" "N/A" dur r
             F64.zero Hflag Hdate Hcat Hdur Hnotes Hrpe).
  - reflexivity.
  - unfold sub_type_and_structure. rewrite Hr, Hc. reflexivity.
  - unfold distance_and_pace. rewrite Hr, Hc, Hs. reflexivity.
Qed.

Lemma unknown_category_saved_with_defaults_witness :
  exists w',
    save_workout_callback (world_of (form "Yoga" 30 f5 false "" "")) = Ok w'
    /\ map w_pace (workouts w') = ["N/A"]
    /\ map w_sub_type (workouts w') = ["Normal"].
Proof.
  eexists. split.
  - apply (unknown_category_saved_with_defaults
             (world_of (form "Yoga" 30 f5 false "" ""))
             {| year := 2024; month := 1; day := 9 |} "Yoga" "felt good"
             30 5); try reflexivity.
    simpl. intros H. repeat (destruct H as [H | H]; [discriminate |]).
    exact H.
  - split; reflexivity.
Defined.

(** ** The guards of the pace *)

Lemma le_int_not_gt (x : F64.float) (n : Z) :
  F64.le_int x n = true -> F64.gt_int x n = false.
Proof.
  unfold F64.le_int, F64.gt_int.
  destruct (F64.compare_int x n) as [[ | | ] | ]; intros H;
    try reflexivity; discriminate.
Qed.

(** C5, as the specification states it, fails: a Running input with a
    duration of 0 and a positive distance gets a computed pace. *)
Lemma zero_duration_counterexample :
  (0 <= 0)%Z
  /\ manual_pace (form "Running" 0 f5 false "" "") = Some false
  /\ distance_and_pace (form "Running" 0 f5 false "" "") "Running" 0
     = Ok (f5, "0:00 /km").
Proof. split; [lia |]. split; reflexivity. Qed.

(** C5, amended. Without a manual pace the pace is "N/A", and nothing is
    raised, for Running when the distance is not positive, for Cycling when
    the distance or the duration is not positive, and for every other
    category. *)
Theorem pace_not_available (ss : SessionState) (cat : string) (dur : Z)
    (Hrun : cat = "Running" ->
            manual_pace ss = Some false
            /\ exists x, distance ss = Some x /\ F64.le_int x 0 = true)
    (Hcyc : cat = "Cycling" ->
            exists x, distance_cycle ss = Some x
                      /\ (F64.le_int x 0 = true \/ (dur <= 0)%Z))
    (Hswim : cat = "Swimming" -> exists x, distance_swim ss = Some x) :
  exists dist, distance_and_pace ss cat dur = Ok (dist, "N/A").
Proof.
  unfold distance_and_pace.
  destruct (String.eqb cat "Running") eqn:E1.
  - apply String.eqb_eq in E1. destruct (Hrun E1) as (Hm & x & Hx & Hle).
    rewrite Hx, Hm. simpl. rewrite (le_int_not_gt _ _ Hle).
    exists x. reflexivity.
  - destruct (String.eqb cat "Cycling") eqn:E2.
    + apply String.eqb_eq in E2. destruct (Hcyc E2) as (x & Hx & Hg).
      rewrite Hx. simpl. exists x.
      destruct Hg as [Hle | Hd].
      * rewrite (le_int_not_gt _ _ Hle). reflexivity.
      * replace (0 <? dur)%Z with false by (symmetry; apply Z.ltb_ge; lia).
        rewrite andb_false_r. reflexivity.
    + destruct (String.eqb cat "Swimming") eqn:E3.
      * apply String.eqb_eq in E3. destruct (Hswim E3) as (x & Hx).
        rewrite Hx. simpl. exists x. reflexivity.
      * exists F64.zero. reflexivity.
Qed.

Lemma pace_not_available_witness :
  exists dist,
    distance_and_pace (form "Cycling" 0 f20 false "" "") "Cycling" 0
    = Ok (dist, "N/A").
Proof.
  apply (pace_not_available (form "Cycling" 0 f20 false "" "") "Cycling" 0).
  - intros H. discriminate.
  - intros _. exists f20. split; [reflexivity |]. right. lia.
  - intros H. discriminate.
Defined.

(** ** The weekly series *)

Local Open Scope Z_scope.

Lemma NS_PER_DAY_eq : NS_PER_DAY = 86400000000000.
Proof. reflexivity. Qed.

Ltac days_arith :=
  unfold is_midnight, week_label, week_start, add_week_mon, sub_week_mon,
    normalize, dayofweek, Timedelta_days, Timedelta_weeks in *;
  rewrite ?NS_PER_DAY_eq in *;
  Z.div_mod_to_equations; lia.

Lemma weeks_from_S (L : Timestamp) (n : nat) :
  weeks_from L (S n) = L :: weeks_from (L + Timedelta_weeks 1) n.
Proof.
  unfold weeks_from. simpl seq. rewrite <- seq_shift. simpl map.
  rewrite map_map.
  assert (E : L + Timedelta_weeks 0 = L) by (unfold Timedelta_weeks; lia).
  rewrite E. apply f_equal.
  apply map_ext. intros k. unfold Timedelta_weeks.
  rewrite Nat2Z.inj_succ. rewrite NS_PER_DAY_eq. lia.
Qed.

Lemma weeks_from_ge (L : Timestamp) (n : nat) (x : Timestamp) :
  In x (weeks_from L n) -> L <= x.
Proof.
  unfold weeks_from. rewrite in_map_iff. intros (k & <- & _).
  unfold Timedelta_weeks. rewrite NS_PER_DAY_eq. lia.
Qed.

Lemma removelast_weeks_from (L : Timestamp) (n : nat) :
  removelast (weeks_from L (S n)) = weeks_from L n.
Proof.
  unfold weeks_from. rewrite seq_S. rewrite map_app. simpl.
  apply removelast_last.
Qed.

(** *** Sorting and scanning *)

Lemma insert_by_date_In (r x : Row) (l : list Row) :
  In x (insert_by_date r l) <-> x = r \/ In x l.
Proof.
  induction l as [| a l IH]; simpl.
  - intuition.
  - destruct (r_date r <? r_date a); simpl; rewrite ?IH; intuition.
Qed.

Lemma insert_by_date_sorted (r : Row) (l : list Row) :
  StronglySorted date_le l -> StronglySorted date_le (insert_by_date r l).
Proof.
  induction l as [| a l IH]; simpl; intros Hs.
  - constructor; constructor.
  - inversion Hs as [| ? ? Hs' Hall]; subst.
    destruct (r_date r <? r_date a) eqn:E.
    + apply Z.ltb_lt in E. constructor; [exact Hs |].
      constructor; [unfold date_le; lia |].
      rewrite Forall_forall in *. intros x Hx.
      specialize (Hall x Hx). unfold date_le in *. lia.
    + apply Z.ltb_ge in E. constructor; [apply IH; exact Hs' |].
      rewrite Forall_forall in *. intros x Hx.
      apply insert_by_date_In in Hx. destruct Hx as [-> | Hx].
      * exact E.
      * apply Hall; exact Hx.
Qed.

Lemma sort_by_date_sorted (l : list Row) :
  StronglySorted date_le (sort_by_date l).
Proof.
  induction l as [| a l IH]; simpl.
  - constructor.
  - apply insert_by_date_sorted; exact IH.
Qed.

Lemma sort_by_date_In (x : Row) (l : list Row) :
  In x (sort_by_date l) <-> In x l.
Proof.
  induction l as [| a l IH]; simpl.
  - tauto.
  - rewrite insert_by_date_In, IH. intuition.
Qed.

Lemma zsum_filter_insert (q : Row -> bool) (r : Row) (l : list Row) :
  zsum (map r_duration_min (filter q (insert_by_date r l)))
  = zsum (map r_duration_min (filter q (r :: l))).
Proof.
  induction l as [| a l IH]; [reflexivity |].
  simpl insert_by_date. destruct (r_date r <? r_date a); [reflexivity |].
  simpl in *. destruct (q a); destruct (q r); simpl in *; lia.
Qed.

Lemma zsum_filter_sort (q : Row -> bool) (l : list Row) :
  zsum (map r_duration_min (filter q (sort_by_date l)))
  = zsum (map r_duration_min (filter q l)).
Proof.
  induction l as [| a l IH]; [reflexivity |].
  simpl sort_by_date. rewrite zsum_filter_insert.
  simpl. destruct (q a); simpl; rewrite IH; reflexivity.
Qed.

Lemma fold_left_add_zsum (l : list Z) (a : Z) :
  fold_left Z.add l a = a + zsum l.
Proof.
  revert a. induction l as [| x l IH]; intros a; simpl.
  - lia.
  - rewrite IH. lia.
Qed.

Lemma int64_sum_zsum (l : list Z) : int64_sum l = wrap64 (zsum l).
Proof. unfold int64_sum. rewrite fold_left_add_zsum. reflexivity. Qed.

Lemma filter_sorted (p : Row -> bool) (l : list Row) :
  StronglySorted date_le l -> StronglySorted date_le (filter p l).
Proof.
  induction 1 as [| a l Hs IH Hall]; simpl.
  - constructor.
  - destruct (p a); [| exact IH].
    constructor; [exact IH |].
    rewrite Forall_forall in *. intros x Hx.
    apply filter_In in Hx. apply Hall. tauto.
Qed.

Lemma span_sorted (b : Z) (l : list Row) :
  StronglySorted date_le l ->
  span (fun r => r_date r <=? b) l
  = (filter (fun r => r_date r <=? b) l,
     filter (fun r => negb (r_date r <=? b)) l).
Proof.
  induction 1 as [| a l Hs IH Hall]; simpl.
  - reflexivity.
  - destruct (r_date a <=? b) eqn:E; simpl.
    + rewrite IH. reflexivity.
    + apply Z.leb_gt in E.
      assert (Hgt : forall x, In x l -> (r_date x <=? b) = false).
      { intros x Hx. rewrite Forall_forall in Hall.
        specialize (Hall x Hx). unfold date_le in Hall.
        apply Z.leb_gt. lia. }
      f_equal.
      * clear - Hgt. induction l as [| x l IH]; [reflexivity |].
        simpl. rewrite (Hgt x (or_introl eq_refl)).
        apply IH. intros y Hy. apply Hgt. right; exact Hy.
      * f_equal. clear - Hgt. induction l as [| x l IH]; [reflexivity |].
        simpl. rewrite (Hgt x (or_introl eq_refl)). simpl. f_equal.
        apply IH. intros y Hy. apply Hgt. right; exact Hy.
Qed.

Lemma filter_filter_implies {A : Type} (p q : A -> bool) (l : list A) :
  (forall x, In x l -> q x = true -> p x = true) ->
  filter q (filter p l) = filter q l.
Proof.
  induction l as [| a l IH]; intros H; [reflexivity |].
  simpl. destruct (p a) eqn:Ep; simpl.
  - destruct (q a); rewrite IH; auto; intros x Hx; apply H; right; exact Hx.
  - destruct (q a) eqn:Eq.
    + rewrite (H a (or_introl eq_refl) Eq) in Ep. discriminate.
    + apply IH. intros x Hx; apply H; right; exact Hx.
Qed.

(** The scan gives each label the rows of its bin. *)
Lemma scan_bins_weeks (n : nat) :
  forall (L : Timestamp) (rows : list Row),
    StronglySorted date_le rows ->
    Forall (fun r => L - Timedelta_weeks 1 + NS_PER_DAY - 1 < r_date r)
           rows ->
    scan_bins (weeks_from L n) rows
    = map (fun Lk =>
             (Lk, int64_sum (map r_duration_min (filter (in_bin Lk) rows))))
          (weeks_from L n).
Proof.
  induction n as [| n IH]; intros L rows Hs Hlow; [reflexivity |].
  rewrite weeks_from_S. simpl scan_bins. rewrite (span_sorted _ _ Hs).
  simpl map. f_equal.
  - f_equal. f_equal. f_equal. apply filter_ext_in. intros r Hr.
    unfold in_bin. rewrite Forall_forall in Hlow. specialize (Hlow r Hr).
    apply Z.ltb_lt in Hlow. rewrite Hlow. reflexivity.
  - rewrite IH.
    + apply map_ext_in. intros Lk HLk. apply weeks_from_ge in HLk.
      f_equal. f_equal. f_equal.
      apply filter_filter_implies. intros r _ Hr.
      unfold in_bin in Hr. apply andb_true_iff in Hr.
      destruct Hr as [Hr _]. apply Z.ltb_lt in Hr.
      apply negb_true_iff. apply Z.leb_gt. lia.
    + apply filter_sorted; exact Hs.
    + rewrite Forall_forall. intros r Hr. apply filter_In in Hr.
      destruct Hr as [_ Hr]. apply negb_true_iff in Hr.
      apply Z.leb_gt in Hr. lia.
Qed.

(** *** Calendar arithmetic *)

Lemma week_label_monday (d : Timestamp) :
  is_midnight d ->
  is_midnight (week_label d) /\ dayofweek (week_label d) = 0
  /\ d <= week_label d < d + Timedelta_weeks 1.
Proof. intros H. repeat split; days_arith. Qed.

Lemma monday_add_weeks (L : Timestamp) (k : Z) :
  is_midnight L -> dayofweek L = 0 ->
  is_midnight (L + Timedelta_weeks k)
  /\ dayofweek (L + Timedelta_weeks k) = 0.
Proof. intros H1 H2. split; days_arith. Qed.

Lemma in_bin_week_label (L : Timestamp) (r : Row) :
  is_midnight (r_date r) -> is_midnight L -> dayofweek L = 0 ->
  in_bin L r = (week_label (r_date r) =? L).
Proof.
  intros Hd HL Hm. unfold in_bin. apply Bool.eq_iff_eq_true.
  rewrite andb_true_iff, Z.ltb_lt, Z.leb_le, Z.eqb_eq.
  split; intros H; days_arith.
Qed.

Lemma sub_week_mon_label (d : Timestamp) :
  is_midnight d ->
  sub_week_mon (normalize d) = week_label d - Timedelta_weeks 1.
Proof.
  intros H. unfold sub_week_mon.
  destruct (dayofweek (normalize d) =? 0) eqn:E;
    [apply Z.eqb_eq in E | apply Z.eqb_neq in E]; days_arith.
Qed.

Lemma list_min_spec (d : Z) (l : list Z) :
  (list_min d l = d \/ In (list_min d l) l)
  /\ list_min d l <= d /\ Forall (fun x => list_min d l <= x) l.
Proof.
  induction l as [| a l IH]; simpl.
  - split; [left; reflexivity | split; [lia | constructor]].
  - destruct IH as (Hin & Hd & Hall).
    split; [| split].
    + destruct (Z.min_spec a (list_min d l)) as [[_ ->] | [_ ->]];
        intuition.
    + lia.
    + constructor; [lia |].
      eapply Forall_impl; [| exact Hall]. simpl. intros; lia.
Qed.

Lemma list_max_spec (d : Z) (l : list Z) :
  (list_max d l = d \/ In (list_max d l) l)
  /\ d <= list_max d l /\ Forall (fun x => x <= list_max d l) l.
Proof.
  induction l as [| a l IH]; simpl.
  - split; [left; reflexivity | split; [lia | constructor]].
  - destruct IH as (Hin & Hd & Hall).
    split; [| split].
    + destruct (Z.max_spec a (list_max d l)) as [[_ ->] | [_ ->]];
        intuition.
    + lia.
    + constructor; [lia |].
      eapply Forall_impl; [| exact Hall]. simpl. intros; lia.
Qed.

Lemma tl_weeks_from (L : Timestamp) (n : nat) :
  tl (weeks_from L (S n)) = weeks_from (L + Timedelta_weeks 1) n.
Proof. rewrite weeks_from_S. reflexivity. Qed.

(** The labels of the bins: the Mondays from the label of the earliest
    date to the label of the latest. *)
Lemma binner_labels (lo hi : Timestamp) :
  is_midnight lo -> is_midnight hi -> lo <= hi ->
  let first := sub_week_mon (normalize lo) in
  let last := add_week_mon (normalize hi) in
  tl (if hi <? last - Timedelta_weeks 1 + NS_PER_DAY - 1
      then removelast (date_range_weekly first last)
      else date_range_weekly first last)
  = weeks_from (week_label lo)
      (Z.to_nat ((week_label hi - week_label lo) / Timedelta_weeks 1 + 1)).
Proof.
  intros Hlo Hhi Hle first last.
  set (n := Z.to_nat ((week_label hi - week_label lo) / Timedelta_weeks 1
                      + 1)).
  assert (Hfirst : first + Timedelta_weeks 1 = week_label lo).
  { unfold first. rewrite (sub_week_mon_label lo Hlo). lia. }
  change (date_range_weekly first last)
    with (weeks_from first
            (Z.to_nat ((last - first) / Timedelta_weeks 1 + 1))).
  destruct (hi <? last - Timedelta_weeks 1 + NS_PER_DAY - 1) eqn:E.
  - apply Z.ltb_lt in E.
    assert (Hn : Z.to_nat ((last - first) / Timedelta_weeks 1 + 1)
                 = S (S n)).
    { unfold n, first, last in *. rewrite (sub_week_mon_label lo Hlo).
      unfold add_week_mon in *.
      destruct (dayofweek (normalize hi) =? 0) eqn:D;
        [apply Z.eqb_eq in D | apply Z.eqb_neq in D]; days_arith. }
    rewrite Hn, removelast_weeks_from, tl_weeks_from, Hfirst. reflexivity.
  - apply Z.ltb_ge in E.
    assert (Hn : Z.to_nat ((last - first) / Timedelta_weeks 1 + 1) = S n).
    { unfold n, first, last in *. rewrite (sub_week_mon_label lo Hlo).
      unfold add_week_mon in *.
      destruct (dayofweek (normalize hi) =? 0) eqn:D;
        [apply Z.eqb_eq in D | apply Z.eqb_neq in D]; days_arith. }
    rewrite Hn, tl_weeks_from, Hfirst. reflexivity.
Qed.

Lemma weeks_from_monday (L x : Timestamp) (n : nat) :
  is_midnight L -> dayofweek L = 0 -> In x (weeks_from L n) ->
  is_midnight x /\ dayofweek x = 0.
Proof.
  intros H1 H2. unfold weeks_from. rewrite in_map_iff.
  intros (k & <- & _). apply monday_add_weeks; assumption.
Qed.

(** What [resample('W-MON').sum()] returns on calendar dates: one bucket
    for every Monday from the label of the earliest date to the label of
    the latest, each with the wrapped sum of the rows of its week. *)
Lemma resample_W_MON_sum_spec (rows : list Row) :
  rows <> [] ->
  Forall (fun r => is_midnight (r_date r)) rows ->
  exists lo hi,
    In lo (map r_date rows) /\ In hi (map r_date rows)
    /\ Forall (fun d => lo <= d <= hi) (map r_date rows)
    /\ resample_W_MON_sum rows
       = map (fun L =>
                (L, int64_sum
                      (map r_duration_min
                           (filter (fun r => week_label (r_date r) =? L)
                                   rows))))
             (weeks_from (week_label lo)
                (Z.to_nat ((week_label hi - week_label lo)
                           / Timedelta_weeks 1 + 1))).
Proof.
  intros Hne Hmid. destruct rows as [| r0 rows']; [congruence |].
  set (rows := r0 :: rows') in *.
  set (lo := list_min (r_date r0) (map r_date rows)).
  set (hi := list_max (r_date r0) (map r_date rows)).
  destruct (list_min_spec (r_date r0) (map r_date rows))
    as (Hlo_in & _ & Hlo_all).
  destruct (list_max_spec (r_date r0) (map r_date rows))
    as (Hhi_in & _ & Hhi_all).
  fold lo in Hlo_in, Hlo_all. fold hi in Hhi_in, Hhi_all.
  assert (Hlo_in' : In lo (map r_date rows)).
  { destruct Hlo_in as [-> | H]; [left; reflexivity | exact H]. }
  assert (Hhi_in' : In hi (map r_date rows)).
  { destruct Hhi_in as [-> | H]; [left; reflexivity | exact H]. }
  assert (Hmid' : forall d, In d (map r_date rows) -> is_midnight d).
  { intros d Hd. apply in_map_iff in Hd. destruct Hd as (r & <- & Hr).
    rewrite Forall_forall in Hmid. apply Hmid; exact Hr. }
  assert (Hlo_mid := Hmid' lo Hlo_in').
  assert (Hhi_mid := Hmid' hi Hhi_in').
  assert (Hle : lo <= hi).
  { rewrite Forall_forall in Hlo_all. apply Hlo_all; exact Hhi_in'. }
  exists lo, hi. split; [exact Hlo_in' |]. split; [exact Hhi_in' |].
  split.
  { rewrite Forall_forall in *. intros d Hd.
    split; [apply Hlo_all | apply Hhi_all]; exact Hd. }
  change (resample_W_MON_sum rows)
    with (let first := sub_week_mon (normalize lo) in
          let last := add_week_mon (normalize hi) in
          scan_bins
            (tl (if hi <? last - Timedelta_weeks 1 + NS_PER_DAY - 1
                 then removelast (date_range_weekly first last)
                 else date_range_weekly first last))
            (sort_by_date rows)).
  cbv zeta. rewrite (binner_labels lo hi Hlo_mid Hhi_mid Hle).
  destruct (week_label_monday lo Hlo_mid) as (Hwl_mid & Hwl_mon & Hwl_le).
  rewrite scan_bins_weeks.
  - apply map_ext_in. intros L HL.
    destruct (weeks_from_monday _ _ _ Hwl_mid Hwl_mon HL) as [HLm HLd].
    f_equal. rewrite !int64_sum_zsum, zsum_filter_sort. f_equal. f_equal.
    f_equal. apply filter_ext_in. intros r Hr.
    apply in_bin_week_label; try assumption.
    rewrite Forall_forall in Hmid. apply Hmid; exact Hr.
  - apply sort_by_date_sorted.
  - rewrite Forall_forall. intros r Hr. apply (proj1 (sort_by_date_In r rows)) in Hr.
    assert (Hd : lo <= r_date r).
    { rewrite Forall_forall in Hlo_all. apply Hlo_all.
      apply in_map; exact Hr. }
    clear - Hd Hwl_le Hlo_mid. days_arith.
Qed.

(** *** The claims on the weekly series *)

(** The label of a calendar date is the Monday starting its week only when
    the date is itself a Monday; from Tuesday to Sunday it is the Monday
    after. *)
Lemma week_label_vs_week_start (d : Timestamp) :
  is_midnight d ->
  week_label d
  = if dayofweek d =? 0 then week_start d
    else week_start d + Timedelta_weeks 1.
Proof.
  intros H.
  destruct (dayofweek d =? 0) eqn:E;
    [apply Z.eqb_eq in E | apply Z.eqb_neq in E]; days_arith.
Qed.

(** On records dated on Mondays the series is the one of the end-to-end
    scenario of the specification, run on 2024-01-20. *)
Example two_monday_runs :
  df_viz df_two_mondays "Running" (Timestamp_ymd 2024 1 20)
  = [(Timestamp_ymd 2024 1 8, 30); (Timestamp_ymd 2024 1 15, 40)]
  /\ groupby_category_sum df_two_mondays = [("Running"%string, 70)].
Proof. split; vm_compute; reflexivity. Qed.

(** C2. The code at a record dated Tuesday 2024-01-09: the week of that
    date starts on Monday 2024-01-08, and the series puts the record in the
    bucket of Monday 2024-01-15, the Monday that ends the bin. *)
Theorem tuesday_record_in_next_monday_bucket :
  dayofweek (Timestamp_ymd 2024 1 9) = 1
  /\ week_start (Timestamp_ymd 2024 1 9) = Timestamp_ymd 2024 1 8
  /\ df_weekly df_tuesday "All Activities" = [(Timestamp_ymd 2024 1 15, 30)].
Proof. repeat split; vm_compute; reflexivity. Qed.

(** C3, as the specification states it, fails: the week of 2024-01-15 has
    no record and still gets a bucket, with the sum 0, which the chart of a
    run on 2024-01-25 keeps. *)
Lemma empty_week_bucket_counterexample :
  filter (fun r => week_start (r_date r) =? Timestamp_ymd 2024 1 15) df_gap
  = []
  /\ filter (fun r => week_label (r_date r) =? Timestamp_ymd 2024 1 15) df_gap
     = []
  /\ df_weekly df_gap "All Activities"
     = [(Timestamp_ymd 2024 1 8, 30); (Timestamp_ymd 2024 1 15, 0);
        (Timestamp_ymd 2024 1 22, 40)]
  /\ df_viz df_gap "All Activities" (Timestamp_ymd 2024 1 25)
     = [(Timestamp_ymd 2024 1 8, 30); (Timestamp_ymd 2024 1 15, 0);
        (Timestamp_ymd 2024 1 22, 40)].
Proof. repeat split; vm_compute; reflexivity. Qed.

(** C3, amended. For a non-empty collection of calendar-dated records the
    weekly series is dense: it has one bucket for every Monday from the
    label of the earliest record to the label of the latest, each with the
    (wrapped) sum of the durations of its week, so that a week of the range
    without a record has a bucket with the sum 0. *)
Theorem weekly_series_zero_filled (df : list Row) (activity_filter : string)
    (Hne : df_filtered df activity_filter <> [])
    (Hdates : Forall (fun r => is_midnight (r_date r))
                     (df_filtered df activity_filter)) :
  let rows := df_filtered df activity_filter in
  exists lo hi,
    In lo (map r_date rows) /\ In hi (map r_date rows)
    /\ Forall (fun d => lo <= d <= hi) (map r_date rows)
    /\ df_weekly df activity_filter
       = map (fun L =>
                (L, int64_sum
                      (map r_duration_min
                           (filter (fun r => week_label (r_date r) =? L)
                                   rows))))
             (weeks_from (week_label lo)
                (Z.to_nat ((week_label hi - week_label lo)
                           / Timedelta_weeks 1 + 1)))
    /\ forall L,
         In L (weeks_from (week_label lo)
                 (Z.to_nat ((week_label hi - week_label lo)
                            / Timedelta_weeks 1 + 1))) ->
         filter (fun r => week_label (r_date r) =? L) rows = [] ->
         In (L, 0) (df_weekly df activity_filter).
Proof.
  intros rows.
  destruct (resample_W_MON_sum_spec rows Hne Hdates)
    as (lo & hi & Hlo & Hhi & Hall & Heq).
  exists lo, hi.
  split; [exact Hlo |]. split; [exact Hhi |]. split; [exact Hall |].
  split; [exact Heq |].
  intros L HL Hempty. unfold df_weekly. fold rows. rewrite Heq.
  apply in_map_iff. exists L. split; [| exact HL].
  rewrite Hempty. reflexivity.
Qed.

Lemma df_gap_midnight :
  Forall (fun r => is_midnight (r_date r)) (df_filtered df_gap "Running").
Proof. repeat constructor. Qed.

Lemma weekly_series_zero_filled_witness :
  exists lo hi,
    In lo (map r_date (df_filtered df_gap "Running"))
    /\ In hi (map r_date (df_filtered df_gap "Running"))
    /\ Forall (fun d => lo <= d <= hi)
              (map r_date (df_filtered df_gap "Running"))
    /\ df_weekly df_gap "Running"
       = map (fun L =>
                (L, int64_sum
                      (map r_duration_min
                           (filter (fun r => week_label (r_date r) =? L)
                                   (df_filtered df_gap "Running")))))
             (weeks_from (week_label lo)
                (Z.to_nat ((week_label hi - week_label lo)
                           / Timedelta_weeks 1 + 1))).
Proof.
  destruct (weekly_series_zero_filled df_gap "Running"
              ltac:(discriminate) df_gap_midnight)
    as (lo & hi & H1 & H2 & H3 & H4 & _).
  exists lo, hi.
  split; [exact H1 |]. split; [exact H2 |]. split; [exact H3 |]. exact H4.
Defined.

(** ** The clock of the dashboard *)

(** The week start the page computes from one instant is a Monday: it is
    never between a Saturday and the Sunday after it. *)
Lemma week_start_skips_sunday (now : Timestamp) (k : Z) :
  k mod 7 = 2 ->
  (normalize (current_week_start now now) <=? k * NS_PER_DAY)
  = (normalize (current_week_start now now) <=? (k + 1) * NS_PER_DAY).
Proof.
  intros Hk. apply Bool.eq_iff_eq_true. rewrite !Z.leb_le.
  unfold current_week_start. split; intros H; days_arith.
Qed.

(** C7, as the specification states it, fails: the page is not the summary
    of the records at one instant.  Read while Sunday 2024-01-14 ends, the
    clock gives the week a Sunday start and the page shows the 30 minutes
    of the Sunday run alone; a run that starts at the same instant under a
    clock that stands still shows 70 minutes, and no instant at all gives
    30 minutes, since from one instant the week starts on a Monday and
    holds both runs or none. *)
Lemma no_single_instant_counterexample :
  exists s,
    fst (dashboard float64_sum_seq df_weekend "All Activities"
           clock_over_midnight)
    = Shown s
    /\ this_week_duration s = "30 min"%string
    /\ (exists s0,
          fst (dashboard float64_sum_seq df_weekend "All Activities"
                 (frozen (reading clock_over_midnight 0)))
          = Shown s0
          /\ this_week_duration s0 = "70 min"%string)
    /\ forall (now : Timestamp) (s' : Summary),
         fst (dashboard float64_sum_seq df_weekend "All Activities"
                (frozen now))
         = Shown s' ->
         this_week_duration s' <> "30 min"%string.
Proof.
  eexists. split; [reflexivity |]. split; [vm_compute; reflexivity |].
  split.
  - eexists. split; [reflexivity | vm_compute; reflexivity].
  - intros now s' H.
    cbv [dashboard df_weekend Timestamp_now frozen reading tick fst] in H.
    injection H as <-.
    cbv [summary_at this_week_duration this_week_df].
    cbn [filter].
    replace (r_date (row 2024 1 13 "Running" 40 f5))
      with (19735 * NS_PER_DAY) by (vm_compute; reflexivity).
    replace (r_date (row 2024 1 14 "Running" 30 f5))
      with ((19735 + 1) * NS_PER_DAY) by (vm_compute; reflexivity).
    rewrite (week_start_skips_sunday now 19735 eq_refl).
    destruct (normalize (current_week_start now now)
              <=? (19735 + 1) * NS_PER_DAY);
      vm_compute; discriminate.
Qed.

Lemma current_week_start_one_day (t1 t2 t3 : Timestamp) :
  normalize t1 = normalize t3 -> normalize t2 = normalize t3 ->
  normalize (current_week_start t1 t2)
  = normalize (current_week_start t3 t3).
Proof. intros H1 H2. unfold current_week_start. days_arith. Qed.

(** C7, amended. The page takes no reference instant: a run reads the
    clock three times.  When the three readings fall on one calendar day
    the page is the summary of the records at one instant, the last
    reading: it is the page that a clock standing still at that instant
    gives. *)
Theorem dashboard_same_day_is_single_instant
    (float64_sum : list F64.float -> F64.float) (df : list Row)
    (activity_filter : string) (c : Clock)
    (Hday1 : normalize (reading c (tick c))
             = normalize (reading c (S (S (tick c)))))
    (Hday2 : normalize (reading c (S (tick c)))
             = normalize (reading c (S (S (tick c))))) :
  fst (dashboard float64_sum df activity_filter c)
  = fst (dashboard float64_sum df activity_filter
           (frozen (reading c (S (S (tick c))))))
  /\ (df <> [] ->
      tick (snd (dashboard float64_sum df activity_filter c))
      = (3 + tick c)%nat).
Proof.
  destruct df as [| r df']; [split; [reflexivity | congruence] |].
  split; [| intros _; reflexivity].
  unfold dashboard, Timestamp_now, frozen. cbn [fst reading tick].
  f_equal. unfold summary_at, this_week_df.
  rewrite (current_week_start_one_day _ _ _ Hday1 Hday2). reflexivity.
Qed.

Lemma dashboard_same_day_is_single_instant_witness :
  fst (dashboard float64_sum_seq df_gap "Running"
         (clock_ticking (Timestamp_ymd 2024 1 25 + 36000 * 10 ^ 9)))
  = fst (dashboard float64_sum_seq df_gap "Running"
           (frozen (Timestamp_ymd 2024 1 25 + 36002 * 10 ^ 9))).
Proof.
  apply (dashboard_same_day_is_single_instant float64_sum_seq df_gap
           "Running"
           (clock_ticking (Timestamp_ymd 2024 1 25 + 36000 * 10 ^ 9))
           eq_refl eq_refl).
Defined.

(** ** Binary64 arithmetic *)

Local Open Scope Z_scope.

(** *** The number of binary digits *)

Lemma digits2_pos_bounds (m : positive) :
  2 ^ (Zpos (digits2_pos m) - 1) <= Zpos m < 2 ^ Zpos (digits2_pos m).
Proof.
  induction m as [p IH | p IH |]; simpl digits2_pos.
  - rewrite Pos2Z.inj_succ.
    replace (Z.succ (Zpos (digits2_pos p)) - 1)
      with (Z.succ (Zpos (digits2_pos p) - 1)) by lia.
    rewrite !Z.pow_succ_r by lia. lia.
  - rewrite Pos2Z.inj_succ.
    replace (Z.succ (Zpos (digits2_pos p)) - 1)
      with (Z.succ (Zpos (digits2_pos p) - 1)) by lia.
    rewrite !Z.pow_succ_r by lia. lia.
  - simpl. lia.
Qed.

Lemma Zdigits2_bounds (z : Z) :
  0 < z -> 2 ^ (Zdigits2 z - 1) <= z < 2 ^ Zdigits2 z.
Proof.
  destruct z as [| p | p]; try lia. intros _. apply digits2_pos_bounds.
Qed.

Lemma Zdigits2_pos (z : Z) : 0 < z -> 0 < Zdigits2 z.
Proof. destruct z; simpl; lia. Qed.

Lemma Zdigits2_nonneg (z : Z) : 0 <= Zdigits2 z.
Proof. destruct z; simpl; lia. Qed.

Lemma Zdigits2_unique (z d : Z) :
  2 ^ (d - 1) <= z < 2 ^ d -> 0 < z -> Zdigits2 z = d.
Proof.
  intros [Hlo Hhi] Hz.
  destruct (Zdigits2_bounds z Hz) as [Hlo' Hhi'].
  pose proof (Zdigits2_pos z Hz) as Hd'.
  assert (Hd : 0 < d).
  { destruct (Z_lt_le_dec 0 d) as [H | H]; [exact H |].
    exfalso. destruct (Z.eq_dec d 0) as [-> | Hn].
    - simpl in Hhi. lia.
    - rewrite (Z.pow_neg_r 2 d) in Hhi by lia. lia. }
  destruct (Z_lt_le_dec (Zdigits2 z) d) as [H1 | H1].
  - exfalso.
    assert (2 ^ Zdigits2 z <= 2 ^ (d - 1))
      by (apply Z.pow_le_mono_r; lia).
    lia.
  - destruct (Z_lt_le_dec d (Zdigits2 z)) as [H2 | H2]; [| lia].
    exfalso.
    assert (2 ^ d <= 2 ^ (Zdigits2 z - 1))
      by (apply Z.pow_le_mono_r; lia).
    lia.
Qed.

Lemma Zdigits2_le (a b : Z) : 0 < a -> a <= b -> Zdigits2 a <= Zdigits2 b.
Proof.
  intros Ha Hab.
  destruct (Zdigits2_bounds a Ha) as [Hlo _].
  destruct (Zdigits2_bounds b ltac:(lia)) as [_ Hhi].
  destruct (Z_lt_le_dec (Zdigits2 b) (Zdigits2 a)) as [H | H]; [| exact H].
  exfalso.
  assert (2 ^ Zdigits2 b <= 2 ^ (Zdigits2 a - 1))
    by (apply Z.pow_le_mono_r; lia).
  lia.
Qed.

Lemma Zdigits2_mul_pow2 (z k : Z) :
  0 < z -> 0 <= k -> Zdigits2 (z * 2 ^ k) = Zdigits2 z + k.
Proof.
  intros Hz Hk. destruct (Zdigits2_bounds z Hz) as [Hlo Hhi].
  pose proof (Zdigits2_pos z Hz) as Hd.
  assert (Hp : 0 < 2 ^ k) by (apply Z.pow_pos_nonneg; lia).
  apply Zdigits2_unique; [| nia].
  replace (Zdigits2 z + k - 1) with (Zdigits2 z - 1 + k) by lia.
  rewrite !Z.pow_add_r by lia. split; nia.
Qed.

Lemma Zdigits2_div_pow2 (z k : Z) :
  0 <= k -> 2 ^ k <= z -> Zdigits2 (z / 2 ^ k) = Zdigits2 z - k.
Proof.
  intros Hk Hz.
  assert (Hp : 0 < 2 ^ k) by (apply Z.pow_pos_nonneg; lia).
  assert (Hz0 : 0 < z) by lia.
  destruct (Zdigits2_bounds z Hz0) as [Hlo Hhi].
  assert (Hdk : k < Zdigits2 z).
  { destruct (Z_lt_le_dec k (Zdigits2 z)) as [H | H]; [exact H |].
    exfalso. assert (2 ^ Zdigits2 z <= 2 ^ k)
      by (apply Z.pow_le_mono_r; lia). lia. }
  assert (Hq : 0 < z / 2 ^ k) by (apply Z.div_str_pos; lia).
  apply Zdigits2_unique; [| exact Hq].
  split.
  - apply Z.div_le_lower_bound; [lia |].
    rewrite <- Z.pow_add_r by lia.
    replace (k + (Zdigits2 z - k - 1)) with (Zdigits2 z - 1) by lia.
    exact Hlo.
  - apply Z.div_lt_upper_bound; [lia |].
    rewrite <- Z.pow_add_r by lia.
    replace (k + (Zdigits2 z - k)) with (Zdigits2 z) by lia.
    exact Hhi.
Qed.

Lemma Zdigits2_small (z k : Z) : 0 <= z < 2 ^ k -> 0 <= k -> Zdigits2 z <= k.
Proof.
  intros [Hz Hlt] Hk. destruct (Z.eq_dec z 0) as [-> | Hn]; [simpl; lia |].
  destruct (Zdigits2_bounds z ltac:(lia)) as [Hlo _].
  destruct (Z_lt_le_dec k (Zdigits2 z)) as [H | H]; [| exact H].
  exfalso. assert (2 ^ k <= 2 ^ (Zdigits2 z - 1))
    by (apply Z.pow_le_mono_r; lia). lia.
Qed.

(** *** Right shifts *)

Lemma fexp64_eq (e : Z) : fexp64 e = Z.max (e - 53) (-1074).
Proof. reflexivity. Qed.

Lemma iter_pos_iter {A : Type} (f : A -> A) (p : positive) :
  forall x, iter_pos f p x = Pos.iter f x p.
Proof.
  induction p as [p IH | p IH |]; intros x; simpl.
  - rewrite !IH. rewrite !Pos.iter_swap. reflexivity.
  - rewrite !IH. reflexivity.
  - reflexivity.
Qed.

Lemma shr_1_spec (mrs : shr_record) :
  0 <= shr_m mrs ->
  shr_1 mrs = {| shr_m := shr_m mrs / 2;
                 shr_r := Z.odd (shr_m mrs);
                 shr_s := shr_r mrs || shr_s mrs |}.
Proof.
  destruct mrs as [m r s]. simpl. intros Hm.
  rewrite <- Z.div2_div.
  destruct m as [| [p | p |] |]; try reflexivity. lia.
Qed.

Lemma shr_1_inv (m n : Z) (mrs : shr_record) :
  0 <= n -> shr_inv m n mrs -> shr_inv m (n + 1) (shr_1 mrs).
Proof.
  intros Hn (Hm & R & HR & Heq & Hs).
  rewrite (shr_1_spec mrs Hm). unfold shr_inv. cbn [shr_m shr_r shr_s].
  assert (Hp : 0 < 2 ^ n) by (apply Z.pow_pos_nonneg; lia).
  assert (Hp1 : 2 ^ (n + 1) = 2 * 2 ^ n)
    by (rewrite Z.pow_add_r by lia; lia).
  assert (Hp2 : 2 ^ (n + 1 + 1) = 4 * 2 ^ n)
    by (rewrite !Z.pow_add_r by lia; lia).
  split; [apply Z.div_pos; lia |].
  exists ((if shr_r mrs then 2 ^ n else 0) + R).
  pose proof (Z.div_mod (shr_m mrs) 2 ltac:(lia)) as Hdm.
  pose proof (Zmod_odd (shr_m mrs)) as Hodd.
  split; [| split].
  - destruct (shr_r mrs); lia.
  - rewrite Hp1 in *. rewrite Hp2.
    set (q := shr_m mrs / 2) in *. set (P := 2 ^ n) in *.
    destruct (Z.odd (shr_m mrs)); destruct (shr_r mrs);
      rewrite Hodd in Hdm; rewrite Hdm in Heq; lia.
  - destruct (shr_r mrs), (shr_s mrs); simpl; split; intros H;
      try discriminate; try reflexivity; lia.
Qed.

Lemma shr_n_inv (m : Z) (mrs : shr_record) (n : Z) :
  0 <= n -> shr_inv m 0 mrs -> shr_inv m n (shr_n mrs n).
Proof.
  intros Hn H0. destruct n as [| p |]; [exact H0 | | lia].
  unfold shr_n. rewrite iter_pos_iter.
  induction p as [| p IH] using Pos.peano_ind.
  - simpl. apply (shr_1_inv m 0 mrs); [lia | exact H0].
  - rewrite Pos.iter_succ. rewrite Pos2Z.inj_succ.
    replace (Z.succ (Zpos p)) with (Zpos p + 1) by lia.
    apply shr_1_inv; [lia |]. apply IH. lia.
Qed.

Lemma shr_n_m (mrs : shr_record) (n : Z) :
  0 <= n -> 0 <= shr_m mrs -> shr_m (shr_n mrs n) = shr_m mrs / 2 ^ n.
Proof.
  intros Hn Hm. destruct n as [| p |];
    [simpl; rewrite Z.div_1_r; reflexivity | | lia].
  unfold shr_n. rewrite iter_pos_iter.
  assert (H : 0 <= shr_m (Pos.iter shr_1 mrs p)
              /\ shr_m (Pos.iter shr_1 mrs p) = shr_m mrs / 2 ^ Zpos p).
  { induction p as [| p IH] using Pos.peano_ind.
    - simpl Pos.iter. rewrite (shr_1_spec mrs Hm). simpl shr_m.
      split; [apply Z.div_pos; lia | reflexivity].
    - rewrite Pos.iter_succ. destruct (IH ltac:(lia)) as [IH1 IH2].
      rewrite (shr_1_spec _ IH1). simpl shr_m. rewrite IH2.
      rewrite Pos2Z.inj_succ, Z.pow_succ_r by lia.
      rewrite Z.div_div by (try apply Z.pow_pos_nonneg; lia).
      split; [| f_equal; lia].
      apply Z.div_pos; [lia |].
      assert (0 < 2 ^ Zpos p) by (apply Z.pow_pos_nonneg; lia). lia. }
  apply H.
Qed.

Lemma shr_pair (mrs : shr_record) (e n : Z) :
  0 <= n -> shr mrs e n = (shr_n mrs n, e + n).
Proof.
  intros Hn. destruct n as [| p |]; [| reflexivity | lia].
  simpl. f_equal. lia.
Qed.

Lemma shr_inv_exact (m : Z) :
  0 <= m -> shr_inv m 0 (shr_record_of_loc m loc_Exact).
Proof.
  intros Hm. split; [exact Hm |]. exists 0.
  cbn [shr_m shr_r shr_s shr_record_of_loc].
  change (2 ^ (0 + 1)) with 2. change (2 ^ 0) with 1.
  split; [lia |]. split; [lia |]. tauto.
Qed.

Lemma round_nearest_even_cases (mrs : shr_record) :
  let m1 := round_nearest_even (shr_m mrs) (loc_of_shr_record mrs) in
  (m1 = shr_m mrs \/ (m1 = shr_m mrs + 1 /\ shr_r mrs = true))
  /\ (shr_r mrs = false -> shr_s mrs = false -> m1 = shr_m mrs).
Proof.
  destruct mrs as [m [|] [|]]; simpl; split; intros; try discriminate;
    try reflexivity; try (left; reflexivity);
    try (right; split; reflexivity).
  destruct (Z.even m); [left | right; split]; reflexivity.
Qed.

(** *** Rounding to nearest even *)

Lemma fexp64_mono (a b : Z) : a <= b -> fexp64 a <= fexp64 b.
Proof. rewrite !fexp64_eq. lia. Qed.

Lemma shr_m_of_loc (m : Z) (l : location) :
  shr_m (shr_record_of_loc m l) = m.
Proof. destruct l as [| [| |]]; reflexivity. Qed.

(** [binary_round_aux] as two shifts around one rounding, when the first
    shift is not to the left. *)
Lemma binary_round_aux_unfold (sx : bool) (mx ex : Z) (lx : location) :
  0 <= mx -> ex <= fexp64 (Zdigits2 mx + ex) ->
  let n0 := fexp64 (Zdigits2 mx + ex) - ex in
  let mrs' := shr_n (shr_record_of_loc mx lx) n0 in
  let m1 := round_nearest_even (shr_m mrs') (loc_of_shr_record mrs') in
  let e' := ex + n0 in
  let n2 := fexp64 (Zdigits2 m1 + e') - e' in
  shr_m mrs' = mx / 2 ^ n0
  /\ 0 <= n2
  /\ binary_round_aux F64.prec F64.emax sx mx ex lx
     = rounded sx (m1 / 2 ^ n2) (e' + n2).
Proof.
  intros Hmx Hn0 n0 mrs' m1 e' n2.
  set (F0 := fexp64 (Zdigits2 mx + ex)) in *.
  assert (Hn0' : 0 <= n0) by (unfold n0; lia).
  set (m' := shr_m mrs') in *.
  assert (Hm' : m' = mx / 2 ^ n0).
  { unfold m', mrs'. rewrite shr_n_m; rewrite ?shr_m_of_loc; auto. }
  assert (Hp0 : 0 < 2 ^ n0) by (apply Z.pow_pos_nonneg; lia).
  assert (Hm'0 : 0 <= m') by (rewrite Hm'; apply Z.div_pos; lia).
  destruct (round_nearest_even_cases mrs') as [Hm1 _].
  fold m' in Hm1. fold m1 in Hm1.
  assert (Hm1' : m' <= m1 <= m' + 1) by (destruct Hm1 as [-> | [-> _]]; lia).
  assert (He' : e' = F0) by (unfold e', n0; lia).
  assert (Hn2 : e' <= fexp64 (Zdigits2 m1 + e')).
  { destruct (Z.eq_dec m' 0) as [Hz | Hnz].
    - assert (Hlt : mx < 2 ^ n0).
      { rewrite Hm' in Hz. apply Z.div_small_iff in Hz; lia. }
      pose proof (Zdigits2_small mx n0 ltac:(lia) Hn0') as Hd.
      assert (F0 = -1074).
      { unfold F0 in *. rewrite fexp64_eq in *. unfold n0 in Hd. lia. }
      rewrite fexp64_eq. lia.
    - assert (Hge : 2 ^ n0 <= mx).
      { destruct (Z_lt_le_dec mx (2 ^ n0)) as [H | H]; [| exact H].
        exfalso. apply Hnz. rewrite Hm'. apply Z.div_small. lia. }
      pose proof (Zdigits2_div_pow2 mx n0 Hn0' Hge) as Hd.
      rewrite <- Hm' in Hd.
      pose proof (Zdigits2_le m' m1 ltac:(lia) ltac:(lia)) as Hle.
      rewrite He'. unfold F0 at 1.
      apply fexp64_mono. unfold n0 in Hd. lia. }
  assert (Hn2' : 0 <= n2) by (unfold n2; lia).
  split; [exact Hm' |]. split; [exact Hn2' |].
  unfold binary_round_aux, shr_fexp.
  change (fexp F64.prec F64.emax (Zdigits2 mx + ex)) with F0.
  change (F0 - ex) with n0.
  rewrite (shr_pair _ ex n0 Hn0').
  fold mrs'. cbv beta iota. fold m'. fold m1. fold e'.
  change (fexp F64.prec F64.emax (Zdigits2 m1 + e') - e') with n2.
  rewrite (shr_pair _ e' n2 Hn2'). cbv beta iota.
  rewrite shr_n_m; rewrite ?shr_m_of_loc; try lia.
  reflexivity.
Qed.

(** The result of a rounding is canonical, and after an exact input it is
    at most half a unit above the input. *)
Lemma binary_round_aux_shape (sx : bool) (mx ex : Z) (lx : location) :
  0 <= mx -> ex <= fexp64 (Zdigits2 mx + ex) ->
  exists M E,
    0 <= M
    /\ binary_round_aux F64.prec F64.emax sx mx ex lx = rounded sx M E
    /\ (0 < M -> fexp64 (Zdigits2 M + E) = E)
    /\ ex <= E
    /\ (lx = loc_Exact ->
        2 * M * 2 ^ (E - ex)
        <= 2 * mx + 2 ^ (fexp64 (Zdigits2 mx + ex) - ex)).
Proof.
  intros Hmx Hn0.
  destruct (binary_round_aux_unfold sx mx ex lx Hmx Hn0)
    as (Hm' & Hn2' & Heq).
  set (n0 := fexp64 (Zdigits2 mx + ex) - ex) in *.
  set (mrs' := shr_n (shr_record_of_loc mx lx) n0) in *.
  set (m1 := round_nearest_even (shr_m mrs') (loc_of_shr_record mrs')) in *.
  set (e' := ex + n0) in *.
  set (n2 := fexp64 (Zdigits2 m1 + e') - e') in *.
  assert (Hn0' : 0 <= n0) by (unfold n0; lia).
  assert (Hp0 : 0 < 2 ^ n0) by (apply Z.pow_pos_nonneg; lia).
  assert (Hp2 : 0 < 2 ^ n2) by (apply Z.pow_pos_nonneg; lia).
  assert (Hm'0 : 0 <= shr_m mrs') by (rewrite Hm'; apply Z.div_pos; lia).
  destruct (round_nearest_even_cases mrs') as [Hm1 _]. fold m1 in Hm1.
  assert (Hm1' : 0 <= m1) by (destruct Hm1 as [-> | [-> _]]; lia).
  exists (m1 / 2 ^ n2), (e' + n2).
  split; [apply Z.div_pos; lia |].
  split; [exact Heq |].
  split.
  { intros HM.
    assert (Hge : 2 ^ n2 <= m1).
    { destruct (Z_lt_le_dec m1 (2 ^ n2)) as [H | H]; [| exact H].
      exfalso. rewrite Z.div_small in HM; lia. }
    rewrite (Zdigits2_div_pow2 m1 n2 Hn2' Hge).
    replace (Zdigits2 m1 - n2 + (e' + n2)) with (Zdigits2 m1 + e') by lia.
    unfold n2. lia. }
  split; [unfold e'; lia |].
  intros Hlx. subst lx.
  pose proof (shr_n_inv mx _ n0 Hn0' (shr_inv_exact mx Hmx)) as Hinv.
  fold mrs' in Hinv. destruct Hinv as (_ & R & HR & HeqR & _).
  assert (H1 : 2 * m1 * 2 ^ n0 <= 2 * mx + 2 ^ n0).
  { rewrite Z.pow_add_r in HeqR by lia. change (2 ^ 1) with 2 in HeqR.
    destruct Hm1 as [-> | [-> Hr]].
    - destruct (shr_r mrs'); nia.
    - rewrite Hr in HeqR. nia. }
  assert (H2 : m1 / 2 ^ n2 * 2 ^ n2 <= m1).
  { pose proof (Z.mul_div_le m1 (2 ^ n2) Hp2). lia. }
  replace (e' + n2 - ex) with (n2 + n0) by (unfold e'; lia).
  rewrite Z.pow_add_r by lia. nia.
Qed.

(** A rounding that drops only zero bits is exact. *)
Lemma binary_round_aux_exact (sx : bool) (mx ex : Z) :
  0 < mx -> ex <= fexp64 (Zdigits2 mx + ex) ->
  mx mod 2 ^ (fexp64 (Zdigits2 mx + ex) - ex) = 0 ->
  binary_round_aux F64.prec F64.emax sx mx ex loc_Exact
  = rounded sx (mx / 2 ^ (fexp64 (Zdigits2 mx + ex) - ex))
            (fexp64 (Zdigits2 mx + ex)).
Proof.
  intros Hmx Hn0 Hdiv.
  destruct (binary_round_aux_unfold sx mx ex loc_Exact ltac:(lia) Hn0)
    as (Hm' & Hn2' & Heq).
  set (n0 := fexp64 (Zdigits2 mx + ex) - ex) in *.
  set (mrs' := shr_n (shr_record_of_loc mx loc_Exact) n0) in *.
  set (m1 := round_nearest_even (shr_m mrs') (loc_of_shr_record mrs')) in *.
  set (e' := ex + n0) in *.
  set (n2 := fexp64 (Zdigits2 m1 + e') - e') in *.
  assert (Hn0' : 0 <= n0) by (unfold n0; lia).
  assert (Hp0 : 0 < 2 ^ n0) by (apply Z.pow_pos_nonneg; lia).
  pose proof (Z.div_mod mx (2 ^ n0) ltac:(lia)) as Hdm.
  rewrite Hdiv in Hdm.
  pose proof (shr_n_inv mx _ n0 Hn0' (shr_inv_exact mx ltac:(lia))) as Hinv.
  fold mrs' in Hinv. destruct Hinv as (_ & R & HR & HeqR & Hs).
  rewrite Z.pow_add_r in HeqR by lia. change (2 ^ 1) with 2 in HeqR.
  rewrite Hm' in HeqR.
  assert (Hr : shr_r mrs' = false).
  { destruct (shr_r mrs'); [exfalso; nia | reflexivity]. }
  rewrite Hr in HeqR.
  assert (HR0 : R = 0) by nia.
  assert (Hs0 : shr_s mrs' = false) by (apply Hs; exact HR0).
  destruct (round_nearest_even_cases mrs') as [_ Hm1]. fold m1 in Hm1.
  specialize (Hm1 Hr Hs0). rewrite Hm' in Hm1.
  assert (Hge : 2 ^ n0 <= mx).
  { assert (Hq : 0 < mx / 2 ^ n0).
    { destruct (Z_lt_le_dec 0 (mx / 2 ^ n0)) as [H | H]; [exact H |].
      exfalso.
      assert (2 ^ n0 * (mx / 2 ^ n0) <= 0)
        by (apply Z.mul_nonneg_nonpos; lia).
      lia. }
    nia. }
  assert (Hn2 : n2 = 0).
  { unfold n2. rewrite Hm1. rewrite (Zdigits2_div_pow2 mx n0 Hn0' Hge).
    unfold e'. replace (Zdigits2 mx - n0 + (ex + n0)) with (Zdigits2 mx + ex)
      by lia.
    unfold n0. lia. }
  rewrite Heq, Hn2, Hm1. change (2 ^ 0) with 1. rewrite Z.div_1_r.
  f_equal. unfold e', n0. lia.
Qed.

Lemma rounded_cases (sx : bool) (M E : Z) :
  0 <= M -> (0 < M -> fexp64 (Zdigits2 M + E) = E) ->
  rounded sx M E = S754_zero sx
  \/ (0 < M /\ 971 < E /\ rounded sx M E = S754_infinity sx)
  \/ exists m,
       M = Zpos m /\ E <= 971 /\ rounded sx M E = S754_finite sx m E
       /\ fexp64 (Zpos (digits2_pos m) + E) = E.
Proof.
  intros HM Hcan. destruct M as [| m | m]; [left; reflexivity | | lia].
  right. unfold rounded. change (F64.emax - F64.prec) with 971.
  destruct (E <=? 971) eqn:HE.
  - right. exists m. apply Z.leb_le in HE.
    repeat split; try assumption. apply (Hcan ltac:(lia)).
  - left. apply Z.leb_gt in HE. repeat split; lia.
Qed.

(** *** Alignment and the rounding of an integer mantissa *)

Lemma pos_iter_xO (m d : positive) :
  Zpos (Pos.iter xO m d) = Zpos m * 2 ^ Zpos d.
Proof.
  induction d as [| d IH] using Pos.peano_ind.
  - simpl. lia.
  - rewrite Pos.iter_succ, Pos2Z.inj_succ, Z.pow_succ_r by lia.
    rewrite Pos2Z.inj_xO, IH. lia.
Qed.

Lemma shl_align_spec (mx : positive) (ex ex' : Z) :
  exists mz,
    shl_align mx ex ex' = (mz, Z.min ex ex')
    /\ Zpos mz = Zpos mx * 2 ^ (ex - Z.min ex ex').
Proof.
  unfold shl_align. destruct (ex' - ex) as [| d | d] eqn:Hd.
  - exists mx. replace (Z.min ex ex') with ex by lia.
    rewrite Z.sub_diag. split; [reflexivity | simpl; lia].
  - exists mx. replace (Z.min ex ex') with ex by lia.
    rewrite Z.sub_diag. split; [reflexivity | simpl; lia].
  - exists (Pos.iter xO mx d). replace (Z.min ex ex') with ex' by lia.
    split; [reflexivity |]. rewrite pos_iter_xO. f_equal. f_equal. lia.
Qed.

Lemma binary_round_shape (sx : bool) (mx : positive) (ex : Z) :
  exists M E,
    0 <= M
    /\ binary_round F64.prec F64.emax sx mx ex = rounded sx M E
    /\ (0 < M -> fexp64 (Zdigits2 M + E) = E).
Proof.
  unfold binary_round.
  change (fexp F64.prec F64.emax (Zpos (digits2_pos mx) + ex))
    with (fexp64 (Zdigits2 (Zpos mx) + ex)).
  set (F := fexp64 (Zdigits2 (Zpos mx) + ex)).
  destruct (shl_align_spec mx ex F) as (mz & Hal & Hmz).
  rewrite Hal.
  assert (Hd : Zdigits2 (Zpos mz) + Z.min ex F = Zdigits2 (Zpos mx) + ex).
  { rewrite Hmz, Zdigits2_mul_pow2 by lia. lia. }
  destruct (binary_round_aux_shape sx (Zpos mz) (Z.min ex F) loc_Exact)
    as (M & E & HM & Heq & Hcan & _); [lia | rewrite Hd; fold F; lia |].
  exists M, E. auto.
Qed.

Lemma binary_round_exact_shl (sx : bool) (mx : positive) (ex : Z) :
  let F := fexp64 (Zdigits2 (Zpos mx) + ex) in
  F <= ex ->
  binary_round F64.prec F64.emax sx mx ex
  = rounded sx (Zpos mx * 2 ^ (ex - F)) F.
Proof.
  intros F HF. unfold binary_round.
  change (fexp F64.prec F64.emax (Zpos (digits2_pos mx) + ex)) with F.
  destruct (shl_align_spec mx ex F) as (mz & Hal & Hmz).
  rewrite Hal. replace (Z.min ex F) with F in * by lia.
  assert (Hd : fexp64 (Zdigits2 (Zpos mz) + F) = F).
  { rewrite Hmz, Zdigits2_mul_pow2 by lia.
    replace (Zdigits2 (Zpos mx) + (ex - F) + F)
      with (Zdigits2 (Zpos mx) + ex) by lia.
    reflexivity. }
  rewrite binary_round_aux_exact.
  - rewrite Hd, Z.sub_diag. change (2 ^ 0) with 1. rewrite Z.div_1_r.
    rewrite Hmz. reflexivity.
  - lia.
  - rewrite Hd. lia.
  - rewrite Hd, Z.sub_diag. apply Z.mod_1_r.
Qed.

Lemma binary_round_exact_shr (sx : bool) (mx : positive) (ex : Z) :
  let F := fexp64 (Zdigits2 (Zpos mx) + ex) in
  ex <= F -> Zpos mx mod 2 ^ (F - ex) = 0 ->
  binary_round F64.prec F64.emax sx mx ex
  = rounded sx (Zpos mx / 2 ^ (F - ex)) F.
Proof.
  intros F HF Hdiv. unfold binary_round.
  change (fexp F64.prec F64.emax (Zpos (digits2_pos mx) + ex)) with F.
  destruct (shl_align_spec mx ex F) as (mz & Hal & Hmz).
  rewrite Hal. replace (Z.min ex F) with ex in * by lia.
  rewrite Z.sub_diag in Hmz. change (2 ^ 0) with 1 in Hmz.
  rewrite Z.mul_1_r in Hmz. rewrite Hmz.
  apply binary_round_aux_exact; [lia | exact HF | exact Hdiv].
Qed.

(** *** Division *)

Lemma Zdigits2_pow2 (k : Z) : 0 <= k -> Zdigits2 (2 ^ k) = k + 1.
Proof.
  intros Hk. replace (2 ^ k) with (1 * 2 ^ k) by lia.
  rewrite Zdigits2_mul_pow2 by lia. change (Zdigits2 1) with 1. lia.
Qed.

(** The quotient that [SFdiv_core_binary] hands to the rounding has enough
    digits: the rounding never shifts it to the left. *)
Lemma SFdiv_core_binary_spec (m1 m2 : positive) (e1 e2 : Z) :
  exists mz ez lz,
    SFdiv_core_binary F64.prec F64.emax (Zpos m1) e1 (Zpos m2) e2
    = (mz, ez, lz)
    /\ 0 <= mz /\ ez <= fexp64 (Zdigits2 mz + ez).
Proof.
  unfold SFdiv_core_binary. cbv zeta.
  change (fexp F64.prec F64.emax
            (Zdigits2 (Zpos m1) + e1 - (Zdigits2 (Zpos m2) + e2)))
    with (fexp64 (Zdigits2 (Zpos m1) + e1 - (Zdigits2 (Zpos m2) + e2))).
  set (d1 := Zdigits2 (Zpos m1)). set (d2 := Zdigits2 (Zpos m2)).
  set (D := d1 + e1 - (d2 + e2)).
  set (e' := Z.min (fexp64 D) (e1 - e2)).
  set (s := e1 - e2 - e').
  assert (Hs : 0 <= s) by (unfold s, e'; lia).
  set (m' := match s with
             | 0 => Zpos m1
             | Zpos _ => Z.shiftl (Zpos m1) s
             | Zneg _ => 0
             end).
  assert (Hm' : m' = Zpos m1 * 2 ^ s).
  { unfold m'. destruct s as [| p | p] eqn:Es.
    - simpl. lia.
    - apply Z.shiftl_mul_pow2. lia.
    - lia. }
  destruct (Z.div_eucl m' (Zpos m2)) as [q r] eqn:Hqr.
  assert (Hq : q = m' / Zpos m2) by (unfold Z.div; rewrite Hqr; reflexivity).
  exists q, e', (new_location (Zpos m2) r). split; [reflexivity |].
  assert (Hp : 0 < 2 ^ s) by (apply Z.pow_pos_nonneg; lia).
  assert (Hq0 : 0 <= q) by (rewrite Hq; apply Z.div_pos; nia).
  split; [exact Hq0 |].
  destruct (Z_le_gt_dec e' (-1074)) as [Hlow | Hhigh].
  - rewrite fexp64_eq. lia.
  - assert (HD : e' <= D - 53).
    { unfold e' in *. rewrite fexp64_eq in *. lia. }
    set (k := d1 + s - d2).
    assert (Hk : 53 <= k) by (unfold k, D, s in *; lia).
    destruct (Zdigits2_bounds (Zpos m1) ltac:(lia)) as [Hlo1 _].
    destruct (Zdigits2_bounds (Zpos m2) ltac:(lia)) as [_ Hhi2].
    fold d1 in Hlo1. fold d2 in Hhi2.
    pose proof (Zdigits2_pos (Zpos m1) ltac:(lia)) as Hd1. fold d1 in Hd1.
    pose proof (Zdigits2_pos (Zpos m2) ltac:(lia)) as Hd2. fold d2 in Hd2.
    assert (Hqk : 2 ^ (k - 1) <= q).
    { rewrite Hq. apply Z.div_le_lower_bound; [lia |].
      rewrite Hm'.
      assert (Hpow : 2 ^ d2 * 2 ^ (k - 1) = 2 ^ (d1 - 1) * 2 ^ s).
      { rewrite <- !Z.pow_add_r by lia. f_equal. unfold k. lia. }
      assert (0 < 2 ^ (k - 1)) by (apply Z.pow_pos_nonneg; lia).
      nia. }
    assert (Hdq : k <= Zdigits2 q).
    { assert (0 < 2 ^ (k - 1)) by (apply Z.pow_pos_nonneg; lia).
      pose proof (Zdigits2_le (2 ^ (k - 1)) q ltac:(lia) Hqk) as Hle.
      rewrite Zdigits2_pow2 in Hle by lia. lia. }
    rewrite fexp64_eq. unfold k, D, s in *. lia.
Qed.

Lemma SFdiv_finite_shape (sx sy : bool) (mx my : positive) (ex ey : Z) :
  exists M E,
    0 <= M
    /\ SFdiv F64.prec F64.emax (S754_finite sx mx ex) (S754_finite sy my ey)
       = rounded (xorb sx sy) M E
    /\ (0 < M -> fexp64 (Zdigits2 M + E) = E).
Proof.
  destruct (SFdiv_core_binary_spec mx my ex ey)
    as (mz & ez & lz & Hcore & Hmz & Hez).
  unfold SFdiv. rewrite Hcore.
  destruct (binary_round_aux_shape (xorb sx sy) mz ez lz Hmz Hez)
    as (M & E & HM & Heq & Hcan & _).
  exists M, E. auto.
Qed.

(** *** The operands of the running pace *)

Lemma rounded_pos (sx : bool) (M E : Z) :
  0 < M -> E <= 971 -> rounded sx M E = S754_finite sx (Z.to_pos M) E.
Proof.
  intros HM HE. destruct M as [| m | m]; try lia.
  unfold rounded. change (F64.emax - F64.prec) with 971.
  replace (E <=? 971) with true by (symmetry; apply Z.leb_le; exact HE).
  reflexivity.
Qed.

Lemma rounded_nonneg_canonical (M E : Z) :
  0 <= M -> (0 < M -> fexp64 (Zdigits2 M + E) = E) ->
  rounded false M E = S754_infinity false
  \/ nonneg_canonical (rounded false M E).
Proof.
  intros HM Hcan.
  destruct (rounded_cases false M E HM Hcan)
    as [H | [(_ & _ & H) | (m & _ & HE & H & Hc)]].
  - right. left. exact H.
  - left. exact H.
  - right. right. exists m, E. auto.
Qed.

Lemma gt_int_0_cases (x : F64.float) :
  F64.gt_int x 0 = true ->
  x = S754_infinity false \/ exists m e, x = S754_finite false m e.
Proof.
  unfold F64.gt_int, F64.compare_int.
  destruct x as [s | s | | s m e]; try discriminate.
  - destruct s; [discriminate | left; reflexivity].
  - destruct s; [| right; exists m, e; reflexivity].
    intros H. exfalso. cbn [cond_Zopp] in H.
    destruct (0 <=? e) eqn:He.
    + apply Z.leb_le in He.
      assert (0 < 2 ^ e) by (apply Z.pow_pos_nonneg; lia).
      destruct (Z.compare_spec (Z.opp (Zpos m) * 2 ^ e) 0);
        try discriminate. nia.
    + rewrite Z.mul_0_l in H. discriminate.
Qed.

Lemma of_int_nonneg (n : Z) :
  0 <= n ->
  F64.of_int n = Raise OverflowError
  \/ exists y, F64.of_int n = Ok y /\ nonneg_canonical y.
Proof.
  intros Hn. destruct n as [| p | p]; [| | lia].
  - right. exists (S754_zero false). split; [reflexivity | left; reflexivity].
  - unfold F64.of_int, binary_normalize.
    destruct (binary_round_shape false p 0) as (M & E & HM & Heq & Hcan).
    rewrite Heq.
    destruct (rounded_cases false M E HM Hcan)
      as [H | [(_ & _ & H) | (m & _ & HE & H & Hc)]]; rewrite H.
    + right. eexists. split; [reflexivity | left; reflexivity].
    + left. reflexivity.
    + right. eexists. split; [reflexivity |]. right. exists m, E. auto.
Qed.

(** The quotient [duration / distance] of a non-negative duration by a
    positive distance is +0, a canonical positive double, or +infinity. *)
Lemma quotient_shape (dur : Z) (x q : F64.float) :
  0 <= dur -> F64.gt_int x 0 = true ->
  F64.int_truediv_float dur x = Ok q ->
  q = S754_infinity false \/ nonneg_canonical q.
Proof.
  intros Hdur Hx Hq. unfold F64.int_truediv_float in Hq.
  destruct (of_int_nonneg dur Hdur) as [Ho | (a & Ho & Ha)];
    rewrite Ho in Hq; [discriminate |].
  destruct (gt_int_0_cases x Hx) as [-> | (mx & ex & ->)];
    destruct Ha as [-> | (ma & ea & -> & _)];
    cbv [bind Ok F64.truediv F64.is_zero] in Hq;
    injection Hq as <-;
    try (right; left; reflexivity).
  destruct (SFdiv_finite_shape false false ma mx ea ex)
    as (M & E & HM & Heq & Hcan).
  unfold SFdiv in Heq. cbn [xorb] in Heq. rewrite Heq.
  apply rounded_nonneg_canonical; assumption.
Qed.

(** *** The minutes and the fraction of a minute *)

Lemma of_int_exact_up (mq : positive) (eq : Z) :
  0 <= eq -> eq <= 971 -> fexp64 (Zdigits2 (Zpos mq) + eq) = eq ->
  F64.of_int (Zpos mq * 2 ^ eq) = Ok (S754_finite false mq eq).
Proof.
  intros H0 H971 Hcan.
  assert (Hp : 0 < 2 ^ eq) by (apply Z.pow_pos_nonneg; lia).
  destruct (Zpos mq * 2 ^ eq) as [| p | p] eqn:Ht; try lia.
  unfold F64.of_int, binary_normalize.
  assert (HF : fexp64 (Zdigits2 (Zpos p) + 0) = eq).
  { rewrite <- Ht, Zdigits2_mul_pow2, Z.add_0_r by lia. exact Hcan. }
  rewrite binary_round_exact_shr; rewrite HF, ?Z.sub_0_r.
  - rewrite <- Ht, Z.div_mul by lia.
    rewrite rounded_pos by lia. reflexivity.
  - exact H0.
  - rewrite <- Ht. apply Z.mod_mul. lia.
Qed.

Lemma of_int_exact_down (t e : Z) :
  0 < t -> e < 0 -> fexp64 (Zdigits2 t) = e ->
  F64.of_int t = Ok (S754_finite false (Z.to_pos (t * 2 ^ (- e))) e).
Proof.
  intros Ht He Hcan.
  destruct t as [| p | p]; try lia.
  unfold F64.of_int, binary_normalize.
  assert (HF : fexp64 (Zdigits2 (Zpos p) + 0) = e)
    by (rewrite Z.add_0_r; exact Hcan).
  rewrite binary_round_exact_shl; rewrite HF; [| lia].
  assert (0 < 2 ^ (0 - e)) by (apply Z.pow_pos_nonneg; lia).
  rewrite rounded_pos by nia.
  replace (0 - e) with (- e) by lia. reflexivity.
Qed.

Lemma SFsub_same_exp (m1 m2 : positive) (e : Z) :
  SFsub F64.prec F64.emax (S754_finite false m1 e) (S754_finite false m2 e)
  = binary_normalize F64.prec F64.emax (Zpos m1 - Zpos m2) e false.
Proof.
  unfold SFsub. rewrite Z.min_id. unfold shl_align. rewrite Z.sub_diag.
  reflexivity.
Qed.

Lemma canonical_normal (m : positive) (e : Z) :
  fexp64 (Zdigits2 (Zpos m) + e) = e -> 2 ^ (- e) <= Zpos m -> e < 0 ->
  Zdigits2 (Zpos m) = 53 /\ -52 <= e.
Proof.
  intros Hcan Hge He.
  assert (Hd : - e + 1 <= Zdigits2 (Zpos m)).
  { assert (0 < 2 ^ (- e)) by (apply Z.pow_pos_nonneg; lia).
    pose proof (Zdigits2_le (2 ^ (- e)) (Zpos m) ltac:(lia) Hge) as H1.
    rewrite Zdigits2_pow2 in H1 by lia. exact H1. }
  rewrite fexp64_eq in Hcan. lia.
Qed.

(** The minutes are the whole part of the quotient, and subtracting them
    leaves a fraction in [0, 1), both without rounding. *)
Lemma minutes_and_fraction (q : F64.float) :
  nonneg_canonical q ->
  exists minutes frac,
    F64.to_int q = Ok minutes /\ F64.floor q = Ok minutes
    /\ 0 <= minutes
    /\ F64.sub_int q minutes = Ok frac /\ proper_fraction frac.
Proof.
  intros [-> | (mq & eq & -> & Hcan & H971)].
  - exists 0, (S754_zero false). repeat split; try reflexivity; try lia.
    left; reflexivity.
  - set (t := Z.shiftl (Zpos mq) eq).
    assert (Ht0 : 0 <= t) by (apply Z.shiftl_nonneg; lia).
    exists t.
    change (F64.to_int (S754_finite false mq eq)) with (Ok t).
    change (F64.floor (S754_finite false mq eq)) with (Ok t).
    change (Zpos (digits2_pos mq)) with (Zdigits2 (Zpos mq)) in Hcan.
    unfold F64.sub_int.
    destruct (Z_lt_le_dec eq 0) as [Hneg | Hpos].
    + (* a quotient with binary digits after the point *)
      assert (Hp : 0 < 2 ^ (- eq)) by (apply Z.pow_pos_nonneg; lia).
      assert (Htd : t = Zpos mq / 2 ^ (- eq))
        by (apply Z.shiftl_div_pow2; lia).
      destruct (Z.eq_dec t 0) as [Hz | Hnz].
      * (* below one minute *)
        rewrite Hz. exists (S754_finite false mq eq).
        repeat split; try reflexivity; try lia.
        right. exists mq, eq. repeat split; try assumption.
        rewrite Htd in Hz. apply Z.div_small_iff in Hz; lia.
      * assert (Hge : 2 ^ (- eq) <= Zpos mq).
        { destruct (Z_lt_le_dec (Zpos mq) (2 ^ (- eq))) as [H | H];
            [| exact H].
          exfalso. apply Hnz. rewrite Htd. apply Z.div_small. lia. }
        destruct (canonical_normal mq eq Hcan Hge Hneg) as [Hd53 He52].
        assert (Hdt : Zdigits2 t = 53 + eq).
        { rewrite Htd, Zdigits2_div_pow2 by lia. lia. }
        rewrite (of_int_exact_down t eq ltac:(lia) Hneg)
          by (rewrite Hdt, fexp64_eq; lia).
        cbv [bind Ok]. rewrite SFsub_same_exp.
        assert (Hmt : 0 < t * 2 ^ (- eq)) by nia.
        rewrite Z2Pos.id by exact Hmt.
        set (r := Zpos mq - t * 2 ^ (- eq)).
        assert (Hr : r = Zpos mq mod 2 ^ (- eq)).
        { unfold r. rewrite Htd.
          pose proof (Z.div_mod (Zpos mq) (2 ^ (- eq)) ltac:(lia)). lia. }
        pose proof (Z.mod_pos_bound (Zpos mq) (2 ^ (- eq)) Hp) as Hrb.
        rewrite <- Hr in Hrb.
        destruct r as [| pr | pr] eqn:Er; [| | lia].
        -- exists (S754_zero false). repeat split; try lia.
           left; reflexivity.
        -- unfold binary_normalize.
           pose proof (Zdigits2_small (Zpos pr) (- eq) ltac:(lia) ltac:(lia))
             as Hdr.
           pose proof (Zdigits2_pos (Zpos pr) ltac:(lia)) as Hdr0.
           set (F := fexp64 (Zdigits2 (Zpos pr) + eq)).
           assert (HF : F = Zdigits2 (Zpos pr) + eq - 53)
             by (unfold F; rewrite fexp64_eq; lia).
           rewrite binary_round_exact_shl by (fold F; lia). fold F.
           assert (Hsh : 0 < 2 ^ (eq - F))
             by (apply Z.pow_pos_nonneg; lia).
           rewrite rounded_pos by nia.
           eexists. repeat split; try lia.
           right. eexists. eexists. split; [reflexivity |].
           rewrite Z2Pos.id by nia.
           change (Zpos (digits2_pos (Z.to_pos (Zpos pr * 2 ^ (eq - F)))))
             with (Zdigits2 (Zpos (Z.to_pos (Zpos pr * 2 ^ (eq - F))))).
           rewrite Z2Pos.id by nia.
           rewrite Zdigits2_mul_pow2 by lia.
           split; [| split].
           ++ replace (Zdigits2 (Zpos pr) + (eq - F) + F)
                with (Zdigits2 (Zpos pr) + eq) by lia.
              reflexivity.
           ++ lia.
           ++ replace (- F) with (- eq + (eq - F)) by lia.
              rewrite Z.pow_add_r by lia. nia.
    + (* an integral quotient *)
      assert (Hp : 0 < 2 ^ eq) by (apply Z.pow_pos_nonneg; lia).
      assert (Htd : t = Zpos mq * 2 ^ eq)
        by (apply Z.shiftl_mul_pow2; lia).
      rewrite Htd, (of_int_exact_up mq eq Hpos H971 Hcan).
      cbv [bind Ok]. rewrite SFsub_same_exp, Z.sub_diag.
      exists (S754_zero false). repeat split; try nia.
      left; reflexivity.
Qed.

(** *** The seconds *)

Lemma of_int_60 :
  F64.of_int 60 = Ok (S754_finite false 8444249301319680 (-47)).
Proof. reflexivity. Qed.

(** Sixty times a fraction in [0, 1), rounded to nearest, stays below 60:
    the rounding adds at most half a unit in the last place, and 60 - 60u
    is more than that below 60. *)
Lemma seconds_in_range (frac : F64.float) :
  proper_fraction frac ->
  exists scaled seconds,
    F64.mul_int frac 60 = Ok scaled
    /\ F64.to_int scaled = Ok seconds /\ F64.floor scaled = Ok seconds
    /\ 0 <= seconds <= 59.
Proof.
  intros [-> | (mf & ef & -> & Hcan & Hneg & Hlt)].
  - exists (S754_zero false), 0. repeat split; try reflexivity; lia.
  - unfold F64.mul_int. rewrite of_int_60. cbv [bind Ok]. unfold SFmul.
    cbn [xorb]. rewrite Pos2Z.inj_mul.
    set (m60 := 8444249301319680) in *.
    set (mx := Zpos mf * m60). set (ex := ef + -47).
    change (Zpos (digits2_pos mf)) with (Zdigits2 (Zpos mf)) in Hcan.
    pose proof (Zdigits2_pos (Zpos mf) ltac:(lia)) as Hdf0.
    assert (Hdf : Zdigits2 (Zpos mf) <= 53 /\ -1074 <= ef)
      by (rewrite fexp64_eq in Hcan; lia).
    assert (Hmx0 : 0 < mx) by (unfold mx; lia).
    assert (Hdlo : 53 <= Zdigits2 mx).
    { pose proof (Zdigits2_le (2 ^ 52) mx ltac:(lia)) as H.
      rewrite Zdigits2_pow2 in H by lia. apply H.
      unfold mx, m60. change (2 ^ 52) with 4503599627370496. lia. }
    assert (Hdhi : Zdigits2 mx <= Zdigits2 (Zpos mf) + 53).
    { apply Zdigits2_small; [| lia].
      destruct (Zdigits2_bounds (Zpos mf) ltac:(lia)) as [_ Hhi].
      rewrite Z.pow_add_r by lia.
      change (2 ^ 53) with 9007199254740992. unfold mx, m60. nia. }
    assert (Hn0 : ex <= fexp64 (Zdigits2 mx + ex))
      by (rewrite fexp64_eq; lia).
    destruct (binary_round_aux_shape false mx ex loc_Exact ltac:(lia) Hn0)
      as (M & E & HM & Heq & HcanM & HE & Hbound).
    specialize (Hbound eq_refl). rewrite Heq.
    set (n0 := fexp64 (Zdigits2 mx + ex) - ex) in *.
    assert (Hn0b : 0 <= n0 <= 53)
      by (unfold n0, ex in *; rewrite fexp64_eq in *; lia).
    assert (Hpn : 2 ^ n0 <= 2 ^ 53) by (apply Z.pow_le_mono_r; lia).
    change (2 ^ 53) with 9007199254740992 in Hpn.
    set (K := 2 ^ (- ef)) in *.
    assert (HK : 0 < K) by (apply Z.pow_pos_nonneg; lia).
    set (A := 2 ^ (E - ex)) in *.
    assert (HA : 0 < A) by (apply Z.pow_pos_nonneg; lia).
    assert (Hkey : M * A < m60 * K) by (unfold mx, m60 in *; nia).
    destruct M as [| m | m]; [| | lia].
    + exists (S754_zero false), 0. repeat split; try reflexivity; lia.
    + assert (Hsec : 0 <= Z.shiftl (Zpos m) E <= 59 /\ E <= 971).
      { destruct (Z_lt_le_dec E 0) as [HEn | HEp].
        - split; [| lia].
          rewrite Z.shiftl_div_pow2 by lia.
          assert (HB : 0 < 2 ^ (- E)) by (apply Z.pow_pos_nonneg; lia).
          assert (HK' : m60 * K = 60 * (A * 2 ^ (- E))).
          { unfold K, A, ex, m60. rewrite <- Z.pow_add_r by lia.
            replace (E - (ef + -47) + - E) with (47 + - ef) by lia.
            rewrite (Z.pow_add_r 2 47) by lia.
            change (2 ^ 47) with 140737488355328. lia. }
          split; [apply Z.div_pos; lia |].
          assert (Zpos m / 2 ^ (- E) < 60); [| lia].
          apply Z.div_lt_upper_bound; [lia |]. nia.
        - rewrite Z.shiftl_mul_pow2 by lia.
          assert (HB : 0 < 2 ^ E) by (apply Z.pow_pos_nonneg; lia).
          assert (HK' : m60 * K * 2 ^ E = 60 * A).
          { unfold K, A, ex, m60.
            replace (E - (ef + -47)) with (47 + (- ef + E)) by lia.
            rewrite (Z.pow_add_r 2 47), (Z.pow_add_r 2 (- ef)) by lia.
            change (2 ^ 47) with 140737488355328. lia. }
          assert (Hs : Zpos m * 2 ^ E < 60) by nia.
          split; [lia |].
          destruct (Z_lt_le_dec 971 E) as [Hbig | Hok]; [| exact Hok].
          exfalso.
          assert (2 ^ 6 <= 2 ^ E) by (apply Z.pow_le_mono_r; lia).
          change (2 ^ 6) with 64 in *. nia. }
      destruct Hsec as [Hsec H971].
      rewrite rounded_pos by lia. simpl Z.to_pos.
      exists (S754_finite false m E), (Z.shiftl (Zpos m) E).
      repeat split; try reflexivity; lia.
Qed.

(** ** The running pace *)

Local Open Scope string_scope.

Lemma fmt_0d_two_digits (s : Z) :
  (0 <= s <= 59)%Z ->
  Fmt.fmt_0d 2 s
  = String (digit_char (s / 10)) (String (digit_char (s mod 10)) "").
Proof.
  intros Hs. replace s with (Z.of_nat (Z.to_nat s)) by lia.
  assert (Hn : (Z.to_nat s < 60)%nat) by lia.
  generalize dependent (Z.to_nat s). intros n Hn.
  do 60 (destruct n as [| n]; [vm_compute; reflexivity |]).
  exfalso. lia.
Qed.

(** With a finite quotient every step of lines 107-110 succeeds, the
    minutes are not negative and the seconds lie in 0..59. *)
Lemma running_pace_steps (dur : Z) (x q : F64.float) :
  (0 <= dur)%Z -> F64.gt_int x 0 = true ->
  F64.int_truediv_float dur x = Ok q -> F64.is_finite q = true ->
  exists minutes seconds,
    (0 <= minutes)%Z /\ (0 <= seconds <= 59)%Z
    /\ running_pace dur x
       = Ok (Fmt.str_int minutes ++ ":" ++ Fmt.fmt_0d 2 seconds ++ " /km").
Proof.
  intros Hdur Hx Hq Hfin.
  destruct (quotient_shape dur x q Hdur Hx Hq) as [-> | Hcan];
    [discriminate |].
  destruct (minutes_and_fraction q Hcan)
    as (minutes & frac & Hti & Hfl & Hmin & Hsub & Hfrac).
  destruct (seconds_in_range frac Hfrac)
    as (scaled & seconds & Hmul & Hti2 & Hfl2 & Hsec).
  exists minutes, seconds. split; [exact Hmin |]. split; [exact Hsec |].
  unfold running_pace.
  rewrite Hq. cbv [bind Ok].
  rewrite Hti. cbv [bind Ok]. rewrite Hsub. cbv [bind Ok].
  rewrite Hmul. cbv [bind Ok]. rewrite Hti2. reflexivity.
Qed.

Lemma nonneg_canonical_finite (q : F64.float) :
  nonneg_canonical q -> F64.is_finite q = true.
Proof. intros [-> | (m & e & -> & _)]; reflexivity. Qed.

Lemma distance_and_pace_running (ss : SessionState) (dur : Z)
    (x : F64.float) :
  distance ss = Some x -> manual_pace ss = Some false ->
  F64.gt_int x 0 = true ->
  distance_and_pace ss "Running" dur
  = (pace_str <- running_pace dur x ;; Ok (x, pace_str)).
Proof.
  intros Hd Hm Hx. unfold distance_and_pace. simpl String.eqb.
  rewrite Hd, Hm. cbv [attr bind Ok]. rewrite Hx. reflexivity.
Qed.

(** When the quotient overflows the callback raises. *)
Example pace_of_a_tiny_distance :
  F64.gt_int f_tiny 0 = true
  /\ running_pace 1 f_tiny = Raise OverflowError
  /\ save_workout_callback (world_of (form "Running" 1 f_tiny false "" ""))
     = Raise OverflowError.
Proof. repeat split; vm_compute; reflexivity. Qed.

(** C4. The code at 87 minutes over 20.0 km, without a manual pace: the
    pace is 4.35 minutes per km, for which the formula of the
    specification gives 4 minutes and floor(0.35 * 60) = 21 seconds; the
    callback stores "4:20 /km".  In binary64 the quotient is just below
    4.35, its fraction times 60 just below 21, and [int] cuts it to 20.
    At 30 minutes over 5.0 km, the example of the specification, the
    formula and the code agree on "6:00 /km". *)
Theorem running_pace_one_second_short :
  F64.compare_int f20 20 = Some Eq
  /\ manual_pace (form "Running" 87 f20 false "" "") = Some false
  /\ spec_derive_pace_running 87 f20 = Some "4:21 /km"
  /\ distance_and_pace (form "Running" 87 f20 false "" "") "Running" 87
     = Ok (f20, "4:20 /km")
  /\ (exists w' rec,
         save_workout_callback
           (world_of (form "Running" 87 f20 false "" "")) = Ok w'
         /\ workouts w' = [rec]
         /\ w_duration_min rec = 87%Z
         /\ w_distance_km rec = f20
         /\ w_pace rec = "4:20 /km")
  /\ spec_derive_pace_running 30 f5 = Some "6:00 /km"
  /\ distance_and_pace (form "Running" 30 f5 false "" "") "Running" 30
     = Ok (f5, "6:00 /km").
Proof.
  split; [reflexivity |]. split; [reflexivity |].
  split; [vm_compute; reflexivity |].
  split; [vm_compute; reflexivity |].
  split.
  - eexists. eexists. split; [vm_compute; reflexivity |].
    repeat split.
  - split; vm_compute; reflexivity.
Qed.

(** C10. For Running with a positive distance, a duration that is not
    negative and no manual pace, every pace the callback computes has its
    seconds in 0..59 and reads as the minutes, a colon, two digits of
    seconds and " /km"; and it computes one whenever the quotient is
    finite. *)
Theorem running_pace_well_formed (ss : SessionState) (dur : Z)
    (x : F64.float)
    (Hdist : distance ss = Some x)
    (Hmanual : manual_pace ss = Some false)
    (Hpos : F64.gt_int x 0 = true)
    (Hdur : (0 <= dur)%Z) :
  (forall d pace_str,
      distance_and_pace ss "Running" dur = Ok (d, pace_str) ->
      exists minutes seconds,
        (0 <= minutes)%Z /\ (0 <= seconds <= 59)%Z
        /\ pace_str
           = Fmt.str_int minutes ++ ":"
             ++ String (digit_char (seconds / 10))
                  (String (digit_char (seconds mod 10)) "")
             ++ " /km")
  /\ (forall q,
         F64.int_truediv_float dur x = Ok q -> F64.is_finite q = true ->
         exists pace_str,
           distance_and_pace ss "Running" dur = Ok (x, pace_str)).
Proof.
  rewrite (distance_and_pace_running ss dur x Hdist Hmanual Hpos).
  split.
  - intros d pace_str H. inv_bind H. injection H as <- <-.
    pose proof Ha as Hrun. unfold running_pace in Ha. inv_bind Ha.
    rename a0 into q. inv_bind Ha.
    assert (Hfin : F64.is_finite q = true).
    { destruct (quotient_shape dur x q Hdur Hpos Ha0) as [-> | Hcan];
        [discriminate | apply nonneg_canonical_finite; exact Hcan]. }
    destruct (running_pace_steps dur x q Hdur Hpos Ha0 Hfin)
      as (minutes & seconds & Hmin & Hsec & H1).
    exists minutes, seconds. split; [exact Hmin |]. split; [exact Hsec |].
    rewrite H1 in Hrun. injection Hrun as <-.
    rewrite (fmt_0d_two_digits seconds Hsec). reflexivity.
  - intros q Hq Hfin.
    destruct (running_pace_steps dur x q Hdur Hpos Hq Hfin)
      as (minutes & seconds & _ & _ & H1).
    rewrite H1. eexists. reflexivity.
Qed.

Lemma running_pace_well_formed_witness :
  exists minutes seconds,
    (0 <= minutes)%Z /\ (0 <= seconds <= 59)%Z
    /\ "4:20 /km"
       = Fmt.str_int minutes ++ ":"
         ++ String (digit_char (seconds / 10))
              (String (digit_char (seconds mod 10)) "")
         ++ " /km".
Proof.
  destruct (running_pace_well_formed
              (form "Running" 87 f20 false "" "") 87 f20
              eq_refl eq_refl eq_refl ltac:(lia)) as [H _].
  apply (H f20 "4:20 /km"). vm_compute. reflexivity.
Defined.

(** * Further properties *)

(** ** What a save leaves behind *)

Local Open Scope string_scope.
Local Open Scope list_scope.

Lemma attr_inv {A : Type} (key : string) (v : option A) (a : A) :
  attr key v = Ok a -> v = Some a.
Proof. destruct v; simpl; intros H; [injection H as -> | discriminate]; reflexivity. Qed.

Lemma save_workout_callback_confirmed (w w' : World) :
  confirm_save (session_state w) = Some true ->
  save_workout_callback w = Ok w' ->
  exists d cat dur n r sub_type structure dist pace,
    date (session_state w) = Some d
    /\ category (session_state w) = Some cat
    /\ duration (session_state w) = Some dur
    /\ notes (session_state w) = Some n
    /\ rpe (session_state w) = Some r
    /\ w' = {| session_state := reset_inputs (session_state w) sub_type cat;
               workouts := add_workout d cat sub_type dur dist pace
                             structure r n (workouts w) |}.
Proof.
  intros Hc H. unfold save_workout_callback in H. rewrite Hc in H.
  simpl in H.
  inv_bind H. rename a into d. apply attr_inv in Ha.
  inv_bind H. rename a into cat. apply attr_inv in Ha0.
  inv_bind H. rename a into dur. apply attr_inv in Ha1.
  inv_bind H. rename a into n. apply attr_inv in Ha2.
  inv_bind H. rename a into r. apply attr_inv in Ha3.
  inv_bind H. destruct a as [sub_type structure].
  inv_bind H. destruct a as [dist pace].
  exists d, cat, dur, n, r, sub_type, structure, dist, pace.
  repeat (split; [assumption |]). inversion H. reflexivity.
Qed.

(** X1. A confirmed save that succeeds keeps every stored workout, in
    order, and adds exactly one after them, with the date, category,
    duration, effort and notes of the form; it then resets the form: the
    confirmation and the manual-pace box are cleared, the duration is back
    to 30 and the effort to 5, while the date and the category stay. *)
Theorem confirmed_save_appends_one_record (w w' : World)
    (Hflag : confirm_save (session_state w) = Some true)
    (Hrun : save_workout_callback w = Ok w') :
  exists d cat dur n r rec,
    date (session_state w) = Some d
    /\ category (session_state w) = Some cat
    /\ duration (session_state w) = Some dur
    /\ notes (session_state w) = Some n
    /\ rpe (session_state w) = Some r
    /\ workouts w' = workouts w ++ [rec]
    /\ w_date rec = strftime_ymd d
    /\ w_category rec = cat
    /\ w_duration_min rec = dur
    /\ w_rpe rec = r
    /\ w_notes rec = n
    /\ confirm_save (session_state w') = Some false
    /\ manual_pace (session_state w') = Some false
    /\ pace_input (session_state w') = Some ""
    /\ duration (session_state w') = Some 30%Z
    /\ rpe (session_state w') = Some 5%Z
    /\ notes (session_state w') = Some ""
    /\ date (session_state w') = date (session_state w)
    /\ category (session_state w') = category (session_state w)
    /\ warning_msg (session_state w') = Some None.
Proof.
  destruct (save_workout_callback_confirmed w w' Hflag Hrun)
    as (d & cat & dur & n & r & sub_type & structure & dist & pace
        & Hd & Hcat & Hdur & Hn & Hr & ->).
  exists d, cat, dur, n, r. eexists.
  repeat (split; [eassumption |]).
  split; [reflexivity |]. simpl. repeat (split; [reflexivity |]).
  reflexivity.
Qed.

Lemma confirmed_save_appends_one_record_witness :
  exists rec,
    (exists w',
        save_workout_callback
          (world_of (form "Running" 30 f5 false "" "")) = Ok w'
        /\ workouts w' = [rec])
    /\ w_date rec = "2024-01-09" /\ w_category rec = "Running"
    /\ w_duration_min rec = 30%Z.
Proof.
  destruct (confirmed_save_appends_one_record
              (world_of (form "Running" 30 f5 false "" "")) _
              eq_refl eq_refl)
    as (d & cat & dur & n & r & rec & Hd & Hcat & Hdur & _ & _ & Hw
        & H1 & H2 & H3 & _).
  exists rec. split.
  - eexists. split; [reflexivity |]. exact Hw.
  - injection Hd as <-. injection Hcat as <-. injection Hdur as <-.
    rewrite H1, H2, H3. repeat split.
Defined.

(** X2. After a confirmed save the callback cannot store the same form
    twice: run again on the state the save left, it stores nothing and
    only asks for the confirmation. *)
Theorem repeated_save_only_warns (w w' : World)
    (Hflag : confirm_save (session_state w) = Some true)
    (Hrun : save_workout_callback w = Ok w') :
  exists w'',
    save_workout_callback w' = Ok w''
    /\ workouts w'' = workouts w'
    /\ warning_msg (session_state w'') = Some (Some confirm_warning)
    /\ success_msg (session_state w'') = success_msg (session_state w').
Proof.
  destruct (save_workout_callback_confirmed w w' Hflag Hrun)
    as (d & cat & dur & n & r & sub_type & structure & dist & pace
        & _ & _ & _ & _ & _ & ->).
  eexists. split; [reflexivity |]. simpl. repeat split.
Qed.

Lemma repeated_save_only_warns_witness :
  exists w' w'',
    save_workout_callback (world_of (form "Gym" 45 F64.zero false "" ""))
    = Ok w'
    /\ save_workout_callback w' = Ok w''
    /\ List.length (workouts w') = 1%nat
    /\ List.length (workouts w'') = 1%nat.
Proof.
  eexists.
  destruct (repeated_save_only_warns
              (world_of (form "Gym" 45 F64.zero false "" "")) _
              eq_refl eq_refl) as (w'' & Hrun & Hw & _).
  exists w''. split; [reflexivity |]. split; [exact Hrun |].
  split; [reflexivity |]. rewrite Hw. reflexivity.
Defined.

(** ** The week of the dashboard *)

Local Open Scope Z_scope.

(** X3. When the two readings of the clock behind [current_week_start]
    fall on the same calendar day, its midnight is the Monday that starts
    the week of the first reading, and the rows of this week are the rows
    dated on or after that Monday: later dates, also future ones, are
    kept. *)
Theorem current_week_start_same_day (df : list Row) (t1 t2 : Timestamp)
    (Hday : normalize t1 = normalize t2) :
  normalize (current_week_start t1 t2) = week_start t1
  /\ dayofweek (week_start t1) = 0
  /\ week_start t1 <= t1 < week_start t1 + Timedelta_weeks 1
  /\ forall r, In r (this_week_df df t1 t2)
               <-> In r df /\ week_start t1 <= r_date r.
Proof.
  assert (H1 : normalize (current_week_start t1 t2) = week_start t1)
    by (unfold current_week_start; days_arith).
  split; [exact H1 |]. split; [days_arith |]. split; [days_arith |].
  intros r. unfold this_week_df. rewrite filter_In, H1, Z.leb_le.
  reflexivity.
Qed.

Lemma current_week_start_same_day_witness :
  normalize (current_week_start (Timestamp_ymd 2024 1 11 + 3600)
                                (Timestamp_ymd 2024 1 11 + 3601))
  = Timestamp_ymd 2024 1 8.
Proof.
  destruct (current_week_start_same_day []
              (Timestamp_ymd 2024 1 11 + 3600)
              (Timestamp_ymd 2024 1 11 + 3601) eq_refl) as [H _].
  rewrite H. reflexivity.
Defined.

(** X4. When midnight passes between the two readings, the second one
    falling on the day after the first, the week does not start on a
    Monday: its start is a Sunday, the day of the first reading if that is
    a Sunday and the day before the Monday of its week otherwise. *)
Theorem current_week_start_across_midnight (t1 t2 : Timestamp)
    (Hday : normalize t2 = normalize t1 + Timedelta_days 1) :
  dayofweek (normalize (current_week_start t1 t2)) = 6
  /\ normalize (current_week_start t1 t2)
     = if dayofweek t1 =? 6 then normalize t1
       else week_start t1 - Timedelta_days 1.
Proof.
  unfold current_week_start. split.
  - days_arith.
  - destruct (dayofweek t1 =? 6) eqn:E;
      [apply Z.eqb_eq in E | apply Z.eqb_neq in E]; days_arith.
Qed.

Lemma current_week_start_across_midnight_witness :
  normalize (current_week_start (Timestamp_ymd 2024 1 15 - 1)
                                (Timestamp_ymd 2024 1 15))
  = Timestamp_ymd 2024 1 14
  /\ dayofweek (Timestamp_ymd 2024 1 14) = 6.
Proof.
  destruct (current_week_start_across_midnight
              (Timestamp_ymd 2024 1 15 - 1) (Timestamp_ymd 2024 1 15)
              eq_refl) as [H6 H].
  rewrite H. split; reflexivity.
Defined.

(** ** The weekly chart *)

Lemma scan_bins_labels (labels : list Timestamp) :
  forall rows, map fst (scan_bins labels rows) = labels.
Proof.
  induction labels as [| lab labels IH]; intros rows; [reflexivity |].
  simpl.
  destruct (span (fun r => r_date r <=? lab + NS_PER_DAY - 1) rows)
    as [inside later].
  simpl. rewrite IH. reflexivity.
Qed.

Lemma tl_weeks_from_any (L : Timestamp) (N : nat) :
  exists n, tl (weeks_from L N) = weeks_from (L + Timedelta_weeks 1) n.
Proof.
  destruct N as [| N].
  - exists 0%nat. reflexivity.
  - exists N. apply tl_weeks_from.
Qed.

Lemma removelast_weeks_from_any (L : Timestamp) (N : nat) :
  exists n, removelast (weeks_from L N) = weeks_from L n.
Proof.
  destruct N as [| N].
  - exists 0%nat. reflexivity.
  - exists N. apply removelast_weeks_from.
Qed.

Lemma sub_week_mon_monday (t : Timestamp) :
  is_midnight (sub_week_mon (normalize t) + Timedelta_weeks 1)
  /\ dayofweek (sub_week_mon (normalize t) + Timedelta_weeks 1) = 0.
Proof.
  unfold sub_week_mon.
  destruct (dayofweek (normalize t) =? 0) eqn:E;
    [apply Z.eqb_eq in E | apply Z.eqb_neq in E]; split; days_arith.
Qed.

(** The labels of [resample('W-MON')], whatever the time of day of the
    index: consecutive Mondays. *)
Lemma resample_W_MON_sum_labels (rows : list Row) :
  exists L n,
    is_midnight L /\ dayofweek L = 0
    /\ map fst (resample_W_MON_sum rows) = weeks_from L n.
Proof.
  destruct rows as [| r0 rows'].
  - destruct (sub_week_mon_monday 0) as [H1 H2].
    exists (sub_week_mon (normalize 0) + Timedelta_weeks 1), 0%nat.
    split; [exact H1 |]. split; [exact H2 | reflexivity].
  - set (rows := r0 :: rows').
    set (lo := list_min (r_date r0) (map r_date rows)).
    set (hi := list_max (r_date r0) (map r_date rows)).
    change (resample_W_MON_sum rows)
      with (let first := sub_week_mon (normalize lo) in
            let last := add_week_mon (normalize hi) in
            scan_bins
              (tl (if hi <? last - Timedelta_weeks 1 + NS_PER_DAY - 1
                   then removelast (date_range_weekly first last)
                   else date_range_weekly first last))
              (sort_by_date rows)).
    cbv zeta. rewrite scan_bins_labels.
    set (first := sub_week_mon (normalize lo)).
    set (last := add_week_mon (normalize hi)).
    change (date_range_weekly first last)
      with (weeks_from first
              (Z.to_nat ((last - first) / Timedelta_weeks 1 + 1))).
    set (N := Z.to_nat ((last - first) / Timedelta_weeks 1 + 1)).
    destruct (sub_week_mon_monday lo) as [H1 H2]. fold first in H1, H2.
    exists (first + Timedelta_weeks 1).
    destruct (hi <? last - Timedelta_weeks 1 + NS_PER_DAY - 1).
    + destruct (removelast_weeks_from_any first N) as [n ->].
      destruct (tl_weeks_from_any first n) as [n' ->].
      exists n'. auto.
    + destruct (tl_weeks_from_any first N) as [n' ->].
      exists n'. auto.
Qed.

Lemma weeks_from_sorted_keys (n : nat) :
  forall (L : Z) (l : list (Z * Z)),
    map fst l = weeks_from L n ->
    StronglySorted (fun a b : Z * Z => fst a < fst b) l.
Proof.
  induction n as [| n IH]; intros L l Hl.
  - destruct l; [constructor | discriminate].
  - rewrite weeks_from_S in Hl. destruct l as [| a l]; [discriminate |].
    simpl in Hl. injection Hl as Ha Hl. constructor.
    + apply (IH _ _ Hl).
    + rewrite Forall_forall. intros b Hb.
      assert (Hin : In (fst b) (weeks_from (L + Timedelta_weeks 1) n))
        by (rewrite <- Hl; apply in_map; exact Hb).
      apply weeks_from_ge in Hin. subst L. cbv beta.
      unfold Timedelta_weeks in Hin. rewrite NS_PER_DAY_eq in Hin. lia.
Qed.

Lemma sorted_filter_suffix (thr : Z) (l : list (Z * Z)) :
  StronglySorted (fun a b : Z * Z => fst a < fst b) l ->
  l = filter (fun b => negb (thr <=? fst b)) l
        ++ filter (fun b => thr <=? fst b) l.
Proof.
  induction 1 as [| a l Hs IH Hall]; [reflexivity |].
  simpl. destruct (thr <=? fst a) eqn:E; simpl.
  - apply Z.leb_le in E.
    assert (Hkeep : forall b, In b l -> (thr <=? fst b) = true).
    { intros b Hb. rewrite Forall_forall in Hall.
      specialize (Hall b Hb). apply Z.leb_le. lia. }
    assert (H1 : filter (fun b => negb (thr <=? fst b)) l = []).
    { clear - Hkeep. induction l as [| b l IH]; [reflexivity |].
      simpl. rewrite (Hkeep b (or_introl eq_refl)). simpl.
      apply IH. intros x Hx. apply Hkeep. right. exact Hx. }
    assert (H2 : filter (fun b => thr <=? fst b) l = l).
    { clear - Hkeep. induction l as [| b l IH]; [reflexivity |].
      simpl. rewrite (Hkeep b (or_introl eq_refl)). f_equal.
      apply IH. intros x Hx. apply Hkeep. right. exact Hx. }
    rewrite H1, H2. reflexivity.
  - f_equal. exact IH.
Qed.

(** X5. The labels of the weekly series are consecutive Mondays at
    midnight, one week apart, whatever the records; the chart keeps the
    tail of the series: every bucket it drops is older than twelve weeks
    before the reading of the clock and comes before every bucket it
    keeps. *)
Theorem weekly_chart_is_recent_tail (df : list Row)
    (activity_filter : string) (t3 : Timestamp) :
  exists L n older,
    is_midnight L /\ dayofweek L = 0
    /\ map fst (df_weekly df activity_filter) = weeks_from L n
    /\ df_weekly df activity_filter
       = older ++ df_viz df activity_filter t3
    /\ Forall (fun b => fst b < t3 - Timedelta_weeks 12) older
    /\ Forall (fun b => t3 - Timedelta_weeks 12 <= fst b)
              (df_viz df activity_filter t3).
Proof.
  unfold df_viz, df_weekly.
  set (rows := df_filtered df activity_filter).
  destruct (resample_W_MON_sum_labels rows) as (L & n & H1 & H2 & Hl).
  exists L, n,
    (filter (fun b => negb (t3 - Timedelta_weeks 12 <=? fst b))
            (resample_W_MON_sum rows)).
  split; [exact H1 |]. split; [exact H2 |]. split; [exact Hl |].
  split; [| split].
  - apply sorted_filter_suffix. apply (weeks_from_sorted_keys n L _ Hl).
  - rewrite Forall_forall. intros b Hb. apply filter_In in Hb.
    destruct Hb as [_ Hb]. apply negb_true_iff, Z.leb_gt in Hb. exact Hb.
  - rewrite Forall_forall. intros b Hb. apply filter_In in Hb.
    destruct Hb as [_ Hb]. apply Z.leb_le in Hb. exact Hb.
Qed.

(** *** The buckets share out the minutes *)

Lemma zsum_app (a b : list Z) : zsum (a ++ b) = zsum a + zsum b.
Proof. induction a as [| x a IH]; simpl; [reflexivity | rewrite IH; lia]. Qed.

Lemma zsum_filter_bounds (p : Row -> bool) (l : list Row) :
  Forall (fun r => 0 <= r_duration_min r) l ->
  0 <= zsum (map r_duration_min (filter p l))
  <= zsum (map r_duration_min l).
Proof.
  induction 1 as [| r l Hr Hl IH]; simpl; [lia |].
  destruct (p r); simpl; lia.
Qed.

Lemma wrap64_small (z : Z) : - 2 ^ 63 <= z < 2 ^ 63 -> wrap64 z = z.
Proof.
  intros H. unfold wrap64. rewrite Z.mod_small; lia.
Qed.

Lemma zsum_indicator (k : Z) (d : Z) (keys : list Z) :
  NoDup keys -> In k keys ->
  zsum (map (fun L => if k =? L then d else 0) keys) = d.
Proof.
  induction 1 as [| a keys Ha Hnd IH]; intros Hin; [destruct Hin |].
  simpl. destruct (Z.eqb_spec k a) as [-> | Hne].
  - assert (E : zsum (map (fun L => if a =? L then d else 0) keys) = 0).
    { clear - Ha. induction keys as [| b keys IH]; [reflexivity |].
      simpl. destruct (Z.eqb_spec a b) as [-> | _].
      - exfalso. apply Ha. left. reflexivity.
      - rewrite IH; [reflexivity |]. intros H. apply Ha. right. exact H. }
    rewrite E. lia.
  - destruct Hin as [-> | Hin]; [congruence |]. rewrite (IH Hin). lia.
Qed.

Lemma zsum_map_add (f g : Z -> Z) (keys : list Z) :
  zsum (map (fun L => f L + g L) keys)
  = zsum (map f keys) + zsum (map g keys).
Proof.
  induction keys as [| a keys IH]; simpl; [reflexivity | rewrite IH; lia].
Qed.

Lemma zsum_partition (key : Row -> Z) (keys : list Z) (rows : list Row) :
  NoDup keys -> Forall (fun r => In (key r) keys) rows ->
  zsum (map (fun L =>
               zsum (map r_duration_min
                         (filter (fun r => key r =? L) rows))) keys)
  = zsum (map r_duration_min rows).
Proof.
  intros Hnd. induction 1 as [| r rows Hr Hall IH].
  - simpl. induction keys as [| a keys IHk]; [reflexivity |].
    simpl. apply IHk. inversion Hnd; assumption.
  - simpl. rewrite <- IH, <- (zsum_indicator (key r) (r_duration_min r)
                                keys Hnd Hr) at 1.
    rewrite <- zsum_map_add. f_equal. apply map_ext. intros L.
    destruct (key r =? L); simpl; lia.
Qed.

Lemma weeks_from_NoDup (n : nat) :
  forall L : Timestamp, NoDup (weeks_from L n).
Proof.
  induction n as [| n IH]; intros L; [constructor |].
  rewrite weeks_from_S. constructor; [| apply IH].
  intros Hin. apply weeks_from_ge in Hin.
  unfold Timedelta_weeks in Hin. rewrite NS_PER_DAY_eq in Hin. lia.
Qed.

Lemma week_label_in_range (lo hi d : Timestamp) :
  is_midnight lo -> is_midnight hi -> is_midnight d -> lo <= d <= hi ->
  In (week_label d)
     (weeks_from (week_label lo)
        (Z.to_nat ((week_label hi - week_label lo) / Timedelta_weeks 1
                   + 1))).
Proof.
  intros Hlo Hhi Hd Hle. unfold weeks_from. apply in_map_iff.
  exists (Z.to_nat ((week_label d - week_label lo) / Timedelta_weeks 1)).
  split.
  - rewrite Z2Nat.id by days_arith. days_arith.
  - apply in_seq. split; [lia |]. simpl.
    apply Z2Nat.inj_lt; days_arith.
Qed.

(** X6. The buckets of the weekly series share out the minutes of the
    chosen records: with calendar dates, durations that are not negative
    and a total below 2^63, the sums of the buckets add up to the total
    duration, so that no record is dropped and none is counted twice. *)
Theorem weekly_sums_add_up (df : list Row) (activity_filter : string)
    (Hdates : Forall (fun r => is_midnight (r_date r))
                     (df_filtered df activity_filter))
    (Hnonneg : Forall (fun r => 0 <= r_duration_min r)
                      (df_filtered df activity_filter))
    (Hsmall : zsum (map r_duration_min (df_filtered df activity_filter))
              < 2 ^ 63) :
  zsum (map snd (df_weekly df activity_filter))
  = zsum (map r_duration_min (df_filtered df activity_filter)).
Proof.
  unfold df_weekly. set (rows := df_filtered df activity_filter) in *.
  destruct rows as [| r0 rows'] eqn:Erows; [reflexivity |].
  rewrite <- Erows in *.
  assert (Hne : rows <> []) by (rewrite Erows; discriminate).
  destruct (resample_W_MON_sum_spec rows Hne Hdates)
    as (lo & hi & Hlo & Hhi & Hall & ->).
  set (keys := weeks_from (week_label lo)
                 (Z.to_nat ((week_label hi - week_label lo)
                            / Timedelta_weeks 1 + 1))).
  rewrite map_map. cbn [snd].
  rewrite <- (zsum_partition (fun r => week_label (r_date r)) keys rows).
  - f_equal. apply map_ext. intros L. rewrite int64_sum_zsum.
    apply wrap64_small.
    pose proof (zsum_filter_bounds
                  (fun r => week_label (r_date r) =? L) rows Hnonneg).
    lia.
  - apply weeks_from_NoDup.
  - assert (Hmid : forall d, In d (map r_date rows) -> is_midnight d).
    { intros d Hd. apply in_map_iff in Hd. destruct Hd as (r & <- & Hr).
      rewrite Forall_forall in Hdates. apply Hdates; exact Hr. }
    rewrite Forall_forall. intros r Hr.
    apply week_label_in_range.
    + apply Hmid; exact Hlo.
    + apply Hmid; exact Hhi.
    + apply Hmid. apply in_map. exact Hr.
    + rewrite Forall_forall in Hall. apply Hall. apply in_map. exact Hr.
Qed.

Lemma weekly_sums_add_up_witness :
  zsum (map snd (df_weekly df_gap "Running")) = 70.
Proof.
  rewrite (weekly_sums_add_up df_gap "Running").
  - reflexivity.
  - repeat constructor.
  - repeat constructor; simpl; lia.
  - reflexivity.
Defined.

(** ** The breakdown by category *)

Lemma ascii_compare_refl (a : ascii) : Ascii.compare a a = Eq.
Proof. unfold Ascii.compare. apply N.compare_refl. Qed.

Lemma string_compare_refl (s : string) : String.compare s s = Eq.
Proof.
  induction s as [| a s IH]; [reflexivity |].
  simpl. rewrite ascii_compare_refl. exact IH.
Qed.

Lemma str_lt_irrefl (s : string) : ~ str_lt s s.
Proof. unfold str_lt. rewrite string_compare_refl. discriminate. Qed.

Lemma str_lt_trans (a b c : string) : str_lt a b -> str_lt b c -> str_lt a c.
Proof.
  unfold str_lt. revert b c.
  induction a as [| x a IH]; intros [| y b] [| z c]; simpl;
    try discriminate; try reflexivity.
  destruct (Ascii.compare x y) eqn:Exy; try discriminate;
    destruct (Ascii.compare y z) eqn:Eyz; try discriminate.
  - apply Ascii.compare_eq_iff in Exy, Eyz. subst y z.
    rewrite ascii_compare_refl. apply IH.
  - apply Ascii.compare_eq_iff in Exy. subst y. rewrite Eyz. reflexivity.
  - apply Ascii.compare_eq_iff in Eyz. subst z. rewrite Exy. reflexivity.
  - unfold Ascii.compare in *. rewrite N.compare_lt_iff in Exy, Eyz.
    assert (H : (N_of_ascii x ?= N_of_ascii z)%N = Lt)
      by (apply N.compare_lt_iff; lia).
    rewrite H. reflexivity.
Qed.

Lemma str_lt_neq (a b : string) : str_lt a b -> a <> b.
Proof. intros H ->. exact (str_lt_irrefl b H). Qed.

Lemma compare_Gt_lt (a b : string) : String.compare a b = Gt -> str_lt b a.
Proof.
  intros H. unfold str_lt. rewrite String.compare_antisym, H. reflexivity.
Qed.

Lemma add_to_group_keys (k : string) (v : Z) (g : list (string * list Z))
    (x : string) :
  In x (map fst (add_to_group k v g)) <-> x = k \/ In x (map fst g).
Proof.
  induction g as [| [k' vs] g IH]; simpl.
  - intuition.
  - destruct (String.compare k k') eqn:E; simpl.
    + apply String.compare_eq_iff in E. subst k'. intuition.
    + intuition.
    + rewrite IH. intuition.
Qed.

Lemma add_to_group_sorted (k : string) (v : Z) (g : list (string * list Z)) :
  keys_sorted g -> keys_sorted (add_to_group k v g).
Proof.
  unfold keys_sorted.
  induction 1 as [| [k' vs] g Hs IH Hall]; simpl.
  - repeat constructor.
  - destruct (String.compare k k') eqn:E.
    + constructor; assumption.
    + constructor; [constructor; assumption |].
      constructor; [exact E |].
      rewrite Forall_forall in *. intros b Hb.
      apply (str_lt_trans _ k'); [exact E | apply Hall; exact Hb].
    + constructor; [exact IH |].
      rewrite Forall_forall in *. intros b Hb. cbn [fst].
      assert (Hk : In (fst b) (map fst (add_to_group k v g)))
        by (apply in_map; exact Hb).
      apply add_to_group_keys in Hk. destruct Hk as [-> | Hk].
      * apply compare_Gt_lt. exact E.
      * apply in_map_iff in Hk. destruct Hk as (b' & <- & Hb').
        apply (Hall b' Hb').
Qed.

Lemma group_get_absent (c : string) (g : list (string * list Z)) :
  ~ In c (map fst g) -> group_get c g = [].
Proof.
  induction g as [| [k' vs] g IH]; simpl; intros H; [reflexivity |].
  destruct (String.eqb_spec c k') as [-> | _]; [tauto |].
  apply IH. tauto.
Qed.

Lemma keys_sorted_head_absent (k' : string) (vs : list Z)
    (g : list (string * list Z)) (c : string) :
  keys_sorted ((k', vs) :: g) -> (c = k' \/ str_lt c k') ->
  ~ In c (map fst g).
Proof.
  intros Hs Hc Hin. inversion Hs as [| a l Hs' Hall]; subst.
  apply in_map_iff in Hin. destruct Hin as (b & <- & Hb).
  rewrite Forall_forall in Hall. specialize (Hall b Hb). cbn [fst] in Hall.
  destruct Hc as [Hc | Hc].
  - rewrite Hc in Hall. exact (str_lt_irrefl _ Hall).
  - exact (str_lt_irrefl _ (str_lt_trans _ _ _ Hc Hall)).
Qed.

Lemma group_get_add (k : string) (v : Z) (g : list (string * list Z))
    (c : string) :
  keys_sorted g ->
  group_get c (add_to_group k v g)
  = if String.eqb c k then group_get c g ++ [v] else group_get c g.
Proof.
  induction g as [| [k' vs] g IH]; intros Hs.
  - simpl. destruct (String.eqb c k); reflexivity.
  - simpl add_to_group. destruct (String.compare k k') eqn:E.
    + apply String.compare_eq_iff in E. subst k'. simpl.
      destruct (String.eqb c k); reflexivity.
    + simpl. destruct (String.eqb c k) eqn:Eck; [| reflexivity].
      apply String.eqb_eq in Eck. subst c.
      destruct (String.eqb k k') eqn:Ekk.
      * exfalso. apply String.eqb_eq in Ekk. subst k'.
        exact (str_lt_irrefl _ E).
      * rewrite group_get_absent; [reflexivity |].
        apply (keys_sorted_head_absent k' vs g k Hs). right. exact E.
    + simpl. destruct (String.eqb c k') eqn:Eck'.
      * apply String.eqb_eq in Eck'. subst c.
        destruct (String.eqb k' k) eqn:Ekk; [| reflexivity].
        exfalso. apply String.eqb_eq in Ekk. subst k'.
        apply compare_Gt_lt in E. exact (str_lt_irrefl _ E).
      * apply IH. inversion Hs; assumption.
Qed.

Lemma group_get_In (g : list (string * list Z)) (c : string) (vs : list Z) :
  keys_sorted g ->
  (In (c, vs) g <-> In c (map fst g) /\ vs = group_get c g).
Proof.
  induction g as [| [k' vs'] g IH]; intros Hs; simpl; [tauto |].
  assert (Hs' : keys_sorted g) by (inversion Hs; assumption).
  specialize (IH Hs').
  destruct (String.eqb_spec c k') as [-> | Hne].
  - assert (Habs : ~ In k' (map fst g))
      by (apply (keys_sorted_head_absent k' vs' g k' Hs); left; reflexivity).
    split.
    + intros [H | H].
      * injection H as ->. split; [left |]; reflexivity.
      * exfalso. apply Habs. apply IH in H. tauto.
    + intros [_ ->]. left. reflexivity.
  - split.
    + intros [H | H]; [injection H as -> _; congruence |].
      apply IH in H. tauto.
    + intros [[H | H] Hv]; [congruence |]. right. apply IH. tauto.
Qed.

Lemma groups_of_rows (df : list Row) :
  forall (done : list Row) (g : list (string * list Z)),
    keys_sorted g ->
    (forall c, In c (map fst g) <-> In c (map r_category done)) ->
    (forall c, group_get c g
               = map r_duration_min
                     (filter (fun r => String.eqb (r_category r) c) done)) ->
    let g' := fold_left
                (fun g r => add_to_group (r_category r) (r_duration_min r) g)
                df g in
    keys_sorted g'
    /\ (forall c, In c (map fst g') <-> In c (map r_category (done ++ df)))
    /\ (forall c, group_get c g'
                  = map r_duration_min
                        (filter (fun r => String.eqb (r_category r) c)
                                (done ++ df))).
Proof.
  induction df as [| r df IH]; intros done g Hs Hk Hv.
  - simpl. rewrite app_nil_r. auto.
  - simpl fold_left.
    replace (done ++ r :: df) with ((done ++ [r]) ++ df)
      by (rewrite <- app_assoc; reflexivity).
    apply IH.
    + apply add_to_group_sorted. exact Hs.
    + intros c. rewrite add_to_group_keys, map_app, in_app_iff, Hk. simpl.
      intuition.
    + intros c. rewrite (group_get_add _ _ _ _ Hs), filter_app, map_app, Hv.
      simpl. rewrite String.eqb_sym.
      destruct (String.eqb (r_category r) c); simpl;
        [reflexivity | rewrite app_nil_r; reflexivity].
Qed.

(** X7. The breakdown by category has one row for each category that
    occurs in the records and no other row; the row of a category holds
    the (wrapped) sum of the durations of all the records of that
    category; the rows come in the strict order of their keys, so that no
    category has two rows. *)
Theorem breakdown_by_category (df : list Row) :
  keys_sorted (groupby_category_sum df)
  /\ forall (c : string) (s : Z),
       In (c, s) (groupby_category_sum df)
       <-> In c (map r_category df)
           /\ s = int64_sum
                    (map r_duration_min
                         (filter (fun r => String.eqb (r_category r) c) df)).
Proof.
  unfold groupby_category_sum.
  destruct (groups_of_rows df [] []) as (Hs & Hk & Hv).
  - constructor.
  - intros c. simpl. tauto.
  - intros c. reflexivity.
  - simpl app in Hk, Hv.
    set (g := fold_left
                (fun g r => add_to_group (r_category r) (r_duration_min r) g)
                df []) in *.
    split.
    + clear - Hs. unfold keys_sorted in *.
      induction Hs as [| a l Hs' IH Hall]; simpl; constructor.
      * exact IH.
      * rewrite Forall_forall in *. intros b Hb.
        apply in_map_iff in Hb. destruct Hb as (b' & <- & Hb').
        apply (Hall b' Hb').
    + intros c s. rewrite in_map_iff. split.
      * intros ([c' vs] & Heq & Hin). simpl in Heq. injection Heq as -> <-.
        apply (group_get_In g c vs Hs) in Hin. destruct Hin as [Hin ->].
        split; [apply Hk; exact Hin |]. rewrite Hv. reflexivity.
      * intros [Hc ->]. exists (c, group_get c g). split.
        -- simpl. rewrite Hv. reflexivity.
        -- apply (group_get_In g c _ Hs). split; [apply Hk; exact Hc |].
           reflexivity.
Qed.

(** ** The form: previews and messages *)

Local Open Scope string_scope.








Lemma shown_msg_empty (s : string) :
  shown_msg (Some (Some s)) = None -> s = "".
Proof.
  unfold shown_msg. destruct (String.eqb_spec s ""); [auto | discriminate].
Qed.

(** X10. A message is shown once: on the session that a run of the page
    leaves, the page shows no message, and it leaves every key but the two
    messages as it found it. *)
Theorem messages_shown_once (ss : SessionState) :
  fst (show_messages (snd (show_messages ss))) = []
  /\ shown_msg (success_msg (snd (show_messages ss))) = None
  /\ shown_msg (warning_msg (snd (show_messages ss))) = None
  /\ confirm_save (snd (show_messages ss)) = confirm_save ss
  /\ duration (snd (show_messages ss)) = duration ss
  /\ distance (snd (show_messages ss)) = distance ss
  /\ notes (snd (show_messages ss)) = notes ss.
Proof.
  unfold show_messages.
  destruct (shown_msg (success_msg ss)) eqn:E1;
    cbn [set_success success_msg warning_msg];
    destruct (shown_msg (warning_msg ss)) eqn:E2;
    cbn [fst snd set_success set_warning success_msg warning_msg shown_msg
         confirm_save duration distance notes];
    rewrite ?E1, ?E2; cbn [fst snd app]; repeat split; reflexivity.
Qed.

(** X11. What the page shows after the callback: after a confirmed save
    the one message is the success line with the sub-type and the category
    of the saved workout; after an unconfirmed one the last message is the
    request to confirm.  *)
Theorem banner_after_save (w w' : World)
    (Hrun : save_workout_callback w = Ok w') :
  (confirm_save (session_state w) = Some true ->
   exists sub_type cat rec,
     category (session_state w) = Some cat
     /\ workouts w' = (workouts w ++ [rec])%list
     /\ w_sub_type rec = sub_type
     /\ fst (show_messages (session_state w'))
        = [Success ("✅ Saved " ++ sub_type ++ " (" ++ cat
                      ++ ") to Cloud!")])
  /\ (confirm_save (session_state w) = Some false ->
      exists before,
        fst (show_messages (session_state w'))
        = (before ++ [Warning confirm_warning])%list
        /\ (before = []
            \/ exists s, success_msg (session_state w) = Some (Some s)
                         /\ before = [Success s])).
Proof.
  split.
  - intros Hc.
    destruct (save_workout_callback_confirmed w w' Hc Hrun)
      as (d & cat & dur & n & r & sub_type & structure & dist & pace
          & _ & Hcat & _ & _ & _ & ->).
    exists sub_type, cat. eexists.
    split; [exact Hcat |]. split; [reflexivity |].
    split; reflexivity.
  - intros Hc. unfold save_workout_callback in Hrun. rewrite Hc in Hrun.
    cbn [attr bind Ok negb] in Hrun. injection Hrun as <-.
    cbn [session_state]. unfold show_messages.
    cbn [set_warning success_msg warning_msg].
    destruct (shown_msg (success_msg (session_state w))) eqn:E.
    + cbn [set_success warning_msg]. eexists. split; [reflexivity |].
      right. exists s. split; [| reflexivity].
      unfold shown_msg in E.
      destruct (success_msg (session_state w)) as [[s0 |] |];
        try discriminate.
      destruct (String.eqb s0 ""); [discriminate |].
      injection E as ->. reflexivity.
    + exists []. split; [reflexivity | left; reflexivity].
Qed.

Lemma banner_after_save_witness :
  exists w',
    save_workout_callback (world_of (form "Running" 30 f5 false "" ""))
    = Ok w'
    /\ fst (show_messages (session_state w'))
       = [Success "✅ Saved Easy Run (Running) to Cloud!"].
Proof.
  eexists. split; [reflexivity |].
  destruct (banner_after_save
              (world_of (form "Running" 30 f5 false "" "")) _ eq_refl)
    as [H _].
  destruct (H eq_refl) as (sub_type & cat & rec & Hcat & Hw & Hsub & Hb).
  rewrite Hb. injection Hcat as <-. rewrite <- Hsub.
  vm_compute in Hw. injection Hw as <-. reflexivity.
Defined.

(** ** The cycling speed *)

Local Open Scope Z_scope.

(** A rounding away from the subnormal range gives a canonical non-zero
    mantissa, at most one binade above the input. *)
Lemma binary_round_aux_normal (sx : bool) (mx ex : Z) (lx : location) :
  0 < mx -> ex <= fexp64 (Zdigits2 mx + ex) -> -1073 <= Zdigits2 mx + ex ->
  exists M E,
    0 < M
    /\ binary_round_aux F64.prec F64.emax sx mx ex lx = rounded sx M E
    /\ fexp64 (Zdigits2 M + E) = E
    /\ E <= fexp64 (Zdigits2 mx + ex + 1)
    /\ Zdigits2 mx + ex <= Zdigits2 M + E <= Zdigits2 mx + ex + 1.
Proof.
  intros Hmx Hex Hd.
  destruct (binary_round_aux_unfold sx mx ex lx ltac:(lia) Hex)
    as (Hm' & Hn2' & Heq).
  set (n0 := fexp64 (Zdigits2 mx + ex) - ex) in *.
  set (mrs' := shr_n (shr_record_of_loc mx lx) n0) in *.
  set (m1 := round_nearest_even (shr_m mrs') (loc_of_shr_record mrs')) in *.
  set (e' := ex + n0) in *.
  set (n2 := fexp64 (Zdigits2 m1 + e') - e') in *.
  set (d := Zdigits2 mx) in *.
  assert (Hn0' : 0 <= n0) by (unfold n0; lia).
  assert (Hn0d : n0 <= d - 1) by (unfold n0; rewrite fexp64_eq; lia).
  destruct (Zdigits2_bounds mx Hmx) as [Hlo Hhi]. fold d in Hlo, Hhi.
  assert (Hge : 2 ^ n0 <= mx).
  { assert (2 ^ n0 <= 2 ^ (d - 1)) by (apply Z.pow_le_mono_r; lia). lia. }
  pose proof (Zdigits2_div_pow2 mx n0 Hn0' Hge) as Hdm'.
  rewrite <- Hm' in Hdm'. fold d in Hdm'.
  assert (Hp0 : 0 < 2 ^ n0) by (apply Z.pow_pos_nonneg; lia).
  assert (Hm'pos : 0 < shr_m mrs').
  { rewrite Hm'. apply Z.div_str_pos. lia. }
  destruct (round_nearest_even_cases mrs') as [Hm1 _]. fold m1 in Hm1.
  assert (Hm1b : shr_m mrs' <= m1 <= shr_m mrs' + 1)
    by (destruct Hm1 as [-> | [-> _]]; lia).
  pose proof (Zdigits2_le (shr_m mrs') m1 Hm'pos ltac:(lia)) as Hd1lo.
  destruct (Zdigits2_bounds (shr_m mrs') Hm'pos) as [_ Hm'hi].
  rewrite Hdm' in Hm'hi.
  assert (Hd1hi : Zdigits2 m1 <= d - n0 + 1).
  { apply Zdigits2_small; [| lia]. split; [lia |].
    replace (d - n0 + 1) with (Z.succ (d - n0)) by lia.
    rewrite Z.pow_succ_r by lia. lia. }
  assert (Hn2d : n2 <= Zdigits2 m1 - 1).
  { unfold n2, e', n0. rewrite !fexp64_eq. lia. }
  destruct (Zdigits2_bounds m1 ltac:(lia)) as [Hm1lo _].
  assert (Hge2 : 2 ^ n2 <= m1).
  { assert (2 ^ n2 <= 2 ^ (Zdigits2 m1 - 1))
      by (apply Z.pow_le_mono_r; lia). lia. }
  assert (Hp2 : 0 < 2 ^ n2) by (apply Z.pow_pos_nonneg; lia).
  exists (m1 / 2 ^ n2), (e' + n2).
  split; [apply Z.div_str_pos; lia |].
  split; [exact Heq |].
  split; [| split].
  - rewrite (Zdigits2_div_pow2 m1 n2 Hn2' Hge2).
    replace (Zdigits2 m1 - n2 + (e' + n2)) with (Zdigits2 m1 + e') by lia.
    unfold n2. lia.
  - replace (e' + n2) with (fexp64 (Zdigits2 m1 + e')) by (unfold n2; lia).
    apply fexp64_mono. unfold e'. lia.
  - rewrite (Zdigits2_div_pow2 m1 n2 Hn2' Hge2). unfold e'. lia.
Qed.

(** The quotient that [SFdiv_core_binary] hands to the rounding, away from
    the subnormal range: it is positive and its magnitude is the
    difference of the magnitudes of the operands, or one more. *)
Lemma SFdiv_core_binary_digits (m1 m2 : positive) (e1 e2 : Z) :
  let D := Zdigits2 (Zpos m1) + e1 - (Zdigits2 (Zpos m2) + e2) in
  -1020 <= D ->
  exists mz ez lz,
    SFdiv_core_binary F64.prec F64.emax (Zpos m1) e1 (Zpos m2) e2
    = (mz, ez, lz)
    /\ 0 < mz /\ ez <= fexp64 (Zdigits2 mz + ez)
    /\ D <= Zdigits2 mz + ez <= D + 1.
Proof.
  intros D0 HD0. unfold SFdiv_core_binary. cbv zeta.
  change (fexp F64.prec F64.emax
            (Zdigits2 (Zpos m1) + e1 - (Zdigits2 (Zpos m2) + e2)))
    with (fexp64 (Zdigits2 (Zpos m1) + e1 - (Zdigits2 (Zpos m2) + e2))).
  set (d1 := Zdigits2 (Zpos m1)) in *. set (d2 := Zdigits2 (Zpos m2)) in *.
  fold D0.
  set (e' := Z.min (fexp64 D0) (e1 - e2)).
  set (s := e1 - e2 - e').
  assert (Hs : 0 <= s) by (unfold s, e'; lia).
  set (m' := match s with
             | 0 => Zpos m1
             | Zpos _ => Z.shiftl (Zpos m1) s
             | Zneg _ => 0
             end).
  assert (Hm' : m' = Zpos m1 * 2 ^ s).
  { unfold m'. destruct s as [| p | p] eqn:Es.
    - simpl. lia.
    - apply Z.shiftl_mul_pow2. lia.
    - lia. }
  destruct (Z.div_eucl m' (Zpos m2)) as [q r] eqn:Hqr.
  assert (Hq : q = m' / Zpos m2) by (unfold Z.div; rewrite Hqr; reflexivity).
  exists q, e', (new_location (Zpos m2) r). split; [reflexivity |].
  assert (Hp : 0 < 2 ^ s) by (apply Z.pow_pos_nonneg; lia).
  assert (He' : e' <= D0 - 53).
  { unfold e'. rewrite fexp64_eq. lia. }
  set (k := d1 + s - d2).
  assert (Hk : 53 <= k) by (unfold k, D0, s in *; lia).
  assert (HkD : k + e' = D0) by (unfold k, s, D0; lia).
  destruct (Zdigits2_bounds (Zpos m1) ltac:(lia)) as [Hlo1 Hhi1].
  destruct (Zdigits2_bounds (Zpos m2) ltac:(lia)) as [Hlo2 Hhi2].
  fold d1 in Hlo1, Hhi1. fold d2 in Hlo2, Hhi2.
  pose proof (Zdigits2_pos (Zpos m1) ltac:(lia)) as Hd1. fold d1 in Hd1.
  pose proof (Zdigits2_pos (Zpos m2) ltac:(lia)) as Hd2. fold d2 in Hd2.
  assert (Hk1 : 0 < 2 ^ (k - 1)) by (apply Z.pow_pos_nonneg; lia).
  assert (Hqk : 2 ^ (k - 1) <= q).
  { rewrite Hq. apply Z.div_le_lower_bound; [lia |].
    rewrite Hm'.
    assert (Hpow : 2 ^ d2 * 2 ^ (k - 1) = 2 ^ (d1 - 1) * 2 ^ s).
    { rewrite <- !Z.pow_add_r by lia. f_equal. unfold k. lia. }
    nia. }
  assert (Hqk' : q < 2 ^ (k + 1)).
  { rewrite Hq. apply Z.div_lt_upper_bound; [lia |].
    rewrite Hm'.
    assert (Hpow : 2 ^ (d2 - 1) * 2 ^ (k + 1) = 2 ^ d1 * 2 ^ s).
    { rewrite <- !Z.pow_add_r by lia. f_equal. unfold k. lia. }
    assert (0 < 2 ^ (k + 1)) by (apply Z.pow_pos_nonneg; lia).
    nia. }
  assert (Hdq : k <= Zdigits2 q).
  { pose proof (Zdigits2_le (2 ^ (k - 1)) q ltac:(lia) Hqk) as Hle.
    rewrite Zdigits2_pow2 in Hle by lia. lia. }
  assert (Hdq' : Zdigits2 q <= k + 1)
    by (apply Zdigits2_small; lia).
  split; [lia |]. split; [rewrite fexp64_eq; lia | lia].
Qed.

(** A quotient of two doubles whose magnitudes differ by less than the
    exponent range is a canonical double: neither zero nor infinite, and
    its magnitude is the difference of the two, up to two. *)
Lemma SFdiv_finite_normal (sx sy : bool) (mx my : positive) (ex ey : Z) :
  let D := Zdigits2 (Zpos mx) + ex - (Zdigits2 (Zpos my) + ey) in
  -1020 <= D <= 1022 ->
  exists m e,
    SFdiv F64.prec F64.emax (S754_finite sx mx ex) (S754_finite sy my ey)
    = S754_finite (xorb sx sy) m e
    /\ fexp64 (Zpos (digits2_pos m) + e) = e /\ e <= 971
    /\ D <= Zdigits2 (Zpos m) + e <= D + 2.
Proof.
  intros D HD.
  destruct (SFdiv_core_binary_digits mx my ex ey ltac:(fold D; lia))
    as (mz & ez & lz & Hcore & Hmz & Hez & Hdz).
  fold D in Hdz.
  unfold SFdiv. rewrite Hcore.
  destruct (binary_round_aux_normal (xorb sx sy) mz ez lz Hmz Hez
              ltac:(lia))
    as (M & E & HM & Heq & Hcan & HE & Hmag).
  assert (HE' : E <= 971).
  { rewrite fexp64_eq in HE. lia. }
  rewrite Heq. destruct M as [| m | m]; try lia.
  exists m, E. unfold rounded. change (F64.emax - F64.prec) with 971.
  replace (E <=? 971) with true by (symmetry; apply Z.leb_le; exact HE').
  split; [reflexivity |]. split; [exact Hcan |]. split; [exact HE' |].
  lia.
Qed.

(** The hours of a ride: [duration / 60] is a positive double for every
    positive duration below 2^1024, of the magnitude of the duration less
    that of 60. *)
Lemma hours_of_minutes (dur : Z) :
  0 < dur < 2 ^ 1024 ->
  exists m e,
    F64.int_truediv dur 60 = Ok (S754_finite false m e)
    /\ Zdigits2 dur - 6 <= Zdigits2 (Zpos m) + e <= Zdigits2 dur - 4.
Proof.
  intros Hdur. destruct dur as [| p | p]; try lia.
  unfold F64.int_truediv. cbn [Z.abs Z.to_pos Z.ltb Z.compare].
  destruct (SFdiv_finite_normal false false p 60 0 0)
    as (m & e & Heq & _ & _ & Hmag).
  - cbv zeta. change (Zdigits2 60) with 6.
    pose proof (Zdigits2_pos (Zpos p) ltac:(lia)).
    pose proof (Zdigits2_small (Zpos p) 1024 ltac:(lia) ltac:(lia)).
    lia.
  - rewrite Heq. exists m, e. split; [reflexivity |].
    cbv zeta in Hmag. change (Zdigits2 60) with 6 in Hmag. lia.
Qed.

Lemma string_length_append (a b : string) :
  String.length (a ++ b)%string = (String.length a + String.length b)%nat.
Proof.
  induction a as [| c a IH]; [reflexivity |]. simpl. rewrite IH.
  reflexivity.
Qed.

(** X12. A ride of a positive duration below 2^500 minutes over a distance
    of at least 2^-501 km and below 2^500 km always gets a speed: the
    callback raises nothing - the hours are a positive double, so the
    division by them is defined - the speed is a positive finite double,
    and the record that the callback stores has as its pace that speed
    with one decimal followed by " km/h", which is not "N/A". *)
Theorem cycling_speed_is_computed (w : World) (d : Date)
    (n sub_type structure : string) (dur r : Z) (mx : positive) (ex : Z)
    (Hflag : confirm_save (session_state w) = Some true)
    (Hdate : date (session_state w) = Some d)
    (Hcat : category (session_state w) = Some "Cycling"%string)
    (Hduration : duration (session_state w) = Some dur)
    (Hnotes : notes (session_state w) = Some n)
    (Hrpe : rpe (session_state w) = Some r)
    (Hsub : sub_type_and_structure (session_state w) "Cycling"
            = Ok (sub_type, structure))
    (Hdist : distance_cycle (session_state w)
             = Some (S754_finite false mx ex))
    (Hmag : -500 <= Zdigits2 (Zpos mx) + ex <= 500)
    (Hdur : 0 < dur < 2 ^ 500) :
  exists mh eh ms es w' rec,
    F64.int_truediv dur 60 = Ok (S754_finite false mh eh)
    /\ F64.truediv (S754_finite false mx ex) (S754_finite false mh eh)
       = Ok (S754_finite false ms es)
    /\ save_workout_callback w = Ok w'
    /\ workouts w' = (workouts w ++ [rec])%list
    /\ w_distance_km rec = S754_finite false mx ex
    /\ w_pace rec
       = (Fmt.fmt_f 1 (S754_finite false ms es) ++ " km/h")%string
    /\ w_pace rec <> "N/A"%string.
Proof.
  assert (Hd1024 : 0 < dur < 2 ^ 1024).
  { split; [lia |].
    assert (2 ^ 500 <= 2 ^ 1024) by (apply Z.pow_le_mono_r; lia). lia. }
  destruct (hours_of_minutes dur Hd1024) as (mh & eh & Hh & Hhmag).
  pose proof (Zdigits2_pos dur ltac:(lia)) as Hd1.
  pose proof (Zdigits2_small dur 500 ltac:(lia) ltac:(lia)) as Hd2.
  destruct (SFdiv_finite_normal false false mx mh ex eh)
    as (ms & es & Hs & _ & _ & _).
  { cbv zeta. lia. }
  cbn [xorb] in Hs.
  assert (Hpos : F64.gt_int (S754_finite false mx ex) 0 = true).
  { unfold F64.gt_int, F64.compare_int. cbn [cond_Zopp].
    destruct (0 <=? ex) eqn:He.
    - apply Z.leb_le in He.
      assert (0 < 2 ^ ex) by (apply Z.pow_pos_nonneg; lia).
      assert (Hc : (Zpos mx * 2 ^ ex ?= 0) = Gt)
        by (apply Z.compare_gt_iff; nia).
      rewrite Hc. reflexivity.
    - reflexivity. }
  assert (Hdp : distance_and_pace (session_state w) "Cycling" dur
                = Ok (S754_finite false mx ex,
                      (Fmt.fmt_f 1 (S754_finite false ms es)
                         ++ " km/h")%string)).
  { unfold distance_and_pace, cycling_speed.
    cbn [String.eqb Ascii.eqb Bool.eqb]. rewrite Hdist.
    cbn [attr bind Ok]. rewrite Hpos.
    replace (0 <? dur) with true by (symmetry; apply Z.ltb_lt; lia).
    cbn [andb]. rewrite Hh. unfold F64.truediv.
    cbn [bind Ok F64.is_zero]. rewrite Hs. reflexivity. }
  exists mh, eh, ms, es. eexists. eexists.
  split; [exact Hh |].
  split; [unfold F64.truediv; cbn [F64.is_zero]; rewrite Hs; reflexivity |].
  split; [exact (save_workout_callback_saves w d "Cycling" n sub_type
                   structure _ dur r _ Hflag Hdate Hcat Hduration Hnotes
                   Hrpe Hsub Hdp) |].
  split; [reflexivity |]. split; [reflexivity |]. split; [reflexivity |].
  cbn [w_pace]. intros Heq.
  apply (f_equal String.length) in Heq.
  rewrite string_length_append in Heq. simpl in Heq. lia.
Qed.

Lemma cycling_speed_is_computed_witness :
  exists w' rec,
    save_workout_callback (world_of (form "Cycling" 60 f20 false "" ""))
    = Ok w'
    /\ workouts w' = [rec]
    /\ w_pace rec = "20.0 km/h"%string.
Proof.
  destruct (cycling_speed_is_computed
              (world_of (form "Cycling" 60 f20 false "" ""))
              {| year := 2024; month := 1; day := 9 |}
              "felt good" "Easy Spin" "" 60 5 5629499534213120 (-48)
              eq_refl eq_refl eq_refl eq_refl eq_refl eq_refl eq_refl
              eq_refl
              ltac:(split; vm_compute; discriminate)
              ltac:(split; reflexivity))
    as (mh & eh & ms & es & w' & rec & Hh & Hs & Hcb & Hw & _ & Hp & _).
  exists w', rec. split; [exact Hcb |]. split; [exact Hw |].
  rewrite Hp. vm_compute in Hh. injection Hh as <- <-.
  vm_compute in Hs. injection Hs as <- <-. vm_compute. reflexivity.
Defined.

(** ** The record by category *)

Local Open Scope string_scope.
Local Open Scope list_scope.

(** X13. The sub-type of a saved run is the chosen run type and that of a
    saved ride the chosen ride type; when it is "Workout" the structure of
    the record is the text of the structure input, as typed. *)
Theorem interval_structure_stored_verbatim (w w' : World) (cat : string)
    (Hflag : confirm_save (session_state w) = Some true)
    (Hcat : category (session_state w) = Some cat)
    (Hkind : cat = "Running" \/ cat = "Cycling")
    (Hrun : save_workout_callback w = Ok w') :
  exists rec,
    workouts w' = workouts w ++ [rec]
    /\ (if String.eqb cat "Running"
        then subtype_run (session_state w)
        else subtype_ride (session_state w)) = Some (w_sub_type rec)
    /\ (w_sub_type rec = "Workout" ->
        structure_input (session_state w) = Some (w_structure rec)).
Proof.
  destruct (save_workout_callback_inv w w' Hflag Hrun)
    as (d & cat' & n & sub_type & structure & pace & dur & r & dist
        & Hcat' & _ & Hs & _ & ->).
  rewrite Hcat in Hcat'. injection Hcat' as <-.
  eexists. split; [reflexivity |]. cbn [w_sub_type w_structure].
  unfold sub_type_and_structure in Hs.
  destruct Hkind as [-> | ->]; cbn [String.eqb Ascii.eqb Bool.eqb] in *.
  - inv_bind Hs. apply attr_inv in Ha. rename a into sub.
    destruct (String.eqb sub "Workout") eqn:Ew.
    + inv_bind Hs. apply attr_inv in Ha0. injection Hs as <- <-.
      split; [exact Ha | intros _; exact Ha0].
    + injection Hs as <- <-. split; [exact Ha |].
      intros ->. discriminate Ew.
  - inv_bind Hs. apply attr_inv in Ha. rename a into sub.
    destruct (String.eqb sub "Workout") eqn:Ew.
    + inv_bind Hs. apply attr_inv in Ha0. injection Hs as <- <-.
      split; [exact Ha | intros _; exact Ha0].
    + injection Hs as <- <-. split; [exact Ha |].
      intros ->. discriminate Ew.
Qed.

Lemma interval_structure_stored_verbatim_witness :
  exists w' rec,
    save_workout_callback (world_of interval_form) = Ok w'
    /\ workouts w' = [rec]
    /\ w_sub_type rec = "Workout"
    /\ w_structure rec = "6 x 800m".
Proof.
  eexists.
  destruct (interval_structure_stored_verbatim (world_of interval_form) _
              "Running" eq_refl eq_refl (or_introl eq_refl) eq_refl)
    as (rec & Hw & Hsub & Hst).
  exists rec. split; [reflexivity |]. split; [exact Hw |].
  cbn [String.eqb Ascii.eqb Bool.eqb session_state subtype_run world_of
       interval_form] in Hsub.
  injection Hsub as Hsub. split; [symmetry; exact Hsub |].
  specialize (Hst (eq_sym Hsub)).
  cbn [session_state structure_input world_of interval_form] in Hst.
  injection Hst as Hst. symmetry. exact Hst.
Defined.

(** X14. The distance of a saved record is that of the input of its own
    category: the running distance for a run, the cycling one for a ride,
    the swimming one for a swim, whatever the other two inputs hold; any
    other category is saved with the distance 0.0. *)
Theorem stored_distance_by_category (w w' : World) (cat : string)
    (Hflag : confirm_save (session_state w) = Some true)
    (Hcat : category (session_state w) = Some cat)
    (Hrun : save_workout_callback w = Ok w') :
  exists rec,
    workouts w' = workouts w ++ [rec]
    /\ w_category rec = cat
    /\ (cat = "Running" ->
        distance (session_state w) = Some (w_distance_km rec))
    /\ (cat = "Cycling" ->
        distance_cycle (session_state w) = Some (w_distance_km rec))
    /\ (cat = "Swimming" ->
        distance_swim (session_state w) = Some (w_distance_km rec))
    /\ (cat <> "Running" -> cat <> "Cycling" -> cat <> "Swimming" ->
        w_distance_km rec = F64.zero).
Proof.
  destruct (save_workout_callback_inv w w' Hflag Hrun)
    as (d & cat' & n & sub_type & structure & pace & dur & r & dist
        & Hcat' & _ & _ & Hp & ->).
  rewrite Hcat in Hcat'. injection Hcat' as <-.
  eexists. split; [reflexivity |]. cbn [w_category w_distance_km].
  split; [reflexivity |].
  unfold distance_and_pace in Hp.
  destruct (String.eqb_spec cat "Running") as [-> | N1].
  { inv_bind Hp. apply attr_inv in Ha. rename a into x.
    assert (Hx : dist = x).
    { inv_bind Hp. destruct a.
      - inv_bind Hp. injection Hp as <- _. reflexivity.
      - destruct (F64.gt_int x 0).
        + inv_bind Hp. injection Hp as <- _. reflexivity.
        + injection Hp as <- _. reflexivity. }
    subst x.
    split; [intros _; exact Ha |].
    split; [discriminate |]. split; [discriminate |]. congruence. }
  destruct (String.eqb_spec cat "Cycling") as [-> | N2].
  { inv_bind Hp. apply attr_inv in Ha. rename a into x.
    assert (Hx : dist = x).
    { destruct (F64.gt_int x 0 && (0 <? dur)%Z).
      - inv_bind Hp. injection Hp as <- _. reflexivity.
      - injection Hp as <- _. reflexivity. }
    subst x.
    split; [discriminate |]. split; [intros _; exact Ha |].
    split; [discriminate |]. congruence. }
  destruct (String.eqb_spec cat "Swimming") as [-> | N3].
  { inv_bind Hp. apply attr_inv in Ha. injection Hp as <- _.
    split; [discriminate |]. split; [discriminate |].
    split; [intros _; exact Ha |]. congruence. }
  injection Hp as <- _.
  split; [congruence |]. split; [congruence |]. split; [congruence |].
  reflexivity.
Qed.

Lemma stored_distance_by_category_witness :
  exists w' rec,
    save_workout_callback (world_of (form "Gym" 45 f20 false "" "")) = Ok w'
    /\ workouts w' = [rec]
    /\ distance (form "Gym" 45 f20 false "" "") = Some f20
    /\ w_distance_km rec = F64.zero.
Proof.
  eexists.
  destruct (stored_distance_by_category
              (world_of (form "Gym" 45 f20 false "" "")) _ "Gym"
              eq_refl eq_refl eq_refl)
    as (rec & Hw & _ & _ & _ & _ & Hz).
  exists rec. split; [reflexivity |]. split; [exact Hw |].
  split; [reflexivity |].
  apply Hz; discriminate.
Defined.

(** X15. A save leaves a blank form: the distance inputs that exist are
    back to 0.0 and the structure input to the empty text, an input that
    was never drawn is not created, the chosen sub-types stay, and neither
    preview shows a pace. *)
Theorem form_after_save_is_blank (w w' : World)
    (Hflag : confirm_save (session_state w) = Some true)
    (Hrun : save_workout_callback w = Ok w') :
  let ss := session_state w in
  let ss' := session_state w' in
  distance ss' = reset_if_present F64.zero (distance ss)
  /\ distance_cycle ss' = reset_if_present F64.zero (distance_cycle ss)
  /\ distance_swim ss' = reset_if_present F64.zero (distance_swim ss)
  /\ structure_input ss' = reset_if_present "" (structure_input ss)
  /\ (distance ss = None -> distance ss' = None)
  /\ subtype_run ss' = subtype_run ss
  /\ subtype_ride ss' = subtype_ride ss
  /\ running_preview ss' = Ok None
  /\ cycling_preview ss' = Ok None.
Proof.
  destruct (save_workout_callback_inv w w' Hflag Hrun)
    as (d & cat & n & sub_type & structure & pace & dur & r & dist
        & _ & _ & _ & _ & ->).
  cbn [session_state reset_inputs distance distance_cycle distance_swim
       structure_input subtype_run subtype_ride].
  repeat (split; [reflexivity |]).
  split; [intros ->; reflexivity |].
  repeat (split; [reflexivity |]).
  split.
  - unfold running_preview.
    cbn [reset_inputs manual_pace attr bind Ok distance duration get_or].
    destruct (distance (session_state w)); reflexivity.
  - unfold cycling_preview.
    cbn [reset_inputs distance_cycle duration get_or].
    destruct (distance_cycle (session_state w)); reflexivity.
Qed.

Lemma form_after_save_is_blank_witness :
  exists w',
    save_workout_callback (world_of (form "Running" 30 f5 false "" ""))
    = Ok w'
    /\ distance (session_state w') = Some F64.zero
    /\ running_preview (form "Running" 30 f5 false "" "")
       = Ok (Some "Calc: 6:00 /km")
    /\ running_preview (session_state w') = Ok None.
Proof.
  eexists. split; [reflexivity |].
  destruct (form_after_save_is_blank
              (world_of (form "Running" 30 f5 false "" "")) _
              eq_refl eq_refl)
    as (Hd & _ & _ & _ & _ & _ & _ & Hp & _).
  split; [exact Hd |]. split; [vm_compute; reflexivity | exact Hp].
Defined.

(** ** When the chart is drawn *)

Local Open Scope Z_scope.

Lemma weeks_from_le_last (L H x : Timestamp) :
  In x (weeks_from L (Z.to_nat ((H - L) / Timedelta_weeks 1 + 1))) ->
  x <= H.
Proof.
  unfold weeks_from. rewrite in_map_iff. intros (k & <- & Hk).
  apply in_seq in Hk. destruct Hk as [_ Hk]. simpl in Hk.
  assert (Hq : Z.of_nat k <= (H - L) / Timedelta_weeks 1) by lia.
  unfold Timedelta_weeks in *. rewrite NS_PER_DAY_eq in *.
  change (1 * 7 * 86400000000000) with 604800000000000 in *.
  pose proof (Z.mul_div_le (H - L) 604800000000000 ltac:(lia)).
  nia.
Qed.

(** X16. The weekly chart is drawn exactly when some chosen record is
    recent: when the Monday that labels the bucket of one of the chosen
    records is not older than twelve weeks before the reading of the
    clock.  Buckets alone do not draw it, and with no chosen record there
    is no chart. *)
Theorem weekly_chart_drawn_iff_recent
    (float64_sum : list F64.float -> F64.float) (df : list Row)
    (activity_filter : string) (t1 t2 t3 : Timestamp)
    (Hdates : Forall (fun r => is_midnight (r_date r))
                     (df_filtered df activity_filter)) :
  weekly_chart (summary_at float64_sum df activity_filter t1 t2 t3) <> None
  <-> exists r,
        In r (df_filtered df activity_filter)
        /\ t3 - Timedelta_weeks 12 <= week_label (r_date r).
Proof.
  assert (Hchart :
            weekly_chart (summary_at float64_sum df activity_filter t1 t2 t3)
            <> None
            <-> df_viz df activity_filter t3 <> []).
  { unfold summary_at. cbn [weekly_chart].
    destruct (df_viz df activity_filter t3); split; intros H;
      congruence. }
  rewrite Hchart. clear Hchart. unfold df_viz, df_weekly. cbv zeta.
  set (rows := df_filtered df activity_filter) in *.
  set (thr := t3 - Timedelta_weeks 12).
  destruct rows as [| r0 rows'] eqn:Erows.
  { split; [intros H; exfalso; apply H; reflexivity | intros (r & [] & _)]. }
  rewrite <- Erows in *.
  assert (Hne : rows <> []) by (rewrite Erows; discriminate).
  destruct (resample_W_MON_sum_spec rows Hne Hdates)
    as (lo & hi & Hlo & Hhi & Hall & ->).
  assert (Hmid : forall d, In d (map r_date rows) -> is_midnight d).
  { intros d Hd. apply in_map_iff in Hd. destruct Hd as (r & <- & Hr).
    rewrite Forall_forall in Hdates. apply Hdates; exact Hr. }
  set (keys := weeks_from (week_label lo)
                 (Z.to_nat ((week_label hi - week_label lo)
                            / Timedelta_weeks 1 + 1))).
  split.
  - match goal with |- ?v <> [] -> _ => remember v as viz eqn:Ef end.
    intros Hviz.
    destruct viz as [| b l]; [exfalso; apply Hviz; reflexivity |].
    assert (Hb : In b (b :: l)) by (left; reflexivity).
    rewrite Ef in Hb. apply filter_In in Hb. destruct Hb as [Hb Hthr].
    apply in_map_iff in Hb. destruct Hb as (L & <- & HL).
    cbn [fst] in Hthr. apply Z.leb_le in Hthr.
    apply weeks_from_le_last in HL.
    apply in_map_iff in Hhi. destruct Hhi as (r & Hr & Hin).
    exists r. split; [exact Hin |]. rewrite Hr. fold thr. lia.
  - intros (r & Hin & Hthr).
    assert (HL : In (week_label (r_date r)) keys).
    { apply week_label_in_range.
      - apply Hmid; exact Hlo.
      - apply Hmid; exact Hhi.
      - apply Hmid. apply in_map. exact Hin.
      - rewrite Forall_forall in Hall. apply Hall. apply in_map.
        exact Hin. }
    intros Hnil.
    assert (Hb : In (week_label (r_date r),
                     int64_sum
                       (map r_duration_min
                            (filter (fun r' => week_label (r_date r')
                                               =? week_label (r_date r))
                                    rows)))
                    []).
    { rewrite <- Hnil. apply filter_In. split.
      - apply in_map_iff. exists (week_label (r_date r)).
        split; [reflexivity | exact HL].
      - cbn [fst]. apply Z.leb_le. exact Hthr. }
    destruct Hb.
Qed.

Lemma weekly_chart_drawn_iff_recent_witness :
  weekly_chart (summary_at float64_sum_seq df_gap "Running"
                  (Timestamp_ymd 2024 1 25) (Timestamp_ymd 2024 1 25)
                  (Timestamp_ymd 2024 1 25))
  <> None.
Proof.
  apply (weekly_chart_drawn_iff_recent float64_sum_seq df_gap "Running"
           (Timestamp_ymd 2024 1 25) (Timestamp_ymd 2024 1 25)
           (Timestamp_ymd 2024 1 25) df_gap_midnight).
  exists (row 2024 1 8 "Running" 30 f5).
  split; [left; reflexivity |]. vm_compute. discriminate.
Defined.
